(** * ns16550: a shallow embedding of Xen's 16550-series UART driver

    The development follows [xen/drivers/char/ns16550.c] as built for x86
    ([HAS_IOPORTS], [HAS_PCI] and [CONFIG_X86] defined, no device tree).
    C integers are [Z] with their wrap-around written out; the descriptor
    [struct ns16550] is a record; everything the driver does to the outside
    (port and memory accesses, PCI configuration writes, timers, upcalls
    into the generic serial layer) is appended to a trace, and the value
    of every register read is a function of that trace. *)

From Stdlib Require Import ZArith List Lia Bool String Ascii FinFun.
Import ListNotations.

Local Open Scope Z_scope.

(** ** C integer conversions *)

Definition to_u8 (v : Z) : Z := v mod 2 ^ 8.
Definition to_u16 (v : Z) : Z := v mod 2 ^ 16.
Definition to_u32 (v : Z) : Z := v mod 2 ^ 32.
Definition to_u64 (v : Z) : Z := v mod 2 ^ 64.

(** [char] is signed on x86. *)
Definition to_char (v : Z) : Z := (v + 2 ^ 7) mod 2 ^ 8 - 2 ^ 7.
Definition to_int (v : Z) : Z := (v + 2 ^ 31) mod 2 ^ 32 - 2 ^ 31.

(** Truth value of a C scalar. *)
Definition nonzero (v : Z) : bool := negb (v =? 0).

Inductive outcome (A : Type) : Type :=
| Done (a : A)   (* the function returned *)
| Diverge        (* the loop budget of the model ran out *)
| Fault.         (* a processor trap: divide error or BUG() *)
Arguments Done {A} a.
Arguments Diverge {A}.
Arguments Fault {A}.

Definition bind {A B : Type} (o : outcome A) (k : A -> outcome B) : outcome B :=
  match o with
  | Done a => k a
  | Diverge => Diverge
  | Fault => Fault
  end.

Notation "x <- o ;; k" := (bind o (fun x => k))
  (at level 61, o at next level, right associativity).

(** Signed and unsigned C division; a zero divisor traps. *)
Definition int_div (a b : Z) : outcome Z :=
  if b =? 0 then Fault else Done (to_int (Z.quot a b)).
Definition uint_div (a b : Z) : outcome Z :=
  if b =? 0 then Fault else Done (Z.quot a b).

(** ** Constants of the headers *)

(** Modelled from the spec: the headers [xen/8250-uart.h], [xen/serial.h],
    [xen/pci_regs.h] and [xen/errno.h] are not part of the sources at hand.
    The values below are those of the 16550 register map and of the PCI
    configuration header the spec's glossary refers to (interrupt enable,
    line status, modem control and status registers, divisor latch, BAR). *)
Definition UART_RBR : Z := 0x00.
Definition UART_THR : Z := 0x00.
Definition UART_IER : Z := 0x01.
Definition UART_IIR : Z := 0x02.
Definition UART_FCR : Z := 0x02.
Definition UART_LCR : Z := 0x03.
Definition UART_MCR : Z := 0x04.
Definition UART_LSR : Z := 0x05.
Definition UART_MSR : Z := 0x06.
Definition UART_USR : Z := 0x1f.
Definition UART_DLL : Z := 0x00.
Definition UART_DLM : Z := 0x01.

Definition UART_IER_ERDAI : Z := 0x01.
Definition UART_IER_ETHREI : Z := 0x02.
Definition UART_IIR_NOINT : Z := 0x01.
Definition UART_IIR_BSY : Z := 0x07.
Definition UART_FCR_ENABLE : Z := 0x01.
Definition UART_FCR_CLRX : Z := 0x02.
Definition UART_FCR_CLTX : Z := 0x04.
Definition UART_FCR_TRG14 : Z := 0xc0.
Definition UART_LCR_DLAB : Z := 0x80.
Definition UART_MCR_DTR : Z := 0x01.
Definition UART_MCR_RTS : Z := 0x02.
Definition UART_MCR_OUT2 : Z := 0x08.
Definition UART_MCR_LOOP : Z := 0x10.
Definition UART_LSR_DR : Z := 0x01.
Definition UART_LSR_THRE : Z := 0x20.

Definition UART_PARITY_NONE : Z := Z.shiftl 0 3.
Definition UART_PARITY_ODD : Z := Z.shiftl 1 3.
Definition UART_PARITY_EVEN : Z := Z.shiftl 3 3.
Definition UART_PARITY_MARK : Z := Z.shiftl 5 3.
Definition UART_PARITY_SPACE : Z := Z.shiftl 7 3.

Definition UART_CLOCK_HZ : Z := 1843200.
Definition BAUD_AUTO : Z := -1.

(** [RESUME_DELAY] is [MILLISECS(10)]; timer delays are kept in
    milliseconds throughout. *)
Definition RESUME_DELAY : Z := 10.
Definition RESUME_RETRIES : Z := 100.

Definition EIO : Z := 5.

Definition PCI_COMMAND : Z := 0x04.
Definition PCI_COMMAND_IO : Z := 0x1.
Definition PCI_CLASS_DEVICE : Z := 0x0a.
Definition PCI_HEADER_TYPE : Z := 0x0e.
Definition PCI_BASE_ADDRESS_0 : Z := 0x10.
Definition PCI_BASE_ADDRESS_SPACE_IO : Z := 0x01.
Definition PCI_IO_BASE : Z := 0x1c.
Definition PCI_INTERRUPT_LINE : Z := 0x3c.
Definition PCI_INTERRUPT_PIN : Z := 0x3d.

Definition PCI_DEVFN (slot func : Z) : Z :=
  Z.lor (Z.shiftl (Z.land slot 0x1f) 3) (Z.land func 0x07).

(** [~PAGE_MASK] on x86: the offset of an address within its 4k page. *)
Definition page_offset (a : Z) : Z := Z.land a 0xfff.

(** ** What the driver does to the outside *)

Inductive access : Type :=
| Inb (port : Z)
| Readb (addr : Z)
| Readl (addr : Z).

Inductive timer_id : Type := PollTimer | ResumeTimer.

Inductive event : Type :=
| EvRead (a : access) (v : Z)
| EvOutb (v port : Z)
| EvWriteb (v addr : Z)
| EvWritel (v addr : Z)
| EvPciWrite16 (b d f reg v : Z)
| EvPciWrite32 (b d f reg v : Z)
| EvRxInterrupt
| EvTxInterrupt
| EvInitTimer (t : timer_id)
| EvSetTimer (t : timer_id) (delay_ms : Z)
| EvStopTimer (t : timer_id)
| EvAsyncTransmit
| EvSetupIrq (irq : Z)
| EvPciHide (bus devfn : Z)
| EvSetFixmap (idx addr : Z)
| EvIoportsDeny (s e : Z)
| EvRegisterUart (idx : Z)
| EvPrintk (msg : string).

(** The trace keeps the most recent event first. *)
Definition history : Type := list event.

(** The collaborators the file only declares: the bus (the value a read
    returns is a function of everything done so far), the configuration
    space of one PCI function, the fixmap, and the string helpers of the
    C library.  [parse_pci] yields the rest of the string and the
    bus/device/function triple, or nothing for a null return. *)
Class Platform : Type := {
  pci_fn : Type;
  conf_read8 : pci_fn -> Z -> Z;
  conf_read16 : pci_fn -> Z -> Z;
  conf_read32 : pci_fn -> Z -> Z;
  conf_write16 : pci_fn -> Z -> Z -> pci_fn;
  conf_write32 : pci_fn -> Z -> Z -> pci_fn;
  bus_read : history -> access -> Z;
  FIX_COM_BEGIN : Z;
  fix_to_virt : Z -> Z;
  setup_irq : history -> Z -> Z;
  ioports_deny_access : history -> Z -> Z -> Z;
  simple_strtoul : string -> Z -> Z * string;
  simple_strtol : string -> Z -> Z * string;
  parse_pci : string -> option (string * (Z * Z * Z))
}.

(** ** The port descriptor [struct ns16550] *)

Record ns16550 : Type := mk_ns16550 {
  baud : Z; clock_hz : Z; data_bits : Z; parity : Z; stop_bits : Z;
  fifo_size : Z; irq : Z;
  io_base : Z;
  io_size : Z;
  reg_shift : Z;
  reg_width : Z;
  remapped_io_base : Z;          (* 0 is NULL *)
  timer : option Z;              (* armed with the given delay *)
  resume_timer : option Z;
  timeout_ms : Z;
  intr_works : bool;
  dw_usr_bsy : bool;
  pb_bdf : Z * Z * Z;
  ps_bdf : Z * Z * Z;
  pb_bdf_enable : bool;
  ps_bdf_enable : bool;
  bar : Z;
  cr : Z;
  bar_idx : Z
}.

Definition set_baud (v : Z) (u : ns16550) : ns16550 :=
  mk_ns16550 v (clock_hz u) (data_bits u) (parity u) (stop_bits u)
    (fifo_size u) (irq u) (io_base u) (io_size u) (reg_shift u) (reg_width u)
    (remapped_io_base u) (timer u) (resume_timer u) (timeout_ms u)
    (intr_works u) (dw_usr_bsy u) (pb_bdf u) (ps_bdf u) (pb_bdf_enable u)
    (ps_bdf_enable u) (bar u) (cr u) (bar_idx u).
Definition set_clock_hz (v : Z) (u : ns16550) : ns16550 :=
  mk_ns16550 (baud u) v (data_bits u) (parity u) (stop_bits u)
    (fifo_size u) (irq u) (io_base u) (io_size u) (reg_shift u) (reg_width u)
    (remapped_io_base u) (timer u) (resume_timer u) (timeout_ms u)
    (intr_works u) (dw_usr_bsy u) (pb_bdf u) (ps_bdf u) (pb_bdf_enable u)
    (ps_bdf_enable u) (bar u) (cr u) (bar_idx u).
Definition set_data_bits (v : Z) (u : ns16550) : ns16550 :=
  mk_ns16550 (baud u) (clock_hz u) v (parity u) (stop_bits u)
    (fifo_size u) (irq u) (io_base u) (io_size u) (reg_shift u) (reg_width u)
    (remapped_io_base u) (timer u) (resume_timer u) (timeout_ms u)
    (intr_works u) (dw_usr_bsy u) (pb_bdf u) (ps_bdf u) (pb_bdf_enable u)
    (ps_bdf_enable u) (bar u) (cr u) (bar_idx u).
Definition set_parity (v : Z) (u : ns16550) : ns16550 :=
  mk_ns16550 (baud u) (clock_hz u) (data_bits u) v (stop_bits u)
    (fifo_size u) (irq u) (io_base u) (io_size u) (reg_shift u) (reg_width u)
    (remapped_io_base u) (timer u) (resume_timer u) (timeout_ms u)
    (intr_works u) (dw_usr_bsy u) (pb_bdf u) (ps_bdf u) (pb_bdf_enable u)
    (ps_bdf_enable u) (bar u) (cr u) (bar_idx u).
Definition set_stop_bits (v : Z) (u : ns16550) : ns16550 :=
  mk_ns16550 (baud u) (clock_hz u) (data_bits u) (parity u) v
    (fifo_size u) (irq u) (io_base u) (io_size u) (reg_shift u) (reg_width u)
    (remapped_io_base u) (timer u) (resume_timer u) (timeout_ms u)
    (intr_works u) (dw_usr_bsy u) (pb_bdf u) (ps_bdf u) (pb_bdf_enable u)
    (ps_bdf_enable u) (bar u) (cr u) (bar_idx u).
Definition set_fifo_size (v : Z) (u : ns16550) : ns16550 :=
  mk_ns16550 (baud u) (clock_hz u) (data_bits u) (parity u) (stop_bits u)
    v (irq u) (io_base u) (io_size u) (reg_shift u) (reg_width u)
    (remapped_io_base u) (timer u) (resume_timer u) (timeout_ms u)
    (intr_works u) (dw_usr_bsy u) (pb_bdf u) (ps_bdf u) (pb_bdf_enable u)
    (ps_bdf_enable u) (bar u) (cr u) (bar_idx u).
Definition set_irq (v : Z) (u : ns16550) : ns16550 :=
  mk_ns16550 (baud u) (clock_hz u) (data_bits u) (parity u) (stop_bits u)
    (fifo_size u) v (io_base u) (io_size u) (reg_shift u) (reg_width u)
    (remapped_io_base u) (timer u) (resume_timer u) (timeout_ms u)
    (intr_works u) (dw_usr_bsy u) (pb_bdf u) (ps_bdf u) (pb_bdf_enable u)
    (ps_bdf_enable u) (bar u) (cr u) (bar_idx u).
Definition set_io_base (v : Z) (u : ns16550) : ns16550 :=
  mk_ns16550 (baud u) (clock_hz u) (data_bits u) (parity u) (stop_bits u)
    (fifo_size u) (irq u) v (io_size u) (reg_shift u) (reg_width u)
    (remapped_io_base u) (timer u) (resume_timer u) (timeout_ms u)
    (intr_works u) (dw_usr_bsy u) (pb_bdf u) (ps_bdf u) (pb_bdf_enable u)
    (ps_bdf_enable u) (bar u) (cr u) (bar_idx u).
Definition set_io_size (v : Z) (u : ns16550) : ns16550 :=
  mk_ns16550 (baud u) (clock_hz u) (data_bits u) (parity u) (stop_bits u)
    (fifo_size u) (irq u) (io_base u) v (reg_shift u) (reg_width u)
    (remapped_io_base u) (timer u) (resume_timer u) (timeout_ms u)
    (intr_works u) (dw_usr_bsy u) (pb_bdf u) (ps_bdf u) (pb_bdf_enable u)
    (ps_bdf_enable u) (bar u) (cr u) (bar_idx u).
Definition set_reg_shift (v : Z) (u : ns16550) : ns16550 :=
  mk_ns16550 (baud u) (clock_hz u) (data_bits u) (parity u) (stop_bits u)
    (fifo_size u) (irq u) (io_base u) (io_size u) v (reg_width u)
    (remapped_io_base u) (timer u) (resume_timer u) (timeout_ms u)
    (intr_works u) (dw_usr_bsy u) (pb_bdf u) (ps_bdf u) (pb_bdf_enable u)
    (ps_bdf_enable u) (bar u) (cr u) (bar_idx u).
Definition set_reg_width (v : Z) (u : ns16550) : ns16550 :=
  mk_ns16550 (baud u) (clock_hz u) (data_bits u) (parity u) (stop_bits u)
    (fifo_size u) (irq u) (io_base u) (io_size u) (reg_shift u) v
    (remapped_io_base u) (timer u) (resume_timer u) (timeout_ms u)
    (intr_works u) (dw_usr_bsy u) (pb_bdf u) (ps_bdf u) (pb_bdf_enable u)
    (ps_bdf_enable u) (bar u) (cr u) (bar_idx u).
Definition set_remapped_io_base (v : Z) (u : ns16550) : ns16550 :=
  mk_ns16550 (baud u) (clock_hz u) (data_bits u) (parity u) (stop_bits u)
    (fifo_size u) (irq u) (io_base u) (io_size u) (reg_shift u) (reg_width u)
    v (timer u) (resume_timer u) (timeout_ms u)
    (intr_works u) (dw_usr_bsy u) (pb_bdf u) (ps_bdf u) (pb_bdf_enable u)
    (ps_bdf_enable u) (bar u) (cr u) (bar_idx u).
Definition set_timer_field (v : option Z) (u : ns16550) : ns16550 :=
  mk_ns16550 (baud u) (clock_hz u) (data_bits u) (parity u) (stop_bits u)
    (fifo_size u) (irq u) (io_base u) (io_size u) (reg_shift u) (reg_width u)
    (remapped_io_base u) v (resume_timer u) (timeout_ms u)
    (intr_works u) (dw_usr_bsy u) (pb_bdf u) (ps_bdf u) (pb_bdf_enable u)
    (ps_bdf_enable u) (bar u) (cr u) (bar_idx u).
Definition set_resume_timer_field (v : option Z) (u : ns16550) : ns16550 :=
  mk_ns16550 (baud u) (clock_hz u) (data_bits u) (parity u) (stop_bits u)
    (fifo_size u) (irq u) (io_base u) (io_size u) (reg_shift u) (reg_width u)
    (remapped_io_base u) (timer u) v (timeout_ms u)
    (intr_works u) (dw_usr_bsy u) (pb_bdf u) (ps_bdf u) (pb_bdf_enable u)
    (ps_bdf_enable u) (bar u) (cr u) (bar_idx u).
Definition set_timeout_ms (v : Z) (u : ns16550) : ns16550 :=
  mk_ns16550 (baud u) (clock_hz u) (data_bits u) (parity u) (stop_bits u)
    (fifo_size u) (irq u) (io_base u) (io_size u) (reg_shift u) (reg_width u)
    (remapped_io_base u) (timer u) (resume_timer u) v
    (intr_works u) (dw_usr_bsy u) (pb_bdf u) (ps_bdf u) (pb_bdf_enable u)
    (ps_bdf_enable u) (bar u) (cr u) (bar_idx u).
Definition set_intr_works (v : bool) (u : ns16550) : ns16550 :=
  mk_ns16550 (baud u) (clock_hz u) (data_bits u) (parity u) (stop_bits u)
    (fifo_size u) (irq u) (io_base u) (io_size u) (reg_shift u) (reg_width u)
    (remapped_io_base u) (timer u) (resume_timer u) (timeout_ms u)
    v (dw_usr_bsy u) (pb_bdf u) (ps_bdf u) (pb_bdf_enable u)
    (ps_bdf_enable u) (bar u) (cr u) (bar_idx u).
Definition set_pb_bdf (v : Z * Z * Z) (u : ns16550) : ns16550 :=
  mk_ns16550 (baud u) (clock_hz u) (data_bits u) (parity u) (stop_bits u)
    (fifo_size u) (irq u) (io_base u) (io_size u) (reg_shift u) (reg_width u)
    (remapped_io_base u) (timer u) (resume_timer u) (timeout_ms u)
    (intr_works u) (dw_usr_bsy u) v (ps_bdf u) (pb_bdf_enable u)
    (ps_bdf_enable u) (bar u) (cr u) (bar_idx u).
Definition set_ps_bdf (v : Z * Z * Z) (u : ns16550) : ns16550 :=
  mk_ns16550 (baud u) (clock_hz u) (data_bits u) (parity u) (stop_bits u)
    (fifo_size u) (irq u) (io_base u) (io_size u) (reg_shift u) (reg_width u)
    (remapped_io_base u) (timer u) (resume_timer u) (timeout_ms u)
    (intr_works u) (dw_usr_bsy u) (pb_bdf u) v (pb_bdf_enable u)
    (ps_bdf_enable u) (bar u) (cr u) (bar_idx u).
Definition set_pb_bdf_enable (v : bool) (u : ns16550) : ns16550 :=
  mk_ns16550 (baud u) (clock_hz u) (data_bits u) (parity u) (stop_bits u)
    (fifo_size u) (irq u) (io_base u) (io_size u) (reg_shift u) (reg_width u)
    (remapped_io_base u) (timer u) (resume_timer u) (timeout_ms u)
    (intr_works u) (dw_usr_bsy u) (pb_bdf u) (ps_bdf u) v
    (ps_bdf_enable u) (bar u) (cr u) (bar_idx u).
Definition set_ps_bdf_enable (v : bool) (u : ns16550) : ns16550 :=
  mk_ns16550 (baud u) (clock_hz u) (data_bits u) (parity u) (stop_bits u)
    (fifo_size u) (irq u) (io_base u) (io_size u) (reg_shift u) (reg_width u)
    (remapped_io_base u) (timer u) (resume_timer u) (timeout_ms u)
    (intr_works u) (dw_usr_bsy u) (pb_bdf u) (ps_bdf u) (pb_bdf_enable u)
    v (bar u) (cr u) (bar_idx u).
Definition set_bar (v : Z) (u : ns16550) : ns16550 :=
  mk_ns16550 (baud u) (clock_hz u) (data_bits u) (parity u) (stop_bits u)
    (fifo_size u) (irq u) (io_base u) (io_size u) (reg_shift u) (reg_width u)
    (remapped_io_base u) (timer u) (resume_timer u) (timeout_ms u)
    (intr_works u) (dw_usr_bsy u) (pb_bdf u) (ps_bdf u) (pb_bdf_enable u)
    (ps_bdf_enable u) v (cr u) (bar_idx u).
Definition set_cr (v : Z) (u : ns16550) : ns16550 :=
  mk_ns16550 (baud u) (clock_hz u) (data_bits u) (parity u) (stop_bits u)
    (fifo_size u) (irq u) (io_base u) (io_size u) (reg_shift u) (reg_width u)
    (remapped_io_base u) (timer u) (resume_timer u) (timeout_ms u)
    (intr_works u) (dw_usr_bsy u) (pb_bdf u) (ps_bdf u) (pb_bdf_enable u)
    (ps_bdf_enable u) (bar u) v (bar_idx u).
Definition set_bar_idx (v : Z) (u : ns16550) : ns16550 :=
  mk_ns16550 (baud u) (clock_hz u) (data_bits u) (parity u) (stop_bits u)
    (fifo_size u) (irq u) (io_base u) (io_size u) (reg_shift u) (reg_width u)
    (remapped_io_base u) (timer u) (resume_timer u) (timeout_ms u)
    (intr_works u) (dw_usr_bsy u) (pb_bdf u) (ps_bdf u) (pb_bdf_enable u)
    (ps_bdf_enable u) (bar u) (cr u) v.

(** The zero-initialised slot of [ns16550_com]. *)
Definition ns16550_zero : ns16550 :=
  mk_ns16550 0 0 0 0 0 0 0 0 0 0 0 0 None None 0 false false
    (0, 0, 0) (0, 0, 0) false false 0 0 0.

Section Driver.

Context {P : Platform}.

(** ** The machine: one descriptor slot, PCI configuration space, the trace
    and the file-scope retry counter *)

Record machine : Type := mk_machine {
  uart : ns16550;
  pci : Z * Z * Z -> pci_fn;
  trace : history;
  delayed_resume_tries : Z
}.

Definition upd_uart (g : ns16550 -> ns16550) (m : machine) : machine :=
  mk_machine (g (uart m)) (pci m) (trace m) (delayed_resume_tries m).
Definition log (e : event) (m : machine) : machine :=
  mk_machine (uart m) (pci m) (e :: trace m) (delayed_resume_tries m).
Definition set_pci (t : Z * Z * Z -> pci_fn) (m : machine) : machine :=
  mk_machine (uart m) t (trace m) (delayed_resume_tries m).
Definition set_tries (v : Z) (m : machine) : machine :=
  mk_machine (uart m) (pci m) (trace m) v.

(** *** Bus primitives *)

Definition inb (m : machine) (port : Z) : Z * machine :=
  let v := to_u8 (bus_read (trace m) (Inb port)) in
  (v, log (EvRead (Inb port) v) m).
Definition readb (m : machine) (addr : Z) : Z * machine :=
  let v := to_u8 (bus_read (trace m) (Readb addr)) in
  (v, log (EvRead (Readb addr) v) m).
Definition readl (m : machine) (addr : Z) : Z * machine :=
  let v := to_u32 (bus_read (trace m) (Readl addr)) in
  (v, log (EvRead (Readl addr) v) m).
Definition outb (m : machine) (v port : Z) : machine :=
  log (EvOutb (to_u8 v) port) m.
Definition writeb (m : machine) (v addr : Z) : machine :=
  log (EvWriteb (to_u8 v) addr) m.
Definition writel (m : machine) (v addr : Z) : machine :=
  log (EvWritel (to_u32 v) addr) m.

Definition bdf_eqb (x y : Z * Z * Z) : bool :=
  let '(b, d, f) := x in
  let '(b', d', f') := y in
  (b =? b') && (d =? d') && (f =? f').

Definition tbl_update (t : Z * Z * Z -> pci_fn) (k : Z * Z * Z) (s : pci_fn)
  : Z * Z * Z -> pci_fn :=
  fun k' => if bdf_eqb k k' then s else t k'.

Definition pci_conf_read8 (m : machine) (b d f reg : Z) : Z :=
  to_u8 (conf_read8 (pci m (b, d, f)) reg).
Definition pci_conf_read16 (m : machine) (b d f reg : Z) : Z :=
  to_u16 (conf_read16 (pci m (b, d, f)) reg).
Definition pci_conf_read32 (m : machine) (b d f reg : Z) : Z :=
  to_u32 (conf_read32 (pci m (b, d, f)) reg).
Definition pci_conf_write16 (m : machine) (b d f reg v : Z) : machine :=
  log (EvPciWrite16 b d f reg (to_u16 v))
    (set_pci (tbl_update (pci m) (b, d, f)
                (conf_write16 (pci m (b, d, f)) reg (to_u16 v))) m).
Definition pci_conf_write32 (m : machine) (b d f reg v : Z) : machine :=
  log (EvPciWrite32 b d f reg (to_u32 v))
    (set_pci (tbl_update (pci m) (b, d, f)
                (conf_write32 (pci m (b, d, f)) reg (to_u32 v))) m).

(** *** Timers and upcalls *)

Definition set_timer (t : timer_id) (delay_ms : Z) (m : machine) : machine :=
  log (EvSetTimer t delay_ms)
    (upd_uart (match t with
               | PollTimer => set_timer_field (Some delay_ms)
               | ResumeTimer => set_resume_timer_field (Some delay_ms)
               end) m).
Definition stop_timer (t : timer_id) (m : machine) : machine :=
  log (EvStopTimer t)
    (upd_uart (match t with
               | PollTimer => set_timer_field None
               | ResumeTimer => set_resume_timer_field None
               end) m).

Definition serial_rx_interrupt (m : machine) : machine := log EvRxInterrupt m.
Definition serial_tx_interrupt (m : machine) : machine := log EvTxInterrupt m.

(** ** Register accessor *)

Definition ns_read_reg (m : machine) (reg : Z) : Z * machine :=
  let u := uart m in
  let addr := remapped_io_base u + Z.shiftl reg (reg_shift u) in
  if remapped_io_base u =? 0 then
    let (v, m') := inb m (io_base u + reg) in (to_char v, m')
  else if reg_width u =? 1 then
    let (v, m') := readb m addr in (to_char v, m')
  else if reg_width u =? 4 then
    let (v, m') := readl m addr in (to_char v, m')
  else (to_char 0xff, m).

Definition ns_write_reg (m : machine) (reg c : Z) : machine :=
  let c := to_char c in
  let u := uart m in
  let addr := remapped_io_base u + Z.shiftl reg (reg_shift u) in
  if remapped_io_base u =? 0 then outb m c (io_base u + reg)
  else if reg_width u =? 1 then writeb m c addr
  else if reg_width u =? 4 then writel m c addr
  else m.

Definition ns16550_ioport_invalid (m : machine) : bool * machine :=
  let (v, m') := ns_read_reg m UART_IER in
  (to_u8 v =? 0xff, m').

(** ** Transmission and reception *)

Fixpoint interrupt_loop (fuel : nat) (m : machine) : outcome machine :=
  match fuel with
  | O => Diverge
  | S k =>
      let (iir, m1) := ns_read_reg m UART_IIR in
      if nonzero (Z.land iir UART_IIR_NOINT) then Done m1
      else
        let (lsr, m2) := ns_read_reg m1 UART_LSR in
        let m3 := if nonzero (Z.land lsr UART_LSR_THRE)
                  then serial_tx_interrupt m2 else m2 in
        let m4 := if nonzero (Z.land lsr UART_LSR_DR)
                  then serial_rx_interrupt m3 else m3 in
        interrupt_loop k m4
  end.

Definition ns16550_interrupt (fuel : nat) (m : machine) : outcome machine :=
  interrupt_loop fuel (upd_uart (set_intr_works true) m).

(** The receive loop of the poll; the boolean tells whether it left
    through [goto out]. *)
Fixpoint poll_rx_loop (fuel : nat) (m : machine) : outcome (bool * machine) :=
  match fuel with
  | O => Diverge
  | S k =>
      let (lsr, m1) := ns_read_reg m UART_LSR in
      if nonzero (Z.land lsr UART_LSR_DR) then
        let (inval, m2) := ns16550_ioport_invalid m1 in
        if inval then Done (true, m2)
        else poll_rx_loop k (serial_rx_interrupt m2)
      else Done (false, m1)
  end.

Definition __ns16550_poll (fuel : nat) (m : machine) : outcome machine :=
  if intr_works (uart m) then Done m
  else
    r <- poll_rx_loop fuel m ;;
    let (out, m1) := r in
    let m2 :=
      if out then m1
      else
        let (lsr, m1') := ns_read_reg m1 UART_LSR in
        if nonzero (Z.land lsr UART_LSR_THRE)
        then serial_tx_interrupt m1' else m1' in
    Done (set_timer PollTimer (timeout_ms (uart m2)) m2).

Definition ns16550_poll (fuel : nat) (m : machine) : outcome machine :=
  __ns16550_poll fuel m.

Definition ns16550_tx_ready (m : machine) : Z * machine :=
  let (inval, m1) := ns16550_ioport_invalid m in
  if inval then (- EIO, m1)
  else
    let (lsr, m2) := ns_read_reg m1 UART_LSR in
    (if nonzero (Z.land lsr UART_LSR_THRE) then fifo_size (uart m2) else 0, m2).

Definition ns16550_putc (m : machine) (c : Z) : machine :=
  ns_write_reg m UART_THR c.

(** Returns the C return value and the character stored through [pc]. *)
Definition ns16550_getc (m : machine) : Z * option Z * machine :=
  let (inval, m1) := ns16550_ioport_invalid m in
  if inval then (0, None, m1)
  else
    let (lsr, m2) := ns_read_reg m1 UART_LSR in
    if negb (nonzero (Z.land lsr UART_LSR_DR)) then (0, None, m2)
    else
      let (c, m3) := ns_read_reg m2 UART_RBR in
      (1, Some c, m3).

(** ** Two-phase setup *)

Definition pci_serial_early_init (m : machine) : machine :=
  let u := uart m in
  if negb (ps_bdf_enable u) || (0x10000 <=? io_base u) then m
  else
    let '(pb, pd, pf) := pb_bdf u in
    let '(sb, sd, sf) := ps_bdf u in
    let m1 :=
      if pb_bdf_enable u then
        pci_conf_write16 m pb pd pf PCI_IO_BASE
          (Z.lor (Z.land (io_base u) 0xF000)
                 (Z.shiftr (Z.land (io_base u) 0xF000) 8))
      else m in
    let m2 := pci_conf_write32 m1 sb sd sf PCI_BASE_ADDRESS_0
                (Z.lor (io_base u) PCI_BASE_ADDRESS_SPACE_IO) in
    pci_conf_write16 m2 sb sd sf PCI_COMMAND PCI_COMMAND_IO.

Definition ns16550_setup_preirq (m : machine) : outcome machine :=
  let m := upd_uart (set_intr_works false) m in
  let m := pci_serial_early_init m in
  let u := uart m in
  let lcr := to_u8 (Z.lor (Z.lor (to_int (data_bits u - 5))
                                 (to_int (Z.shiftl (to_int (stop_bits u - 1)) 2)))
                          (parity u)) in
  (* No interrupts. *)
  let m := ns_write_reg m UART_IER 0 in
  let m :=
    if dw_usr_bsy u then
      let (iir, m1) := ns_read_reg m UART_IIR in
      if Z.land iir UART_IIR_BSY =? UART_IIR_BSY
      then snd (ns_read_reg m1 UART_USR) else m1
    else m in
  (* Line control and baud-rate generator. *)
  let m := ns_write_reg m UART_LCR (Z.lor lcr UART_LCR_DLAB) in
  m <- (if negb (baud u =? BAUD_AUTO) then
          (* Baud rate specified: program it into the divisor latch. *)
          q <- int_div (clock_hz u) (to_int (Z.shiftl (baud u) 4)) ;;
          let divisor := to_u32 q in
          let m1 := ns_write_reg m UART_DLL divisor in
          Done (ns_write_reg m1 UART_DLM (Z.shiftr divisor 8))
        else
          (* Baud rate already set: read it out from the divisor latch. *)
          let (dll, m1) := ns_read_reg m UART_DLL in
          let divisor := to_u32 dll in
          let (dlm, m2) := ns_read_reg m1 UART_DLM in
          let divisor := Z.lor divisor (to_u32 (Z.shiftl dlm 8)) in
          q <- uint_div (to_u32 (clock_hz u)) (to_u32 (Z.shiftl divisor 4)) ;;
          Done (upd_uart (set_baud (to_int q)) m2)) ;;
  let m := ns_write_reg m UART_LCR lcr in
  (* No flow ctrl: DTR and RTS are both wedged high to keep remote happy. *)
  let m := ns_write_reg m UART_MCR (Z.lor UART_MCR_DTR UART_MCR_RTS) in
  (* Enable and clear the FIFOs. Set a large trigger threshold. *)
  Done (ns_write_reg m UART_FCR
          (Z.lor (Z.lor (Z.lor UART_FCR_ENABLE UART_FCR_CLRX) UART_FCR_CLTX)
                 UART_FCR_TRG14)).

(** [idx] is the slot of the descriptor, [uart - ns16550_com]. *)
Definition ns16550_init_preirq (idx : Z) (m : machine) : outcome machine :=
  let m :=
    if 0x10000 <=? io_base (uart m) then
      let fidx := FIX_COM_BEGIN + idx in
      let m1 := log (EvSetFixmap fidx (io_base (uart m))) m in
      upd_uart (set_remapped_io_base
                  (fix_to_virt fidx + page_offset (io_base (uart m)))) m1
    else m in
  m <- ns16550_setup_preirq m ;;
  (* Check this really is a 16550+. Otherwise we have no FIFOs. *)
  let (iir, m1) := ns_read_reg m UART_IIR in
  if Z.land iir 0xc0 =? 0xc0 then
    let (fcr, m2) := ns_read_reg m1 UART_FCR in
    if Z.land fcr UART_FCR_TRG14 =? UART_FCR_TRG14
    then Done (upd_uart (set_fifo_size 16) m2)
    else Done m2
  else Done m1.

Definition ns16550_setup_postirq (m : machine) : machine :=
  let m :=
    if 0 <? irq (uart m) then
      (* Master interrupt enable; also keep DTR/RTS asserted. *)
      let m1 := ns_write_reg m UART_MCR
                  (Z.lor (Z.lor UART_MCR_OUT2 UART_MCR_DTR) UART_MCR_RTS) in
      (* Enable receive and transmit interrupts. *)
      ns_write_reg m1 UART_IER (Z.lor UART_IER_ERDAI UART_IER_ETHREI)
    else m in
  if 0 <=? irq (uart m)
  then set_timer PollTimer (timeout_ms (uart m)) m
  else m.

(** [max_t(unsigned int, a, b)]. *)
Definition max_uint (a b : Z) : Z := Z.max (to_u32 a) (to_u32 b).

Definition ns16550_init_postirq (m : machine) : outcome machine :=
  let u := uart m in
  if irq u <? 0 then Done m
  else
    let m := log EvAsyncTransmit m in
    let m := log (EvInitTimer PollTimer) m in
    let m := log (EvInitTimer ResumeTimer) m in
    (* Calculate time to fill RX FIFO and/or empty TX FIFO for polling. *)
    let bits := to_int (to_int (data_bits u + stop_bits u)
                        + (if nonzero (parity u) then 1 else 0)) in
    q <- int_div (to_int (to_int (bits * fifo_size u) * 1000)) (baud u) ;;
    let m := upd_uart (set_timeout_ms (max_uint 1 q)) m in
    let m :=
      if 0 <? irq u then
        let rc := setup_irq (trace m) (irq u) in
        let m1 := log (EvSetupIrq (irq u)) m in
        if nonzero rc
        then log (EvPrintk "ERROR: Failed to allocate ns16550 IRQ") m1
        else m1
      else m in
    let m := ns16550_setup_postirq m in
    let '(sb, sd, sf) := ps_bdf u in
    if nonzero (bar u) || ps_bdf_enable u
    then Done (log (EvPciHide sb (PCI_DEVFN sd sf)) m)
    else Done m.

(** ** Suspend and resume *)

Definition ns16550_suspend (m : machine) : machine :=
  let m := stop_timer PollTimer m in
  let u := uart m in
  let '(sb, sd, sf) := ps_bdf u in
  if nonzero (bar u)
  then upd_uart (set_cr (pci_conf_read16 m sb sd sf PCI_COMMAND)) m
  else m.

(** The part of [_ns16550_resume] that is compiled under [HAS_PCI]. *)
Definition resume_restore_pci (m : machine) : machine :=
  let u := uart m in
  let '(sb, sd, sf) := ps_bdf u in
  if nonzero (bar u) then
    let m1 := pci_conf_write32 m sb sd sf
                (PCI_BASE_ADDRESS_0 + bar_idx u * 4) (bar u) in
    pci_conf_write16 m1 sb sd sf PCI_COMMAND (cr u)
  else m.

Definition _ns16550_resume (m : machine) : outcome machine :=
  m1 <- ns16550_setup_preirq (resume_restore_pci m) ;;
  Done (ns16550_setup_postirq m1).

Definition ns16550_delayed_resume (m : machine) : outcome machine :=
  let (inval, m1) := ns16550_ioport_invalid m in
  if inval then
    (* [delayed_resume_tries--]: test the old value, store the new one *)
    let tries := delayed_resume_tries m1 in
    let m2 := set_tries (to_int (tries - 1)) m1 in
    if nonzero tries
    then Done (set_timer ResumeTimer RESUME_DELAY m2)
    else _ns16550_resume m2
  else _ns16550_resume m1.

Definition ns16550_resume (m : machine) : outcome machine :=
  let (inval, m1) := ns16550_ioport_invalid m in
  if inval then
    let m2 := set_tries RESUME_RETRIES m1 in
    Done (set_timer ResumeTimer RESUME_DELAY m2)
  else _ns16550_resume m1.

(** The timer subsystem: an armed resume timer expires, is disarmed and
    its handler runs.  [resume_timer_run n] lets up to [n] expiries happen,
    stopping as soon as no resume timer is pending. *)
Definition resume_timer_expiry (m : machine) : outcome machine :=
  ns16550_delayed_resume (upd_uart (set_resume_timer_field None) m).

Fixpoint resume_timer_run (n : nat) (m : machine) : outcome machine :=
  match n with
  | O => Done m
  | S k =>
      match resume_timer (uart m) with
      | None => Done m
      | Some _ => m1 <- resume_timer_expiry m ;; resume_timer_run k m1
      end
  end.

Definition ns16550_endboot (m : machine) : outcome machine :=
  let u := uart m in
  if nonzero (remapped_io_base u) then Done m
  else
    let rc := ioports_deny_access (trace m) (io_base u) (io_base u + 7) in
    let m1 := log (EvIoportsDeny (io_base u) (io_base u + 7)) m in
    if nonzero rc then Fault else Done m1.

Definition ns16550_irq (m : machine) : Z :=
  if 0 <? irq (uart m) then irq (uart m) else -1.

(** ** The callback table [ns16550_driver], the interrupt handler and the
    two timer handlers, as one type of entry points *)

Inductive entry : Type :=
| init_preirq (idx : Z)
| init_postirq
| endboot
| suspend
| resume
| tx_ready
| putc (c : Z)
| getc
| irq_number
| interrupt
| poll
| delayed_resume.

Definition run_entry (fuel : nat) (e : entry) (m : machine) : outcome machine :=
  match e with
  | init_preirq idx => ns16550_init_preirq idx m
  | init_postirq => ns16550_init_postirq m
  | endboot => ns16550_endboot m
  | suspend => Done (ns16550_suspend m)
  | resume => ns16550_resume m
  | tx_ready => Done (snd (ns16550_tx_ready m))
  | putc c => Done (ns16550_putc m c)
  | getc => Done (snd (ns16550_getc m))
  | irq_number => Done m
  | interrupt => ns16550_interrupt fuel m
  | poll => ns16550_poll fuel m
  | delayed_resume => ns16550_delayed_resume m
  end.

(** A run of entry points, one after the other. *)
Fixpoint run_entries (fuel : nat) (es : list entry) (m : machine)
  : outcome machine :=
  match es with
  | [] => Done m
  | e :: rest => m1 <- run_entry fuel e m ;; run_entries fuel rest m1
  end.

(** The entry points from which [ns16550_setup_preirq] can be reached. *)
Definition reaches_setup_preirq (e : entry) : bool :=
  match e with
  | init_preirq _ | resume | delayed_resume => true
  | _ => false
  end.

(** ** Configuration parsing and discovery *)

Definition chr (a : ascii) : Z := Z.of_N (N_of_ascii a).

Definition parse_parity_char (c : Z) : Z :=
  if c =? chr "n" then UART_PARITY_NONE
  else if c =? chr "o" then UART_PARITY_ODD
  else if c =? chr "e" then UART_PARITY_EVEN
  else if c =? chr "m" then UART_PARITY_MARK
  else if c =? chr "s" then UART_PARITY_SPACE
  else 0.

Definition check_existence (m : machine) : Z * machine :=
  (* We can't poke MMIO UARTs until they get I/O remapped later. *)
  if 0x10000 <=? io_base (uart m) then (1, m)
  else
    let m := pci_serial_early_init m in
    (* Do a simple existence test first. *)
    let (v, m) := ns_read_reg m UART_IER in
    let scratch := to_u8 v in
    let m := ns_write_reg m UART_IER 0 in
    (* Mask out IER[7:4] bits for test. *)
    let (v, m) := ns_read_reg m UART_IER in
    let scratch2 := to_u8 (Z.land v 0x0f) in
    let m := ns_write_reg m UART_IER 0x0F in
    let (v, m) := ns_read_reg m UART_IER in
    let scratch3 := to_u8 (Z.land v 0x0f) in
    let m := ns_write_reg m UART_IER scratch in
    if negb (scratch2 =? 0) || negb (scratch3 =? 0x0F) then (0, m)
    else
      (* Check to see if a UART is really there.  Use loopback test mode. *)
      let m := ns_write_reg m UART_MCR (Z.lor UART_MCR_LOOP 0x0A) in
      let (v, m) := ns_read_reg m UART_MSR in
      let status := to_u8 (Z.land v 0xF0) in
      (if status =? 0x90 then 1 else 0, m).

(** [range lo hi] lists [lo], [lo + 1], ... up to [hi - 1]: the values a
    counting [for] loop runs through. *)
Definition range (lo hi : Z) : list Z :=
  map (fun i => lo + Z.of_nat i) (seq 0 (Z.to_nat (hi - lo))).

(** The innermost loop of [pci_uart_config], over the functions still to
    visit; [nextf] is either the next element of the list or 8, which ends
    the loop.  The boolean tells whether the scan accepted a function (the
    [return 0] inside the loops). *)
Fixpoint scan_functions (fs : list Z) (bar_idx b d : Z) (m : machine)
  : bool * machine :=
  match fs with
  | [] => (false, m)
  | f :: rest =>
      let nextf :=
        if nonzero f
           || nonzero (Z.land (pci_conf_read16 m b d f PCI_HEADER_TYPE) 0x80)
        then f + 1 else 8 in
      let cls := pci_conf_read16 m b d f PCI_CLASS_DEVICE in
      if (cls =? 0x0700) || (cls =? 0x0702) || (cls =? 0x0780) then
        let bar := pci_conf_read32 m b d f (PCI_BASE_ADDRESS_0 + bar_idx * 4) in
        (* Not IO *)
        if negb (nonzero (Z.land bar PCI_BASE_ADDRESS_SPACE_IO)) then
          if nextf <? 8 then scan_functions rest bar_idx b d m else (false, m)
        else
          let m1 := pci_conf_write32 m b d f PCI_BASE_ADDRESS_0
                      (to_u32 (Z.lnot 0)) in
          let len := pci_conf_read32 m1 b d f PCI_BASE_ADDRESS_0 in
          let m2 := pci_conf_write32 m1 b d f
                      (PCI_BASE_ADDRESS_0 + bar_idx * 4) bar in
          (* Not 8 bytes *)
          if negb (Z.land len 0xffff =? 0xfff9) then
            if nextf <? 8 then scan_functions rest bar_idx b d m2
            else (false, m2)
          else
            let irq_line :=
              if nonzero (pci_conf_read8 m2 b d f PCI_INTERRUPT_PIN)
              then pci_conf_read8 m2 b d f PCI_INTERRUPT_LINE else 0 in
            (true,
             upd_uart (fun u =>
               set_irq irq_line
                 (set_io_base
                    (Z.land bar (to_u32 (Z.lnot PCI_BASE_ADDRESS_SPACE_IO)))
                    (set_bar_idx (to_u8 bar_idx)
                       (set_bar bar (set_ps_bdf (b, d, f) u))))) m2)
      else
        let nextf := if (cls =? 0xffff) && (f =? 0) then 8 else nextf in
        if nextf <? 8 then scan_functions rest bar_idx b d m else (false, m)
  end.

Fixpoint scan_devices (ds : list Z) (bar_idx b : Z) (m : machine)
  : bool * machine :=
  match ds with
  | [] => (false, m)
  | d :: rest =>
      let (hit, m1) := scan_functions (range 0 8) bar_idx b d m in
      if hit then (true, m1) else scan_devices rest bar_idx b m1
  end.

Fixpoint scan_buses (bs : list Z) (bar_idx : Z) (m : machine)
  : bool * machine :=
  match bs with
  | [] => (false, m)
  | b :: rest =>
      let (hit, m1) := scan_devices (range 0 0x20) bar_idx b m in
      if hit then (true, m1) else scan_buses rest bar_idx m1
  end.

Definition pci_uart_config (m : machine) (skip_amt bar_idx : Z) : Z * machine :=
  (* NB. Start at bus 1 to avoid AMT: a plug-in card cannot be on bus 0. *)
  let (hit, m1) :=
    scan_buses (range (if nonzero skip_amt then 1 else 0) 0x100) bar_idx m in
  if hit then (0, m1)
  else if negb (nonzero skip_amt) then (-1, m1)
  else
    (0, upd_uart (fun u =>
          set_clock_hz UART_CLOCK_HZ (set_irq 0 (set_io_base 0x3f8 u))) m1).

(** *** The configuration string *)

(** [*conf], with the terminating NUL of an exhausted string. *)
Definition peek (conf : string) : Z :=
  match conf with
  | EmptyString => 0
  | String a _ => to_char (chr a)
  end.

(** [conf += n].  Stepping over the terminator keeps reading NULs (the
    option buffers are zero-filled arrays). *)
Fixpoint advance (n : nat) (conf : string) : string :=
  match n, conf with
  | S k, String _ rest => advance k rest
  | _, _ => conf
  end.

(** [if ( *conf == ',' && *++conf != ',' )]: the test, and where [conf]
    points afterwards. *)
Definition field_start (conf : string) : bool * string :=
  if peek conf =? chr ","
  then let conf := advance 1 conf in (negb (peek conf =? chr ","), conf)
  else (false, conf).

(** Where the parser stands after a group of fields: still going, with the
    rest of the string, or returned without reaching [config_parsed]. *)
Inductive step : Type :=
| Continue (m : machine) (conf : string)
| Return (m : machine).

Definition and_then (s : step) (k : machine -> string -> step) : step :=
  match s with
  | Continue m conf => k m conf
  | Return m => Return m
  end.

(** The machine a parsing step ends in. *)
Definition step_machine (s : step) : machine :=
  match s with Continue m _ => m | Return m => m end.

Definition parse_baud (m : machine) (conf : string) : step :=
  if String.prefix "auto" conf then
    Continue (upd_uart (set_baud BAUD_AUTO) m) (advance 4 conf)
  else
    let (v, conf) := simple_strtoul conf 10 in
    let baud := to_int (to_u64 v) in
    Continue (if nonzero baud then upd_uart (set_baud baud) m else m) conf.

Definition parse_clock (m : machine) (conf : string) : step :=
  if peek conf =? chr "/" then
    let (v, conf) := simple_strtoul (advance 1 conf) 0 in
    Continue (upd_uart (set_clock_hz (to_int (Z.shiftl (to_u64 v) 4))) m) conf
  else Continue m conf.

Definition parse_dps (m : machine) (conf : string) : step :=
  let (go, conf) := field_start conf in
  if go then
    let (v, conf) := simple_strtoul conf 10 in
    let m := upd_uart (set_data_bits (to_int (to_u64 v))) m in
    let m := upd_uart (set_parity (parse_parity_char (peek conf))) m in
    let (v, conf) := simple_strtoul (advance 1 conf) 10 in
    Continue (upd_uart (set_stop_bits (to_int (to_u64 v))) m) conf
  else Continue m conf.

Definition parse_io_base (idx : Z) (m : machine) (conf : string) : step :=
  let (go, conf) := field_start conf in
  if go then
    if String.prefix "pci" conf then
      let (rc, m) := pci_uart_config m 1 idx in
      if nonzero rc then Return m else Continue m (advance 3 conf)
    else if String.prefix "amt" conf then
      let (rc, m) := pci_uart_config m 0 idx in
      if nonzero rc then Return m else Continue m (advance 3 conf)
    else
      let (v, conf) := simple_strtoul conf 0 in
      Continue (upd_uart (set_io_base (to_u64 v)) m) conf
  else Continue m conf.

Definition parse_irq (m : machine) (conf : string) : step :=
  let (go, conf) := field_start conf in
  if go then
    let (v, conf) := simple_strtol conf 10 in
    Continue (upd_uart (set_irq (to_int v)) m) conf
  else Continue m conf.

Definition parse_port_bdf (m : machine) (conf : string) : step :=
  let (go, conf) := field_start conf in
  if go then
    match parse_pci conf with
    | None => Return (log (EvPrintk "ERROR: Bad port PCI coordinates") m)
    | Some (conf, (b, d, f)) =>
        Continue (upd_uart (fun u => set_ps_bdf_enable true
                                       (set_ps_bdf (to_u32 b, to_u32 d, to_u32 f) u)) m)
                 conf
    end
  else Continue m conf.

Definition parse_bridge_bdf (m : machine) (conf : string) : step :=
  let (go, conf) := field_start conf in
  if go then
    match parse_pci conf with
    | None => Return (log (EvPrintk "ERROR: Bad bridge PCI coordinates") m)
    | Some (_, (b, d, f)) =>
        Continue (upd_uart (fun u => set_pb_bdf_enable true
                                       (set_pb_bdf (to_u32 b, to_u32 d, to_u32 f) u)) m)
                 conf
    end
  else Continue m conf.

(** Everything of [ns16550_parse_port_config] above the [config_parsed]
    label. *)
Definition parse_fields (idx : Z) (m : machine) (conf : string) : step :=
  match conf with
  | EmptyString =>
      (* No user-specified configuration? *)
      if nonzero (baud (uart m)) then Continue m conf else Return m
  | _ =>
      and_then (parse_baud m conf) (fun m conf =>
      and_then (parse_clock m conf) (fun m conf =>
      and_then (parse_dps m conf) (fun m conf =>
      and_then (parse_io_base idx m conf) (fun m conf =>
      and_then (parse_irq m conf) (fun m conf =>
      and_then (parse_port_bdf m conf) (fun m conf =>
      parse_bridge_bdf m conf))))))
  end.

(** From the [config_parsed] label on: the sanity checks, the
    identification probe and the registration. *)
Definition config_parsed (idx : Z) (m : machine) : machine :=
  let u := uart m in
  if negb (baud u =? BAUD_AUTO) && ((baud u <? 1200) || (115200 <? baud u))
  then log (EvPrintk "ERROR: Baud rate outside supported range.") m
  else if (data_bits u <? 5) || (8 <? data_bits u)
  then log (EvPrintk "ERROR: data bits are unsupported.") m
  else if (stop_bits u <? 1) || (2 <? stop_bits u)
  then log (EvPrintk "ERROR: stop bits are unsupported.") m
  else if io_base u =? 0
  then log (EvPrintk "ERROR: I/O base address must be specified.") m
  else
    let (present, m1) := check_existence m in
    if negb (nonzero present)
    then log (EvPrintk "ERROR: 16550-compatible serial UART not present") m1
    else
      (* Register with generic serial driver. *)
      log (EvRegisterUart idx) m1.

Definition ns16550_parse_port_config (idx : Z) (m : machine) (conf : string)
  : machine :=
  match parse_fields idx m conf with
  | Continue m1 _ => config_parsed idx m1
  | Return m1 => m1
  end.

Record ns16550_defaults : Type := mk_defaults {
  d_baud : Z; d_data_bits : Z; d_parity : Z; d_stop_bits : Z;
  d_irq : Z; d_io_base : Z
}.

(** [console_has] answers whether the console option names this port;
    [opt_com] is the slot's boot option ([opt_com1] or [opt_com2]). *)
Definition ns16550_init (index : Z) (defaults : ns16550_defaults)
    (console_has : bool) (opt_com : string) (m : machine) : machine :=
  if (index <? 0) || (1 <? index) then m
  else
    let m := upd_uart (fun u =>
      (* Default is no transmit FIFO. *)
      set_fifo_size 1
        (set_reg_shift 0
        (set_reg_width 1
        (set_io_size 8
        (set_io_base (d_io_base defaults)
        (set_irq (d_irq defaults)
        (set_stop_bits (d_stop_bits defaults)
        (set_parity (parse_parity_char (d_parity defaults))
        (set_data_bits (d_data_bits defaults)
        (set_clock_hz UART_CLOCK_HZ
        (set_baud (if nonzero (d_baud defaults) then d_baud defaults
                   else if console_has then BAUD_AUTO else 0)
           u))))))))))) m in
    ns16550_parse_port_config index m opt_com.

End Driver.

(** ** Observing registers and the trace *)

Section Observers.

Context {P : Platform}.

(** The bus access behind register [reg] of a descriptor, if there is one:
    none for a remapped descriptor whose access width is neither 1 nor 4. *)
Definition reg_access (u : ns16550) (reg : Z) : option access :=
  let addr := remapped_io_base u + Z.shiftl reg (reg_shift u) in
  if remapped_io_base u =? 0 then Some (Inb (io_base u + reg))
  else if reg_width u =? 1 then Some (Readb addr)
  else if reg_width u =? 4 then Some (Readl addr)
  else None.

(** What the bus hands back for an access after history [h]. *)
Definition bus_value (h : history) (a : access) : Z :=
  match a with
  | Inb _ | Readb _ => to_u8 (bus_read h a)
  | Readl _ => to_u32 (bus_read h a)
  end.

(** The [char] a read of register [reg] yields after history [h]. *)
Definition reg_value (h : history) (u : ns16550) (reg : Z) : Z :=
  match reg_access u reg with
  | Some a => to_char (bus_value h a)
  | None => to_char 0xff
  end.

(** The history after that read. *)
Definition after_read (h : history) (u : ns16550) (reg : Z) : history :=
  match reg_access u reg with
  | Some a => EvRead a (bus_value h a) :: h
  | None => h
  end.

(** The events a register read adds to the trace: one bus read, or none. *)
Definition read_event (h : history) (u : ns16550) (reg : Z) : list event :=
  match reg_access u reg with
  | Some a => [EvRead a (bus_value h a)]
  | None => []
  end.

(** Whether register [UART_IER] reads as all ones after [h]: the test of
    [ns16550_ioport_invalid]. *)
Definition reads_invalid (h : history) (u : ns16550) : bool :=
  to_u8 (reg_value h u UART_IER) =? 0xff.

(** The events a register write adds to the trace: one bus write, or none. *)
Definition write_event (u : ns16550) (reg c : Z) : list event :=
  let c := to_char c in
  let addr := remapped_io_base u + Z.shiftl reg (reg_shift u) in
  if remapped_io_base u =? 0 then [EvOutb (to_u8 c) (io_base u + reg)]
  else if reg_width u =? 1 then [EvWriteb (to_u8 c) addr]
  else if reg_width u =? 4 then [EvWritel (to_u32 c) addr]
  else [].

(** *** The identification probe, in the words of the specification

    Starting from history [h]: the interrupt-enable register is read and
    saved, zero is written and the register read back ([probe_h1] is the
    history at that read), 0x0F is written and the register read back
    ([probe_h2]), and the saved value is written back ([probe_h3]); then
    the modem-control register is put into loopback with pattern 0x0A
    ([probe_h4]) and the modem-status register is read. *)
Definition probe_h1 (h : history) (u : ns16550) : history :=
  write_event u UART_IER 0 ++ after_read h u UART_IER.
Definition probe_h2 (h : history) (u : ns16550) : history :=
  write_event u UART_IER 0x0F ++ after_read (probe_h1 h u) u UART_IER.
Definition probe_h3 (h : history) (u : ns16550) : history :=
  write_event u UART_IER (to_u8 (reg_value h u UART_IER))
  ++ after_read (probe_h2 h u) u UART_IER.
Definition probe_h4 (h : history) (u : ns16550) : history :=
  write_event u UART_MCR (Z.lor UART_MCR_LOOP 0x0A) ++ probe_h3 h u.

(** The low nibble of the interrupt-enable register round-trips 0x0 and
    then 0xF. *)
Definition ier_roundtrip (h : history) (u : ns16550) : bool :=
  (Z.land (to_u8 (reg_value (probe_h1 h u) u UART_IER)) 0x0f =? 0x0)
  && (Z.land (to_u8 (reg_value (probe_h2 h u) u UART_IER)) 0x0f =? 0xF).

(** In loopback the high nibble of the modem-status register is 0x9. *)
Definition loopback_signature (h : history) (u : ns16550) : bool :=
  Z.shiftr (to_u8 (reg_value (probe_h4 h u) u UART_MSR)) 4 =? 0x9.

Definition probe_passes (h : history) (u : ns16550) : bool :=
  ier_roundtrip h u && loopback_signature h u.

End Observers.

(** ** Counting events of the trace *)

Definition count_event (p : event -> bool) (h : history) : nat :=
  List.length (filter p h).

Definition is_rx (e : event) : bool :=
  match e with EvRxInterrupt => true | _ => false end.

Definition is_tx (e : event) : bool :=
  match e with EvTxInterrupt => true | _ => false end.

Definition is_read (e : event) : bool :=
  match e with EvRead _ _ => true | _ => false end.

Definition is_set_timer (t : timer_id) (e : event) : bool :=
  match e, t with
  | EvSetTimer PollTimer _, PollTimer => true
  | EvSetTimer ResumeTimer _, ResumeTimer => true
  | _, _ => false
  end.

(** Any timer being set. *)
Definition is_rearm (e : event) : bool :=
  match e with EvSetTimer _ _ => true | _ => false end.

(** What the retry phase of a resume may add to the trace: probes of the
    port and resume-timer settings at [RESUME_DELAY]. *)
Definition is_retry_event (e : event) : bool :=
  match e with
  | EvRead _ _ => true
  | EvSetTimer ResumeTimer d => d =? RESUME_DELAY
  | _ => false
  end.

Definition is_register (e : event) : bool :=
  match e with EvRegisterUart _ => true | _ => false end.

(** How many times a descriptor has been handed to the serial layer. *)
Definition registrations (h : history) : nat := count_event is_register h.

(** The sanity checks a descriptor must pass to be registered. *)
Definition validations_pass (u : ns16550) : Prop :=
  (baud u = BAUD_AUTO \/ 1200 <= baud u <= 115200) /\
  5 <= data_bits u <= 8 /\
  (stop_bits u = 1 \/ stop_bits u = 2) /\
  io_base u <> 0.

(** ** Scenarios: the resume sequence, identification, the bus scan *)

Section Scenarios.

Context {P : Platform}.

(** [ns16550_resume] followed by up to [n] expiries of the resume timer. *)
Definition resume_sequence (n : nat) (m : machine) : outcome machine :=
  m1 <- ns16550_resume m ;; resume_timer_run n m1.

(** The sequence amounts to: [retries] settings of the resume timer, each
    after a probe of the port and with nothing else in between, then one
    call of [_ns16550_resume], after which no resume timer is pending. *)
Definition resumes_after (retries : nat) (n : nat) (m : machine) : Prop :=
  exists (t : history) (mR : machine),
    resume_sequence n m = _ns16550_resume mR /\
    trace mR = t ++ trace m /\
    count_event (is_set_timer ResumeTimer) t = retries /\
    forallb is_retry_event t = true /\
    uart mR = uart m /\
    pci mR = pci m /\
    (forall m', _ns16550_resume mR = Done m' ->
                resume_timer (uart m') = None).

(** The identification of the port behind a descriptor succeeds: it is
    memory-mapped (at or above 0x10000, not probed and taken to be
    present), or the probe passes on the port bus once the PCI card, if
    any, has been given its early initialisation. *)
Definition identification_ok (m : machine) : Prop :=
  0x10000 <= io_base (uart m) \/
  probe_passes (trace (pci_serial_early_init m)) (uart m) = true.

(** *** What the bus locator looks at, function by function *)

Definition serial_class (cls : Z) : bool :=
  (cls =? 0x0700) || (cls =? 0x0702) || (cls =? 0x0780).

Definition fn_class (s : pci_fn) : Z := to_u16 (conf_read16 s PCI_CLASS_DEVICE).

(** The header of function 0 announces a multi-function device. *)
Definition fn_multi (s : pci_fn) : bool :=
  nonzero (Z.land (to_u16 (conf_read16 s PCI_HEADER_TYPE)) 0x80).

(** The value of the target BAR. *)
Definition fn_target_bar (bar_idx : Z) (s : pci_fn) : Z :=
  to_u32 (conf_read32 s (PCI_BASE_ADDRESS_0 + bar_idx * 4)).

(** The function after all ones have been written to its primary BAR, and
    what that BAR then reads: the sizing read. *)
Definition fn_sized (s : pci_fn) : pci_fn :=
  conf_write32 s PCI_BASE_ADDRESS_0 (to_u32 (Z.lnot 0)).
Definition fn_sizing_read (s : pci_fn) : Z :=
  to_u32 (conf_read32 (fn_sized s) PCI_BASE_ADDRESS_0).

(** The function after the saved value has been written back to the
    target BAR. *)
Definition fn_restored (bar_idx : Z) (s : pci_fn) : pci_fn :=
  conf_write32 (fn_sized s) (PCI_BASE_ADDRESS_0 + bar_idx * 4)
    (fn_target_bar bar_idx s).

(** A function is probed, that is sized, when its class is a serial one and
    its target BAR is in I/O space. *)
Definition fn_probed (bar_idx : Z) (s : pci_fn) : bool :=
  serial_class (fn_class s)
  && nonzero (Z.land (fn_target_bar bar_idx s) PCI_BASE_ADDRESS_SPACE_IO).

(** It is accepted when, moreover, the sizing read encodes an 8-byte
    region. *)
Definition fn_accepts (bar_idx : Z) (s : pci_fn) : bool :=
  fn_probed bar_idx s && (Z.land (fn_sizing_read s) 0xffff =? 0xfff9).

(** The interrupt line of an accepted function: 0 without interrupt pin. *)
Definition fn_irq (bar_idx : Z) (s : pci_fn) : Z :=
  let s2 := fn_restored bar_idx s in
  if nonzero (to_u8 (conf_read8 s2 PCI_INTERRUPT_PIN))
  then to_u8 (conf_read8 s2 PCI_INTERRUPT_LINE) else 0.

(** Function 0 of a device is always visited; functions 1 to 7 are when
    function 0 answers (its class is not all ones) and its header has the
    multi-function bit. *)
Definition walked (t : Z * Z * Z -> pci_fn) (k : Z * Z * Z) : bool :=
  let '(b, d, f) := k in
  (f =? 0)
  || (fn_multi (t (b, d, 0)) && negb (fn_class (t (b, d, 0)) =? 0xffff)).

(** Every bus, device and function number in ascending order, from bus 1
    when the first bus is skipped. *)
Definition scan_order (skip_amt : Z) : list (Z * Z * Z) :=
  flat_map (fun b =>
    flat_map (fun d => map (fun f => (b, d, f)) (range 0 8)) (range 0 0x20))
    (range (if nonzero skip_amt then 1 else 0) 0x100).

(** A function the scan visits and accepts. *)
Definition candidate (t : Z * Z * Z -> pci_fn) (bar_idx : Z) (k : Z * Z * Z)
  : bool :=
  walked t k && fn_accepts bar_idx (t k).

(** The first function, in scan order, that is visited and accepted. *)
Definition first_match (t : Z * Z * Z -> pci_fn) (skip_amt bar_idx : Z)
  : option (Z * Z * Z) :=
  find (candidate t bar_idx) (scan_order skip_amt).

(** Lexicographic order on bus, device and function numbers. *)
Definition bdf_lt (x y : Z * Z * Z) : Prop :=
  let '(b, d, f) := x in
  let '(b', d', f') := y in
  b < b' \/ (b = b' /\ (d < d' \/ (d = d' /\ f < f'))).

Definition bdf_ltb (x y : Z * Z * Z) : bool :=
  let '(b, d, f) := x in
  let '(b', d', f') := y in
  (b <? b') || ((b =? b') && ((d <? d') || ((d =? d') && (f <? f')))).

(** Each element is below the next one. *)
Fixpoint ascending (l : list (Z * Z * Z)) : bool :=
  match l with
  | x :: ((y :: _) as rest) => bdf_ltb x y && ascending rest
  | _ => true
  end.

(** The configuration space of a function when the scan is over: as it
    was, or, for a function that was probed, as the sizing write and the
    write-back left it. *)
Definition left_as (bar_idx : Z) (s0 s : pci_fn) : Prop :=
  s = s0 \/ (fn_probed bar_idx s0 = true /\ s = fn_restored bar_idx s0).

(** What a scan leaves behind, relative to the table [t0] it started from:
    functions outside [ks] are untouched, those of [ks] are left as they
    were or as the probe left them; on a hit the descriptor records the
    first accepted function of [ks], otherwise it is unchanged. *)
Definition scan_post (t0 : Z * Z * Z -> pci_fn) (bar_idx : Z)
    (pred : Z * Z * Z -> bool) (ks : list (Z * Z * Z))
    (mc : machine) (r : bool * machine) : Prop :=
  (forall k, ~ In k ks -> pci (snd r) k = pci mc k) /\
  (forall k, In k ks -> left_as bar_idx (t0 k) (pci (snd r) k)) /\
  match find pred ks with
  | Some (b, d, f) =>
      fst r = true /\
      uart (snd r) =
        set_irq (fn_irq bar_idx (t0 (b, d, f)))
          (set_io_base
             (Z.land (fn_target_bar bar_idx (t0 (b, d, f)))
                     (to_u32 (Z.lnot PCI_BASE_ADDRESS_SPACE_IO)))
             (set_bar_idx (to_u8 bar_idx)
                (set_bar (fn_target_bar bar_idx (t0 (b, d, f)))
                   (set_ps_bdf (b, d, f) (uart mc)))))
  | None => fst r = false /\ uart (snd r) = uart mc
  end.

End Scenarios.

(** ** Further observers of the trace and of the descriptor *)

(** The trace [h'] continues [h] with events that all satisfy [ok]. *)
Definition grows (ok : event -> bool) (h h' : history) : Prop :=
  exists t, h' = t ++ h /\ forallb ok t = true.



(** A register read or an upcall into the serial layer. *)
Definition is_read_or_upcall (e : event) : bool :=
  is_read e || is_rx e || is_tx e.

Section Latch.
Context {P : Platform}.

(** The line-control byte [lcr] that [ns16550_setup_preirq] computes. *)
Definition lcr_byte (u : ns16550) : Z :=
  to_u8 (Z.lor (Z.lor (to_int (data_bits u - 5))
                      (to_int (Z.shiftl (to_int (stop_bits u - 1)) 2)))
               (parity u)).

(** Starting from history [h], the pre-interrupt setup has switched the
    interrupts off and opened the divisor latch. *)
Definition latch_open (h : history) (u : ns16550) : history :=
  write_event u UART_LCR (Z.lor (lcr_byte u) UART_LCR_DLAB)
  ++ write_event u UART_IER 0 ++ h.

(** The bytes the divisor latch then holds: the low one is read first. *)
Definition latch_low (h : history) (u : ns16550) : Z :=
  to_u8 (reg_value (latch_open h u) u UART_DLL).
Definition latch_high (h : history) (u : ns16550) : Z :=
  to_u8 (reg_value (after_read (latch_open h u) u UART_DLL) u UART_DLM).

End Latch.

Section Confined.
Context {P : Platform}.


End Confined.

(** What [ns16550_init] fixes in a descriptor, whatever the boot option
    says, and what it leaves as it was in [u0]. *)
Definition as_initialised (u0 u : ns16550) : Prop :=
  reg_width u = 1 /\ reg_shift u = 0 /\ io_size u = 8 /\ fifo_size u = 1 /\
  Z.land (parity u) 0x38 = parity u /\
  remapped_io_base u = remapped_io_base u0 /\
  dw_usr_bsy u = dw_usr_bsy u0 /\
  intr_works u = intr_works u0 /\
  timer u = timer u0 /\ resume_timer u = resume_timer u0 /\
  timeout_ms u = timeout_ms u0 /\ cr u = cr u0.

(** A stretch of trace, most recent first, made of sizing probes only:
    each is an all-ones write to the primary BAR of a function followed at
    once by a write to the BAR of index [bar_idx] of the same function. *)
Fixpoint sizing_pairs (bar_idx : Z) (t : history) : bool :=
  match t with
  | [] => true
  | EvPciWrite32 b d f reg _ :: EvPciWrite32 b' d' f' reg' v' :: rest =>
      (b =? b') && (d =? d') && (f =? f')
      && (reg =? PCI_BASE_ADDRESS_0 + bar_idx * 4)
      && (reg' =? PCI_BASE_ADDRESS_0) && (v' =? 0xffffffff)
      && sizing_pairs bar_idx rest
  | _ => false
  end.



(** [h'] continues [h]. *)
Definition continues (h h' : history) : Prop := exists t, h' = t ++ h.

(** The entry points of the data path that only look at the port. *)
Definition looks_only (e : entry) : bool :=
  match e with
  | tx_ready | getc | irq_number | interrupt | poll => true
  | _ => false
  end.

(** What such an entry point may add to the trace: register reads, upcalls
    into the serial layer, and the poll timer being set. *)
Definition is_look (e : event) : bool :=
  is_read e || is_rx e || is_tx e || is_set_timer PollTimer e.

(** Two descriptors that differ at most in [intr_works] and in the poll
    timer. *)
Definition same_settings (u u' : ns16550) : Prop :=
  set_intr_works false (set_timer_field None u')
  = set_intr_works false (set_timer_field None u).

(** ** A simulated platform

    Concrete collaborators on which the driver can be run: PCI functions
    whose BARs decode a power-of-two window, a register bank that behaves
    like a 16550 on the port bus, and the string helpers.  The theorems
    below hold for every [Platform]; this one serves to run the code on
    concrete inputs. *)

Module Sim.

(** One BAR: its current value, the address bits software can write, and
    the hardwired low bits (the I/O-space indicator among them). *)
Record sim_bar : Type := mk_bar {
  bar_value : Z; bar_writable : Z; bar_hardwired : Z
}.

Record sim_fn : Type := mk_fn {
  fn_present : bool;
  fn_class : Z;
  fn_header : Z;
  fn_command : Z;
  fn_io_base : Z;
  fn_bars : list sim_bar;
  fn_pin : Z;
  fn_line : Z
}.

(** An empty slot: reads float high, writes are lost. *)
Definition no_fn : sim_fn := mk_fn false 0 0 0 0 [] 0 0.

Definition bar_slot (reg : Z) : option nat :=
  if (PCI_BASE_ADDRESS_0 <=? reg) && (reg <? PCI_BASE_ADDRESS_0 + 24)
     && ((reg - PCI_BASE_ADDRESS_0) mod 4 =? 0)
  then Some (Z.to_nat ((reg - PCI_BASE_ADDRESS_0) / 4)) else None.

Definition fn_read8 (s : sim_fn) (reg : Z) : Z :=
  if negb (fn_present s) then 0xff
  else if reg =? PCI_INTERRUPT_PIN then fn_pin s
  else if reg =? PCI_INTERRUPT_LINE then fn_line s
  else 0.

Definition fn_read16 (s : sim_fn) (reg : Z) : Z :=
  if negb (fn_present s) then 0xffff
  else if reg =? PCI_CLASS_DEVICE then fn_class s
  else if reg =? PCI_HEADER_TYPE then fn_header s
  else if reg =? PCI_COMMAND then fn_command s
  else if reg =? PCI_IO_BASE then fn_io_base s
  else 0.

Definition fn_read32 (s : sim_fn) (reg : Z) : Z :=
  if negb (fn_present s) then 0xffffffff
  else match bar_slot reg with
       | Some i => match nth_error (fn_bars s) i with
                   | Some b => bar_value b
                   | None => 0
                   end
       | None => 0
       end.

Fixpoint write_bar (i : nat) (v : Z) (bars : list sim_bar) : list sim_bar :=
  match bars, i with
  | [], _ => []
  | b :: rest, O =>
      mk_bar (Z.lor (Z.land v (bar_writable b)) (bar_hardwired b))
             (bar_writable b) (bar_hardwired b) :: rest
  | b :: rest, S k => b :: write_bar k v rest
  end.

Definition fn_write32 (s : sim_fn) (reg v : Z) : sim_fn :=
  if negb (fn_present s) then s
  else match bar_slot reg with
       | Some i => mk_fn true (fn_class s) (fn_header s) (fn_command s)
                     (fn_io_base s) (write_bar i v (fn_bars s))
                     (fn_pin s) (fn_line s)
       | None => s
       end.

Definition fn_write16 (s : sim_fn) (reg v : Z) : sim_fn :=
  if negb (fn_present s) then s
  else if reg =? PCI_COMMAND then
    mk_fn true (fn_class s) (fn_header s) v (fn_io_base s) (fn_bars s)
      (fn_pin s) (fn_line s)
  else if reg =? PCI_IO_BASE then
    mk_fn true (fn_class s) (fn_header s) (fn_command s) v (fn_bars s)
      (fn_pin s) (fn_line s)
  else s.

(** An I/O BAR decoding [size] bytes (a power of two) of the 64k port
    space, currently placed at [base]. *)
Definition io_bar (base size : Z) : sim_bar :=
  mk_bar (Z.lor base 1) (0x10000 - size) 1.

(** A serial card function with the given class and BARs. *)
Definition serial_fn (cls : Z) (bars : list sim_bar) (pin line : Z) : sim_fn :=
  mk_fn true cls 0 0 0 bars pin line.

(** A bus with nothing on it, and a bus with one function plugged in. *)
Definition empty_bus : Z * Z * Z -> sim_fn := fun _ => no_fn.
Definition plug (k : Z * Z * Z) (s : sim_fn) (t : Z * Z * Z -> sim_fn)
  : Z * Z * Z -> sim_fn :=
  fun k' => let '(b, d, f) := k in
            let '(b', d', f') := k' in
            if (b =? b') && (d =? d') && (f =? f') then s else t k'.

(** *** A 16550 on the port bus, replayed from the trace *)

(** The last byte written to a port, if any. *)
Fixpoint last_outb (port : Z) (h : history) : option Z :=
  match h with
  | [] => None
  | EvOutb v p :: rest => if p =? port then Some v else last_outb port rest
  | _ :: rest => last_outb port rest
  end.

(** In loopback the modem-status nibble mirrors the modem-control outputs:
    RTS to CTS, DTR to DSR, OUT1 to RI, OUT2 to DCD. *)
Definition loopback_msr (mcr : Z) : Z :=
  Z.lor (Z.lor (if Z.testbit mcr 1 then 0x10 else 0)
               (if Z.testbit mcr 0 then 0x20 else 0))
        (Z.lor (if Z.testbit mcr 2 then 0x40 else 0)
               (if Z.testbit mcr 3 then 0x80 else 0)).

(** A port of base [base] with an idle 16550 behind it: the interrupt
    enable register reads back its low nibble, the line status reports an
    empty transmitter and no data, the FIFOs are present. *)
Definition uart16550 (base : Z) (h : history) (a : access) : Z :=
  match a with
  | Inb port =>
      let reg := port - base in
      if reg =? UART_IER then
        match last_outb port h with Some v => Z.land v 0x0f | None => 0 end
      else if reg =? UART_IIR then 0xc1
      else if reg =? UART_LSR then 0x60
      else if reg =? UART_MSR then
        match last_outb (base + UART_MCR) h with
        | Some mcr => if Z.testbit mcr 4 then loopback_msr mcr else 0
        | None => 0
        end
      else if (0 <=? reg) && (reg <? 8) then 0
      else 0xff
  | _ => 0xff
  end.

(** A bus with nothing on it: every read floats high. *)
Definition floating_bus (h : history) (a : access) : Z := 0xff.

(** A port whose receiver holds [n] bytes (one is consumed by each receive
    upcall) and which drops off the bus once they are drained. *)
Definition vanishing_uart (base : Z) (n : nat) (h : history) (a : access) : Z :=
  if (count_event is_rx h <? n)%nat then
    match a with
    | Inb port => if port - base =? UART_LSR then 0x61 else uart16550 base h a
    | _ => 0xff
    end
  else 0xff.

(** A port that stays off the bus until the resume timer has been set [r]
    times, and is an idle 16550 afterwards. *)
Definition late_uart (base : Z) (r : nat) (h : history) (a : access) : Z :=
  if (count_event (is_set_timer ResumeTimer) h <? r)%nat
  then 0xff else uart16550 base h a.

(** *** String helpers *)

(** Modelled from the spec: [simple_strtoul], [simple_strtol] and
    [parse_pci] belong to the hypervisor's C library, which is not part of
    the sources at hand.  They read the numbers of the configuration
    grammar [<baud|auto>[/<clock>][,DPS[,<location>[,<irq>[,<bdf>]]]]]:
    decimal, or hexadecimal and octal by prefix when the base is 0. *)
Definition digit_value (a : ascii) : option Z :=
  let c := chr a in
  if (48 <=? c) && (c <=? 57) then Some (c - 48)
  else if (97 <=? c) && (c <=? 102) then Some (c - 97 + 10)
  else if (65 <=? c) && (c <=? 70) then Some (c - 65 + 10)
  else None.

Fixpoint strtoul_digits (base acc : Z) (s : string) : Z * string :=
  match s with
  | EmptyString => (acc, s)
  | String a rest =>
      match digit_value a with
      | Some v => if v <? base then strtoul_digits base (acc * base + v) rest
                  else (acc, s)
      | None => (acc, s)
      end
  end.

Definition is_x (a : ascii) : bool := (chr a =? chr "x") || (chr a =? chr "X").

Definition strtoul (s : string) (base : Z) : Z * string :=
  if base =? 0 then
    match s with
    | String "0" (String x (String a rest)) =>
        if is_x x && (match digit_value a with Some _ => true | None => false end)
        then strtoul_digits 16 0 (String a rest)
        else strtoul_digits 8 0 (String x (String a rest))
    | String "0" rest => strtoul_digits 8 0 rest
    | _ => strtoul_digits 10 0 s
    end
  else if base =? 16 then
    match s with
    | String "0" (String x rest) =>
        if is_x x then strtoul_digits 16 0 rest else strtoul_digits 16 0 s
    | _ => strtoul_digits 16 0 s
    end
  else strtoul_digits base 0 s.

Definition strtol (s : string) (base : Z) : Z * string :=
  match s with
  | String "-" rest => let (v, r) := strtoul rest base in (- v, r)
  | _ => strtoul s base
  end.

(** [bus:dev.func] in hexadecimal. *)
Definition pci_coordinates (s : string) : option (string * (Z * Z * Z)) :=
  let (b, s1) := strtoul_digits 16 0 s in
  match s1 with
  | String ":" s2 =>
      let (d, s3) := strtoul_digits 16 0 s2 in
      match s3 with
      | String "." s4 =>
          let (f, s5) := strtoul_digits 16 0 s4 in Some (s5, (b, d, f))
      | _ => None
      end
  | _ => None
  end.

(** The simulated platform over a given register bank. *)
Definition platform (bus : history -> access -> Z) : Platform := {|
  pci_fn := sim_fn;
  conf_read8 := fn_read8;
  conf_read16 := fn_read16;
  conf_read32 := fn_read32;
  conf_write16 := fn_write16;
  conf_write32 := fn_write32;
  bus_read := bus;
  FIX_COM_BEGIN := 0;
  fix_to_virt := fun idx => 0xffff0000 + idx * 0x1000;
  setup_irq := fun _ _ => 0;
  ioports_deny_access := fun _ _ _ => 0;
  simple_strtoul := strtoul;
  simple_strtol := strtol;
  parse_pci := pci_coordinates
|}.

(** The first slot as [ns16550_init] leaves it on a PC: COM1 at port
    0x3f8 with interrupt 4 and 8n1 framing by default. *)
Definition com1_defaults : ns16550_defaults :=
  mk_defaults 0 8 (chr "n") 1 4 0x3f8.

Definition boot (bus : history -> access -> Z) (t : Z * Z * Z -> sim_fn)
  : @machine (platform bus) :=
  @mk_machine (platform bus) ns16550_zero t [] 0.

(** The descriptor of COM1 once "115200,8n1" has been parsed, with its
    FIFO found. *)
Definition com1_descriptor : ns16550 :=
  mk_ns16550 115200 UART_CLOCK_HZ 8 UART_PARITY_NONE 1 16 4 0x3f8 8 0 1 0
    None None 0 false false (0, 0, 0) (0, 0, 0) false false 0 0 0.

(** COM1 behind an idle 16550, nothing on the PCI buses. *)
Definition pc : @machine (platform (uart16550 0x3f8)) :=
  @mk_machine (platform (uart16550 0x3f8)) com1_descriptor empty_bus [] 0.

(** COM1 with the given PCI buses. *)
Definition pc_with (t : Z * Z * Z -> sim_fn)
  : @machine (platform (uart16550 0x3f8)) :=
  @mk_machine (platform (uart16550 0x3f8)) com1_descriptor t [] 0.

(** The same machine once an interrupt has been seen. *)
Definition pc_latched : @machine (platform (uart16550 0x3f8)) :=
  upd_uart (set_intr_works true) pc.

(** COM1 on a port whose receiver holds two bytes and then vanishes. *)
Definition pc_vanishing : @machine (platform (vanishing_uart 0x3f8 2)) :=
  @mk_machine (platform (vanishing_uart 0x3f8 2)) com1_descriptor empty_bus
    [] 0.

(** COM1 on a port that comes back after two resume retries. *)
Definition pc_late : @machine (platform (late_uart 0x3f8 2)) :=
  @mk_machine (platform (late_uart 0x3f8 2)) com1_descriptor empty_bus [] 0.

(** COM1 on a port that never comes back. *)
Definition pc_gone : @machine (platform floating_bus) :=
  @mk_machine (platform floating_bus) com1_descriptor empty_bus [] 0.

(** A memory-mapped descriptor with the unsupported register width 2. *)
Definition odd_width : @machine (platform floating_bus) :=
  @mk_machine (platform floating_bus)
    (set_reg_width 2 (set_remapped_io_base 0xffff0000 com1_descriptor))
    empty_bus [] 0.

(** A single-port serial card: one 8-byte I/O BAR at 0xe000, interrupt
    pin A routed to line 11. *)
Definition serial_card : sim_fn :=
  serial_fn 0x0700 [io_bar 0xe000 8] 1 11.

(** A card whose primary BAR decodes 16 bytes at 0xd000 and whose second
    BAR decodes 8 bytes at 0xe000. *)
Definition two_bar_card : sim_fn :=
  serial_fn 0x0700 [io_bar 0xd000 16; io_bar 0xe000 8] 1 11.

End Sim.

(** ** Further simulated ports and machines *)

Module Bench.

Import Sim.

(** A 16550 whose divisor latch holds the bytes [dll] and [dlm]: they are
    what registers 0 and 1 read while the last byte written to the
    line-control register has the latch access bit set. *)
Definition latched_uart (base dll dlm : Z) (h : history) (a : access) : Z :=
  match a with
  | Inb port =>
      let open := match last_outb (base + UART_LCR) h with
                  | Some lcr => Z.testbit lcr 7
                  | None => false
                  end in
      if open && (port - base =? UART_DLL) then dll
      else if open && (port - base =? UART_DLM) then dlm
      else uart16550 base h a
  | _ => 0xff
  end.

(** COM1 with its baud rate to be read back from such a latch. *)
Definition pc_auto (dll dlm : Z) : @machine (platform (latched_uart 0x3f8 dll dlm)) :=
  @mk_machine (platform (latched_uart 0x3f8 dll dlm))
    (set_baud BAUD_AUTO com1_descriptor) empty_bus [] 0.

(** The serial card with its I/O decoding enabled. *)
Definition enabled_card : sim_fn := fn_write16 serial_card PCI_COMMAND 1.

(** A port found by the bus scan on that card, at 01:02.0. *)
Definition pc_card : @machine (platform (uart16550 0xe000)) :=
  @mk_machine (platform (uart16550 0xe000))
    (set_timer_field (Some 1)
       (set_timeout_ms 1
          (set_ps_bdf (1, 2, 0)
             (set_bar 0xe001 (set_irq 11 (set_io_base 0xe000 com1_descriptor))))))
    (plug (1, 2, 0) enabled_card empty_bus) [] 0.

(** A port that always has an interrupt pending and a byte ready. *)
Definition busy_uart (base : Z) (h : history) (a : access) : Z :=
  match a with
  | Inb port => if port - base =? UART_LSR then 0x61 else 0
  | _ => 0xff
  end.

Definition pc_busy : @machine (platform (busy_uart 0x3f8)) :=
  @mk_machine (platform (busy_uart 0x3f8)) com1_descriptor empty_bus [] 0.

End Bench.

(** * Properties *)

(** ** Integer conversions *)

Lemma to_int_small (v : Z) : - 2 ^ 31 <= v < 2 ^ 31 -> to_int v = v.
Proof. intros H. unfold to_int. rewrite Z.mod_small; lia. Qed.

Lemma to_u32_small (v : Z) : 0 <= v < 2 ^ 32 -> to_u32 v = v.
Proof. intros H. unfold to_u32. now rewrite Z.mod_small. Qed.

Lemma to_u8_range (v : Z) : 0 <= to_u8 v < 2 ^ 8.
Proof. unfold to_u8. apply Z.mod_pos_bound. lia. Qed.

Lemma to_u8_to_char (v : Z) : to_u8 (to_char v) = to_u8 v.
Proof.
  unfold to_u8, to_char.
  rewrite <- (Z.add_opp_r _ (2 ^ 7)).
  rewrite <- Zplus_mod_idemp_l, Z.mod_mod by lia.
  rewrite Zplus_mod_idemp_l. f_equal. lia.
Qed.

Lemma nonzero_true (v : Z) : nonzero v = true <-> v <> 0.
Proof. unfold nonzero. rewrite negb_true_iff, Z.eqb_neq. tauto. Qed.

Section Facts.

Context {P : Platform}.

(** ** The register accessor in terms of the bus *)

Lemma ns_read_reg_spec (m : machine) (reg : Z) :
  ns_read_reg m reg =
    (reg_value (trace m) (uart m) reg,
     mk_machine (uart m) (pci m) (after_read (trace m) (uart m) reg)
       (delayed_resume_tries m)).
Proof.
  unfold ns_read_reg, reg_value, after_read, reg_access, inb, readb, readl, log.
  destruct m as [u t h n]; simpl.
  destruct (remapped_io_base u =? 0); [reflexivity|].
  destruct (reg_width u =? 1); [reflexivity|].
  destruct (reg_width u =? 4); reflexivity.
Qed.

Lemma ioport_invalid_spec (m : machine) :
  ns16550_ioport_invalid m =
    (reads_invalid (trace m) (uart m),
     mk_machine (uart m) (pci m) (after_read (trace m) (uart m) UART_IER)
       (delayed_resume_tries m)).
Proof. unfold ns16550_ioport_invalid. now rewrite ns_read_reg_spec. Qed.

Lemma uart_ns_write_reg (m : machine) (reg c : Z) :
  uart (ns_write_reg m reg c) = uart m.
Proof.
  unfold ns_write_reg, outb, writeb, writel.
  destruct (remapped_io_base (uart m) =? 0); [reflexivity|].
  destruct (reg_width (uart m) =? 1); [reflexivity|].
  destruct (reg_width (uart m) =? 4); reflexivity.
Qed.

Lemma tries_ns_write_reg (m : machine) (reg c : Z) :
  delayed_resume_tries (ns_write_reg m reg c) = delayed_resume_tries m.
Proof.
  unfold ns_write_reg, outb, writeb, writel.
  destruct (remapped_io_base (uart m) =? 0); [reflexivity|].
  destruct (reg_width (uart m) =? 1); [reflexivity|].
  destruct (reg_width (uart m) =? 4); reflexivity.
Qed.

(** A remapped descriptor of unsupported width has no register on the bus. *)
Lemma reg_access_bad_width (u : ns16550) (reg : Z) :
  remapped_io_base u <> 0 -> reg_width u <> 1 -> reg_width u <> 4 ->
  reg_access u reg = None.
Proof.
  intros Hb H1 H4. unfold reg_access.
  apply Z.eqb_neq in Hb, H1, H4. now rewrite Hb, H1, H4.
Qed.

(** C10: for a descriptor with a non-null remapped base and a register
    width that is neither 1 nor 4, every register read returns the all-ones
    byte 0xff and every register write does nothing; hence the
    hardware-vanished check holds, the transmit-readiness query returns the
    I/O error and get-char reports no data, each of them returning with the
    machine, and so the trace of bus accesses, exactly as it was. *)
Theorem bad_width_never_reaches_bus (m : machine) :
  remapped_io_base (uart m) <> 0 ->
  reg_width (uart m) <> 1 -> reg_width (uart m) <> 4 ->
  (forall reg, ns_read_reg m reg = (to_char 0xff, m)
               /\ to_u8 (fst (ns_read_reg m reg)) = 0xff) /\
  (forall reg c, ns_write_reg m reg c = m) /\
  ns16550_ioport_invalid m = (true, m) /\
  ns16550_tx_ready m = (- EIO, m) /\
  (forall c, ns16550_putc m c = m) /\
  ns16550_getc m = (0, None, m).
Proof.
  intros Hb H1 H4.
  assert (Hr : forall reg, ns_read_reg m reg = (to_char 0xff, m)).
  { intros reg. rewrite ns_read_reg_spec. unfold reg_value, after_read.
    rewrite reg_access_bad_width by assumption. now destruct m. }
  assert (Hw : forall reg c, ns_write_reg m reg c = m).
  { intros reg c. unfold ns_write_reg.
    apply Z.eqb_neq in Hb, H1, H4. now rewrite Hb, H1, H4. }
  assert (Hi : ns16550_ioport_invalid m = (true, m)).
  { unfold ns16550_ioport_invalid. now rewrite Hr. }
  repeat split.
  - apply Hr.
  - now rewrite Hr.
  - apply Hw.
  - exact Hi.
  - unfold ns16550_tx_ready. now rewrite Hi.
  - intros c. apply Hw.
  - unfold ns16550_getc. now rewrite Hi.
Qed.

(** C8: for a descriptor that passed validation (5 to 8 data bits, 1 or 2
    stop bits, a FIFO depth of 1 or 16), has a positive baud rate and an
    interrupt setting that is not "unset", post-interrupt initialisation
    returns and leaves
    [timeout_ms = max(1, (data_bits + stop_bits + (parity != none))
                         * fifo_size * 1000 / baud)],
    the quotient being the integer one. *)
Theorem init_postirq_timeout (m : machine) :
  let u := uart m in
  5 <= data_bits u <= 8 ->
  1 <= stop_bits u <= 2 ->
  fifo_size u = 1 \/ fifo_size u = 16 ->
  0 < baud u ->
  0 <= irq u ->
  exists m',
    ns16550_init_postirq m = Done m' /\
    timeout_ms (uart m') =
      Z.max 1 ((data_bits u + stop_bits u
                + (if parity u =? UART_PARITY_NONE then 0 else 1))
               * fifo_size u * 1000 / baud u).
Proof.
  intros u Hd Hs Hf Hb Hi.
  set (pbit := if parity u =? UART_PARITY_NONE then 0 else 1).
  assert (Hp : (if nonzero (parity u) then 1 else 0) = pbit).
  { unfold pbit, nonzero, UART_PARITY_NONE. simpl.
    now destruct (parity u =? 0). }
  assert (Hpb : 0 <= pbit <= 1).
  { unfold pbit. destruct (parity u =? UART_PARITY_NONE); lia. }
  set (n := (data_bits u + stop_bits u + pbit) * fifo_size u * 1000).
  assert (Hn : 0 <= n <= 176000) by (unfold n; destruct Hf as [-> | ->]; lia).
  assert (Hq : 0 <= n / baud u <= 176000).
  { split; [apply Z.div_pos; lia|].
    apply Z.le_trans with n; [|lia].
    apply Z.div_le_upper_bound; nia. }
  unfold ns16550_init_postirq. fold u.
  replace (irq u <? 0) with false by (symmetry; apply Z.ltb_ge; lia).
  rewrite Hp.
  rewrite (to_int_small (data_bits u + stop_bits u)) by lia.
  rewrite (to_int_small (data_bits u + stop_bits u + pbit)) by lia.
  rewrite (to_int_small ((data_bits u + stop_bits u + pbit) * fifo_size u))
    by (destruct Hf as [-> | ->]; lia).
  fold n. rewrite (to_int_small n) by lia.
  unfold int_div.
  replace (baud u =? 0) with false by (symmetry; apply Z.eqb_neq; lia).
  rewrite Z.quot_div_nonneg by lia.
  rewrite (to_int_small (n / baud u)) by lia.
  cbn [bind].
  assert (Hmax : max_uint 1 (n / baud u) = Z.max 1 (n / baud u)).
  { unfold max_uint. rewrite !to_u32_small by lia. reflexivity. }
  destruct (ps_bdf u) as [[sb sd] sf].
  destruct (nonzero (bar u) || ps_bdf_enable u);
    eexists; (split; [reflexivity|]);
    cbn [uart log];
    unfold ns16550_setup_postirq;
    repeat match goal with
    | |- context [if ?c then _ else _] => destruct c
    end;
    cbn [uart log set_timer upd_uart];
    rewrite ?uart_ns_write_reg; cbn; exact Hmax.
Qed.

(** ** What the entry points do to [intr_works] *)

Lemma uart_pci_serial_early_init (m : machine) :
  uart (pci_serial_early_init m) = uart m.
Proof.
  unfold pci_serial_early_init.
  destruct (negb (ps_bdf_enable (uart m)) || (0x10000 <=? io_base (uart m)));
    [reflexivity|].
  destruct (pb_bdf (uart m)) as [[pb pd] pf].
  destruct (ps_bdf (uart m)) as [[sb sd] sf].
  destruct (pb_bdf_enable (uart m)); reflexivity.
Qed.

Lemma intr_works_setup_postirq (m : machine) :
  intr_works (uart (ns16550_setup_postirq m)) = intr_works (uart m).
Proof.
  unfold ns16550_setup_postirq.
  destruct (0 <? irq (uart m));
    rewrite ?uart_ns_write_reg;
    destruct (0 <=? irq (uart m)); cbn; rewrite ?uart_ns_write_reg; reflexivity.
Qed.

Lemma setup_preirq_resets (m m' : machine) :
  ns16550_setup_preirq m = Done m' -> intr_works (uart m') = false.
Proof.
  unfold ns16550_setup_preirq.
  set (m1 := pci_serial_early_init (upd_uart (set_intr_works false) m)).
  assert (H1 : intr_works (uart m1) = false).
  { unfold m1. now rewrite uart_pci_serial_early_init. }
  set (m2 := ns_write_reg m1 UART_IER 0).
  assert (H2 : intr_works (uart m2) = false).
  { unfold m2. now rewrite uart_ns_write_reg. }
  match goal with
  | |- context [ns_write_reg ?x UART_LCR (Z.lor _ UART_LCR_DLAB)] =>
      set (m3 := x)
  end.
  assert (H3 : intr_works (uart m3) = false).
  { unfold m3. destruct (dw_usr_bsy (uart m1)); [|exact H2].
    rewrite ns_read_reg_spec.
    match goal with |- context [if ?c then _ else _] => destruct c end;
      rewrite ?ns_read_reg_spec; exact H2. }
  clearbody m3.
  set (m4 := ns_write_reg m3 _ _).
  assert (H4 : intr_works (uart m4) = false).
  { unfold m4. now rewrite uart_ns_write_reg. }
  clearbody m4.
  destruct (negb (baud (uart m1) =? BAUD_AUTO)).
  - destruct (int_div _ _); cbn [bind]; try discriminate.
    intros [= <-]. now rewrite !uart_ns_write_reg.
  - rewrite !ns_read_reg_spec. cbn [bind uart].
    destruct (uint_div _ _); cbn [bind]; try discriminate.
    intros [= <-]. rewrite !uart_ns_write_reg. cbn. exact H4.
Qed.

Lemma real_resume_resets (m m' : machine) :
  _ns16550_resume m = Done m' -> intr_works (uart m') = false.
Proof.
  unfold _ns16550_resume.
  destruct (ns16550_setup_preirq _) as [m1| |] eqn:E; cbn [bind];
    try discriminate.
  intros [= <-]. rewrite intr_works_setup_postirq.
  eapply setup_preirq_resets, E.
Qed.

Lemma init_preirq_resets (idx : Z) (m m' : machine) :
  ns16550_init_preirq idx m = Done m' -> intr_works (uart m') = false.
Proof.
  unfold ns16550_init_preirq.
  destruct (ns16550_setup_preirq _) as [m1| |] eqn:E; cbn [bind];
    try discriminate.
  apply setup_preirq_resets in E.
  rewrite ns_read_reg_spec.
  destruct (Z.land _ 192 =? 192); [|intros [= <-]; exact E].
  rewrite ns_read_reg_spec.
  destruct (Z.land _ UART_FCR_TRG14 =? UART_FCR_TRG14);
    intros [= <-]; exact E.
Qed.

Lemma interrupt_loop_uart (fuel : nat) (m m' : machine) :
  interrupt_loop fuel m = Done m' -> uart m' = uart m.
Proof.
  revert m. induction fuel as [|k IH]; intros m; cbn [interrupt_loop];
    [discriminate|].
  rewrite ns_read_reg_spec.
  destruct (nonzero (Z.land _ UART_IIR_NOINT)); [now intros [= <-]|].
  rewrite ns_read_reg_spec.
  intros H. apply IH in H. rewrite H.
  destruct (nonzero (Z.land _ UART_LSR_THRE));
    destruct (nonzero (Z.land _ UART_LSR_DR)); reflexivity.
Qed.

Lemma init_postirq_intr_works (m m' : machine) :
  ns16550_init_postirq m = Done m' ->
  intr_works (uart m') = intr_works (uart m).
Proof.
  unfold ns16550_init_postirq.
  destruct (irq (uart m) <? 0); [now intros [= <-]|].
  destruct (int_div _ _) as [q| |]; cbn [bind]; try discriminate.
  destruct (ps_bdf (uart m)) as [[sb sd] sf].
  destruct (nonzero (bar (uart m)) || ps_bdf_enable (uart m));
    intros [= <-]; cbn [uart log]; rewrite intr_works_setup_postirq;
    destruct (0 <? irq (uart m)); [destruct (nonzero _)| |destruct (nonzero _)|];
    reflexivity.
Qed.

Lemma suspend_intr_works (m : machine) :
  intr_works (uart (ns16550_suspend m)) = intr_works (uart m).
Proof.
  unfold ns16550_suspend.
  destruct (ps_bdf (uart (stop_timer PollTimer m))) as [[sb sd] sf].
  destruct (nonzero (bar (uart (stop_timer PollTimer m)))); reflexivity.
Qed.

Lemma tx_ready_uart (m : machine) : uart (snd (ns16550_tx_ready m)) = uart m.
Proof.
  unfold ns16550_tx_ready. rewrite ioport_invalid_spec.
  destruct (reads_invalid _ _); [reflexivity|].
  now rewrite ns_read_reg_spec.
Qed.

Lemma getc_uart (m : machine) : uart (snd (ns16550_getc m)) = uart m.
Proof.
  unfold ns16550_getc. rewrite ioport_invalid_spec.
  destruct (reads_invalid _ _); [reflexivity|].
  rewrite ns_read_reg_spec.
  destruct (negb _); [reflexivity|].
  now rewrite ns_read_reg_spec.
Qed.

Lemma endboot_uart (m m' : machine) :
  ns16550_endboot m = Done m' -> uart m' = uart m.
Proof.
  unfold ns16550_endboot.
  destruct (nonzero (remapped_io_base (uart m))); [now intros [= <-]|].
  destruct (nonzero _); [discriminate|]. now intros [= <-].
Qed.

(** An entry point that cannot reach the pre-interrupt setup leaves a set
    [intr_works] set. *)
Lemma latch_kept_by_entry (fuel : nat) (e : entry) (m m' : machine) :
  reaches_setup_preirq e = false ->
  intr_works (uart m) = true ->
  run_entry fuel e m = Done m' ->
  intr_works (uart m') = true.
Proof.
  intros He Hm.
  destruct e; try discriminate He; cbn [run_entry]; intros H.
  - now rewrite (init_postirq_intr_works _ _ H).
  - now rewrite (endboot_uart _ _ H).
  - injection H as <-. now rewrite suspend_intr_works.
  - injection H as <-. now rewrite tx_ready_uart.
  - injection H as <-. unfold ns16550_putc. now rewrite uart_ns_write_reg.
  - injection H as <-. now rewrite getc_uart.
  - now injection H as <-.
  - unfold ns16550_interrupt in H. now rewrite (interrupt_loop_uart _ _ _ H).
  - unfold ns16550_poll, __ns16550_poll in H. rewrite Hm in H.
    now injection H as <-.
Qed.

Lemma latch_kept_by_entries (fuel : nat) (es : list entry) (m m' : machine) :
  Forall (fun e => reaches_setup_preirq e = false) es ->
  intr_works (uart m) = true ->
  run_entries fuel es m = Done m' ->
  intr_works (uart m') = true.
Proof.
  intros Hes. revert m.
  induction Hes as [|e es He Hes IH]; intros m Hm; cbn [run_entries].
  - now intros [= <-].
  - destruct (run_entry fuel e m) as [m1| |] eqn:E; cbn [bind];
      try discriminate.
    apply IH. eapply latch_kept_by_entry; eassumption.
Qed.

Lemma resume_intr_works (m m' : machine) :
  intr_works (uart m) = true ->
  ns16550_resume m = Done m' ->
  intr_works (uart m') = reads_invalid (trace m) (uart m).
Proof.
  intros Hm. unfold ns16550_resume. rewrite ioport_invalid_spec.
  destruct (reads_invalid (trace m) (uart m)).
  - intros [= <-]. exact Hm.
  - apply real_resume_resets.
Qed.

Lemma delayed_resume_intr_works (m m' : machine) :
  intr_works (uart m) = true ->
  ns16550_delayed_resume m = Done m' ->
  intr_works (uart m') =
    reads_invalid (trace m) (uart m) && nonzero (delayed_resume_tries m).
Proof.
  intros Hm. unfold ns16550_delayed_resume. rewrite ioport_invalid_spec.
  destruct (reads_invalid (trace m) (uart m)); cbn [andb delayed_resume_tries].
  - destruct (nonzero (delayed_resume_tries m)).
    + intros [= <-]. exact Hm.
    + apply real_resume_resets.
  - apply real_resume_resets.
Qed.

(** C1, as the code has it: every interrupt sets [intr_works]; once it is
    true, every poll-timer invocation is a no-op that returns at once and
    leaves the machine, and so the trace of register accesses, untouched;
    and [intr_works] stays true across every run of entry points that
    cannot reach the pre-interrupt setup (post-interrupt initialisation,
    end of boot, suspend, transmit-ready, put-char, get-char, irq-number,
    the interrupt handler, the poll timer).  The pre-interrupt setup clears
    it: [init_preirq] always does, [resume] does unless the hardware check
    fails and a retry is scheduled, the delayed resume does unless it
    schedules another retry. *)
Theorem intr_works_latch (m : machine) :
  intr_works (uart m) = true ->
  (forall fuel, ns16550_poll fuel m = Done m) /\
  (forall fuel es m',
      Forall (fun e => reaches_setup_preirq e = false) es ->
      run_entries fuel es m = Done m' ->
      intr_works (uart m') = true /\
      forall fuel', ns16550_poll fuel' m' = Done m') /\
  (forall idx m',
      ns16550_init_preirq idx m = Done m' -> intr_works (uart m') = false) /\
  (forall m',
      ns16550_resume m = Done m' ->
      intr_works (uart m') = reads_invalid (trace m) (uart m)) /\
  (forall m',
      ns16550_delayed_resume m = Done m' ->
      intr_works (uart m') =
        reads_invalid (trace m) (uart m) && nonzero (delayed_resume_tries m)) /\
  (forall fuel m0 m',
      ns16550_interrupt fuel m0 = Done m' -> intr_works (uart m') = true).
Proof.
  intros Hm.
  assert (Hpoll : forall x fuel,
             intr_works (uart x) = true -> ns16550_poll fuel x = Done x).
  { intros x fuel Hx. unfold ns16550_poll, __ns16550_poll. now rewrite Hx. }
  repeat split.
  - intros fuel. now apply Hpoll.
  - eapply latch_kept_by_entries; eassumption.
  - intros fuel'. apply Hpoll. eapply latch_kept_by_entries; eassumption.
  - intros idx m'. apply init_preirq_resets.
  - intros m'. now apply resume_intr_works.
  - intros m'. now apply delayed_resume_intr_works.
  - intros fuel m0 m' H. unfold ns16550_interrupt in H.
    now rewrite (interrupt_loop_uart _ _ _ H).
Qed.

(** ** The parity character *)

(** C9: a character in the parity position that is none of 'n', 'o', 'e',
    'm', 's' is not rejected: [parse_parity_char] gives it the value it
    gives 'n', which is "no parity", and the parsing of a data-parity-stop
    field that has such a character where the number of data bits ends
    goes on, with the parity of the descriptor set to none. *)
Theorem parse_parity_char_unknown (c : Z) :
  c <> chr "n" -> c <> chr "o" -> c <> chr "e" ->
  c <> chr "m" -> c <> chr "s" ->
  parse_parity_char c = parse_parity_char (chr "n") /\
  parse_parity_char c = UART_PARITY_NONE /\
  (forall (m : machine) (conf : string),
      fst (field_start conf) = true ->
      peek (snd (simple_strtoul (snd (field_start conf)) 10)) = c ->
      exists m' rest,
        parse_dps m conf = Continue m' rest /\
        parity (uart m') = UART_PARITY_NONE).
Proof.
  intros Hn Ho He Hm Hs.
  assert (H0 : parse_parity_char c = UART_PARITY_NONE).
  { unfold parse_parity_char.
    apply Z.eqb_neq in Hn, Ho, He, Hm, Hs.
    now rewrite Hn, Ho, He, Hm, Hs. }
  split; [exact H0|]. split; [exact H0|].
  intros m conf Hgo Hc. unfold parse_dps.
  destruct (field_start conf) as [go conf1]. cbn [fst snd] in Hgo, Hc.
  subst go.
  destruct (simple_strtoul conf1 10) as [v conf2]. cbn [snd] in Hc.
  destruct (simple_strtoul (advance 1 conf2) 10) as [v' conf3].
  eexists. eexists. split; [reflexivity|].
  cbn [uart upd_uart parity set_stop_bits set_parity].
  now rewrite Hc.
Qed.

(** ** The poll timer *)

Lemma after_read_app (h : history) (u : ns16550) (reg : Z) :
  after_read h u reg = read_event h u reg ++ h.
Proof. unfold after_read, read_event. now destruct (reg_access u reg). Qed.

Lemma count_event_app (p : event -> bool) (a b : history) :
  count_event p (a ++ b) = (count_event p a + count_event p b)%nat.
Proof. unfold count_event. now rewrite filter_app, length_app. Qed.

Lemma count_read_event (p : event -> bool) (h : history) (u : ns16550)
    (reg : Z) :
  (forall a v, p (EvRead a v) = false) ->
  count_event p (read_event h u reg) = 0%nat.
Proof.
  intros Hp. unfold read_event. destruct (reg_access u reg); [|reflexivity].
  unfold count_event. cbn. now rewrite Hp.
Qed.

Lemma count_read_event_le (p : event -> bool) (h : history) (u : ns16550)
    (reg : Z) :
  (count_event p (read_event h u reg) <= 1)%nat.
Proof.
  unfold read_event. destruct (reg_access u reg); [|cbn; lia].
  unfold count_event. cbn. destruct (p _); cbn; lia.
Qed.

(** One turn of the receive loop. *)
Lemma poll_rx_loop_step (k : nat) (m : machine) :
  poll_rx_loop (S k) m =
    let h := trace m in
    let u := uart m in
    let h1 := after_read h u UART_LSR in
    if nonzero (Z.land (reg_value h u UART_LSR) UART_LSR_DR) then
      if reads_invalid h1 u
      then Done (true, mk_machine u (pci m) (after_read h1 u UART_IER)
                         (delayed_resume_tries m))
      else poll_rx_loop k
             (mk_machine u (pci m) (EvRxInterrupt :: after_read h1 u UART_IER)
                (delayed_resume_tries m))
    else Done (false, mk_machine u (pci m) h1 (delayed_resume_tries m)).
Proof.
  cbn [poll_rx_loop]. rewrite ns_read_reg_spec. cbn zeta.
  destruct (nonzero _); [|reflexivity].
  rewrite ioport_invalid_spec. cbn [uart trace pci delayed_resume_tries].
  destruct (reads_invalid _ _); reflexivity.
Qed.

Lemma count_event_cons (p : event -> bool) (e : event) (l : history) :
  count_event p (e :: l) = ((if p e then 1 else 0) + count_event p l)%nat.
Proof. unfold count_event. cbn [filter]. now destruct (p e). Qed.

Ltac count_cons :=
  rewrite ?count_event_cons;
  cbn [is_rx is_tx is_rearm is_read is_set_timer].

Ltac norm_list :=
  repeat first [rewrite <- app_assoc | rewrite <- app_comm_cons].
Ltac norm_list_in H :=
  repeat first [rewrite <- app_assoc in H | rewrite <- app_comm_cons in H].

Ltac bound_reads :=
  repeat match goal with
  | |- context [count_event is_read (read_event ?h ?u ?r)] =>
      let H := fresh in
      let c := fresh "c" in
      pose proof (count_read_event_le is_read h u r) as H;
      set (c := count_event is_read (read_event h u r)) in *;
      clearbody c
  end.

(** The receive loop when [N] bytes are ready and the port then drops off
    the bus: it takes the [goto out] exit after exactly [N] upcalls. *)
Lemma poll_rx_loop_burst (u : ns16550) (tb : Z * Z * Z -> pci_fn) (n : Z)
    (h0 : history) (N : nat) :
  (forall t, (count_event is_rx t <= N)%nat ->
     nonzero (Z.land (reg_value (t ++ h0) u UART_LSR) UART_LSR_DR) = true) ->
  (forall t, (count_event is_rx t < N)%nat ->
     reads_invalid (t ++ h0) u = false) ->
  (forall t, count_event is_rx t = N -> reads_invalid (t ++ h0) u = true) ->
  forall (j fuel : nat) (t : history),
    (count_event is_rx t + j = N)%nat -> (j < fuel)%nat ->
    exists t',
      poll_rx_loop fuel (mk_machine u tb (t ++ h0) n) =
        Done (true, mk_machine u tb (t' ++ t ++ h0) n) /\
      count_event is_rx t' = j /\
      count_event is_tx t' = 0%nat /\
      count_event is_rearm t' = 0%nat /\
      (count_event is_read t' <= 2 * (j + 1))%nat.
Proof.
  intros Hdr Hok Hfail.
  induction j as [|j IH]; intros fuel t Hc Hf;
    (destruct fuel as [|k]; [lia|]);
    rewrite poll_rx_loop_step;
    cbn [trace uart pci delayed_resume_tries]; cbn zeta;
    rewrite Hdr by lia;
    rewrite (after_read_app (t ++ h0)), app_assoc.
  - rewrite Hfail
      by (rewrite count_event_app, count_read_event by reflexivity; lia).
    rewrite after_read_app, app_assoc.
    set (r1 := read_event (t ++ h0) u UART_LSR).
    set (r2 := read_event _ u UART_IER).
    exists (r2 ++ r1). split; [now rewrite <- !app_assoc|].
    unfold r1, r2.
    rewrite !count_event_app, !count_read_event by reflexivity.
    repeat split; try reflexivity.
    bound_reads. lia.
  - rewrite Hok
      by (rewrite count_event_app, count_read_event by reflexivity; lia).
    rewrite after_read_app, app_assoc.
    set (r1 := read_event (t ++ h0) u UART_LSR).
    set (r2 := read_event _ u UART_IER).
    destruct (IH k (EvRxInterrupt :: (r2 ++ r1) ++ t))
      as (t' & Ht' & Hrx & Htx & Htm & Hrd).
    { count_cons. unfold r1, r2.
      rewrite !count_event_app, !count_read_event by reflexivity. lia. }
    { lia. }
    exists (t' ++ EvRxInterrupt :: r2 ++ r1).
    split.
    + norm_list. norm_list_in Ht'. exact Ht'.
    + rewrite !count_event_app. count_cons.
      rewrite !count_event_app. unfold r1, r2.
      rewrite !count_read_event by reflexivity.
      bound_reads. repeat split; lia.
Qed.

(** Whenever the receive loop returns, it has only added register reads
    and receive upcalls to the trace. *)
Lemma poll_rx_loop_done (fuel : nat) (m : machine) (out : bool) (m' : machine) :
  poll_rx_loop fuel m = Done (out, m') ->
  exists t,
    m' = mk_machine (uart m) (pci m) (t ++ trace m) (delayed_resume_tries m) /\
    count_event is_rearm t = 0%nat /\ count_event is_tx t = 0%nat.
Proof.
  revert m. induction fuel as [|k IH]; intros m; [discriminate|].
  rewrite poll_rx_loop_step. cbn zeta.
  rewrite !after_read_app.
  destruct (nonzero _).
  - destruct (reads_invalid _ _).
    + intros [= <- <-].
      exists (read_event (read_event (trace m) (uart m) UART_LSR ++ trace m)
                (uart m) UART_IER ++ read_event (trace m) (uart m) UART_LSR).
      split; [now rewrite app_assoc|].
      rewrite !count_event_app, !count_read_event by reflexivity. now split.
    + intros H. apply IH in H. cbn [uart pci trace delayed_resume_tries] in H.
      destruct H as (t & -> & Ht & Ht').
      exists (t ++ EvRxInterrupt :: read_event
                (read_event (trace m) (uart m) UART_LSR ++ trace m)
                (uart m) UART_IER ++ read_event (trace m) (uart m) UART_LSR).
      split; [now norm_list|].
      rewrite !count_event_app. count_cons.
      rewrite !count_event_app, !count_read_event by reflexivity.
      split; lia.
  - intros [= <- <-]. eexists. split; [reflexivity|].
    rewrite !count_read_event by reflexivity. now split.
Qed.

(** The receive loop returns as soon as the line status stops reporting
    data: within [k + 1] turns when at most [k] bytes are ready. *)
Lemma poll_rx_loop_bounded (u : ns16550) (tb : Z * Z * Z -> pci_fn) (n : Z)
    (h0 : history) (k : nat) :
  (forall t, count_event is_rx t = k ->
     nonzero (Z.land (reg_value (t ++ h0) u UART_LSR) UART_LSR_DR) = false) ->
  forall (j fuel : nat) (t : history),
    (count_event is_rx t + j = k)%nat -> (j < fuel)%nat ->
    exists out m', poll_rx_loop fuel (mk_machine u tb (t ++ h0) n)
                   = Done (out, m').
Proof.
  intros Hend.
  induction j as [|j IH]; intros fuel t Hc Hf;
    (destruct fuel as [|f]; [lia|]);
    rewrite poll_rx_loop_step;
    cbn [trace uart pci delayed_resume_tries]; cbn zeta.
  - rewrite Hend by lia. eauto.
  - destruct (nonzero _); [|eauto].
    destruct (reads_invalid _ _); [eauto|].
    rewrite !after_read_app.
    set (r1 := read_event (t ++ h0) u UART_LSR).
    set (r2 := read_event _ u UART_IER).
    replace (EvRxInterrupt :: r2 ++ r1 ++ t ++ h0)
      with ((EvRxInterrupt :: (r2 ++ r1) ++ t) ++ h0)
      by (cbn [app]; now rewrite <- !app_assoc).
    apply IH; [|lia].
    count_cons. unfold r1, r2.
    rewrite !count_event_app, !count_read_event by reflexivity. lia.
Qed.

(** Every poll that returns with [intr_works] clear has rearmed the poll
    timer at [timeout_ms], once, as the last thing it did. *)
Lemma poll_done_rearms_once (fuel : nat) (m m' : machine) :
  intr_works (uart m) = false ->
  __ns16550_poll fuel m = Done m' ->
  exists t,
    trace m' = EvSetTimer PollTimer (timeout_ms (uart m)) :: t ++ trace m /\
    count_event is_rearm t = 0%nat /\
    timer (uart m') = Some (timeout_ms (uart m)).
Proof.
  intros Hi. unfold __ns16550_poll. rewrite Hi.
  destruct (poll_rx_loop fuel m) as [[out m1]| |] eqn:E; cbn [bind];
    try discriminate.
  apply poll_rx_loop_done in E. destruct E as (t & -> & Ht & _).
  destruct out.
  - intros [= <-]. exists t. cbn. auto.
  - rewrite ns_read_reg_spec. cbn [uart trace pci delayed_resume_tries].
    rewrite after_read_app.
    set (r := read_event (t ++ trace m) (uart m) UART_LSR).
    destruct (nonzero _); intros [= <-].
    + exists (EvTxInterrupt :: r ++ t).
      split; [cbn; now norm_list|].
      split; [|reflexivity]. count_cons. unfold r.
      rewrite count_event_app, count_read_event by reflexivity. lia.
    + exists (r ++ t).
      split; [cbn; now norm_list|].
      split; [|reflexivity]. unfold r.
      rewrite count_event_app, count_read_event by reflexivity. lia.
Qed.

(** C5: a poll-timer invocation with [intr_works] clear, during which the
    line status reports data ready for [N] bytes and the hardware-vanished
    check fails on turn [N + 1], returns having made exactly [N] receive
    upcalls, no transmit upcall and at most the [2 (N + 1)] register reads
    of the receive loop (the transmit check is skipped), and having rearmed
    the poll timer exactly once, at [timeout_ms].  In every case with
    [intr_works] clear, an invocation that returns has rearmed the timer
    exactly once at [timeout_ms]; and it does return, within [k + 1] turns
    of the receive loop, whenever the line status stops reporting data
    after [k] bytes. *)
Theorem poll_delivers_and_rearms (m : machine) :
  let u := uart m in
  let h0 := trace m in
  intr_works u = false ->
  (forall (N fuel : nat),
      (forall t, (count_event is_rx t <= N)%nat ->
         nonzero (Z.land (reg_value (t ++ h0) u UART_LSR) UART_LSR_DR) = true) ->
      (forall t, (count_event is_rx t < N)%nat ->
         reads_invalid (t ++ h0) u = false) ->
      (forall t, count_event is_rx t = N -> reads_invalid (t ++ h0) u = true) ->
      (N < fuel)%nat ->
      exists t,
        __ns16550_poll fuel m =
          Done (mk_machine (set_timer_field (Some (timeout_ms u)) u) (pci m)
                  (EvSetTimer PollTimer (timeout_ms u) :: t ++ h0)
                  (delayed_resume_tries m)) /\
        count_event is_rx t = N /\
        count_event is_tx t = 0%nat /\
        count_event is_rearm t = 0%nat /\
        (count_event is_read t <= 2 * (N + 1))%nat) /\
  (forall fuel m',
      __ns16550_poll fuel m = Done m' ->
      exists t,
        trace m' = EvSetTimer PollTimer (timeout_ms u) :: t ++ h0 /\
        count_event is_rearm t = 0%nat /\
        timer (uart m') = Some (timeout_ms u)) /\
  (forall (k fuel : nat),
      (forall t, count_event is_rx t = k ->
         nonzero (Z.land (reg_value (t ++ h0) u UART_LSR) UART_LSR_DR) = false) ->
      (k < fuel)%nat ->
      exists m', __ns16550_poll fuel m = Done m').
Proof.
  destruct m as [u tb h0 n]. cbn [uart trace pci delayed_resume_tries].
  intros Hi. split; [|split].
  - intros N fuel Hdr Hok Hfail Hf.
    destruct (poll_rx_loop_burst u tb n h0 N Hdr Hok Hfail N fuel [])
      as (t & Ht & Hrx & Htx & Htm & Hrd); [reflexivity|exact Hf|].
    cbn [app] in Ht.
    exists t. unfold __ns16550_poll. cbn [uart]. rewrite Hi, Ht. cbn [bind].
    repeat split; assumption.
  - intros fuel m' H.
    apply (poll_done_rearms_once fuel (mk_machine u tb h0 n) m' Hi H).
  - intros k fuel Hend Hf.
    destruct (poll_rx_loop_bounded u tb n h0 k Hend k fuel [])
      as (out & m1 & E); [reflexivity|exact Hf|].
    cbn [app] in E.
    unfold __ns16550_poll. cbn [uart]. rewrite Hi, E. cbn [bind].
    destruct out; eauto.
Qed.

(** ** Suspend and resume *)

Lemma set_baud_same (u : ns16550) : set_baud (baud u) u = u.
Proof. now destruct u. Qed.

Lemma setup_preirq_frame (m m' : machine) :
  ns16550_setup_preirq m = Done m' ->
  exists b, uart m' = set_baud b (set_intr_works false (uart m)).
Proof.
  unfold ns16550_setup_preirq.
  set (m1 := pci_serial_early_init (upd_uart (set_intr_works false) m)).
  assert (H1 : uart m1 = set_intr_works false (uart m)).
  { unfold m1. now rewrite uart_pci_serial_early_init. }
  set (m2 := ns_write_reg m1 UART_IER 0).
  assert (H2 : uart m2 = set_intr_works false (uart m)).
  { unfold m2. now rewrite uart_ns_write_reg. }
  match goal with
  | |- context [ns_write_reg ?x UART_LCR (Z.lor _ UART_LCR_DLAB)] =>
      set (m3 := x)
  end.
  assert (H3 : uart m3 = set_intr_works false (uart m)).
  { unfold m3. destruct (dw_usr_bsy (uart m1)); [|exact H2].
    rewrite ns_read_reg_spec.
    match goal with |- context [if ?c then _ else _] => destruct c end;
      rewrite ?ns_read_reg_spec; exact H2. }
  clearbody m3.
  set (m4 := ns_write_reg m3 _ _).
  assert (H4 : uart m4 = set_intr_works false (uart m)).
  { unfold m4. now rewrite uart_ns_write_reg. }
  clearbody m4.
  destruct (negb (baud (uart m1) =? BAUD_AUTO)).
  - destruct (int_div _ _); cbn [bind]; try discriminate.
    intros [= <-]. rewrite !uart_ns_write_reg, H4.
    eexists. symmetry. apply set_baud_same.
  - rewrite !ns_read_reg_spec. cbn [bind uart].
    destruct (uint_div _ _); cbn [bind]; try discriminate.
    intros [= <-]. rewrite !uart_ns_write_reg. cbn [uart upd_uart].
    rewrite H4. eauto.
Qed.

Lemma setup_postirq_frame (m : machine) :
  uart (ns16550_setup_postirq m) =
    if 0 <=? irq (uart m)
    then set_timer_field (Some (timeout_ms (uart m))) (uart m) else uart m.
Proof.
  unfold ns16550_setup_postirq.
  destruct (0 <? irq (uart m));
    rewrite ?uart_ns_write_reg;
    destruct (0 <=? irq (uart m)); cbn [uart set_timer log upd_uart];
    rewrite ?uart_ns_write_reg; reflexivity.
Qed.

Lemma uart_resume_restore_pci (m : machine) :
  uart (resume_restore_pci m) = uart m.
Proof.
  unfold resume_restore_pci.
  destruct (ps_bdf (uart m)) as [[sb sd] sf].
  destruct (nonzero (bar (uart m))); reflexivity.
Qed.

Lemma real_resume_resume_timer (m m' : machine) :
  _ns16550_resume m = Done m' ->
  resume_timer (uart m') = resume_timer (uart m).
Proof.
  unfold _ns16550_resume.
  destruct (ns16550_setup_preirq _) as [m1| |] eqn:E; cbn [bind];
    try discriminate.
  intros [= <-]. apply setup_preirq_frame in E. destruct E as [b E].
  rewrite setup_postirq_frame, E, uart_resume_restore_pci.
  destruct (0 <=? _); reflexivity.
Qed.

Lemma resume_timer_run_idle (n : nat) (m : machine) :
  resume_timer (uart m) = None -> resume_timer_run n m = Done m.
Proof. intros H. destruct n; cbn [resume_timer_run]; [|rewrite H]; reflexivity. Qed.

Lemma real_resume_then_idle (n : nat) (m : machine) :
  resume_timer (uart m) = None ->
  (r <- _ns16550_resume m ;; resume_timer_run n r) = _ns16550_resume m.
Proof.
  intros H. destruct (_ns16550_resume m) as [r| |] eqn:E; cbn [bind];
    try reflexivity.
  apply resume_timer_run_idle. rewrite (real_resume_resume_timer _ _ E). exact H.
Qed.

Lemma retries_scheduled (u : ns16550) (tb : Z * Z * Z -> pci_fn) (h0 : history) :
  forall (d n : nat) (t : history) (T : Z),
    (forall t', (count_event (is_set_timer ResumeTimer) t <= count_event (is_set_timer ResumeTimer) t' < count_event (is_set_timer ResumeTimer) t + d)%nat ->
                reads_invalid (t' ++ h0) u = true) ->
    Z.of_nat d <= T < 2 ^ 31 ->
    exists t',
      resume_timer_run (d + n)
        (mk_machine (set_resume_timer_field (Some RESUME_DELAY) u) tb
           (t ++ h0) T) =
      resume_timer_run n
        (mk_machine (set_resume_timer_field (Some RESUME_DELAY) u) tb
           (t' ++ t ++ h0) (T - Z.of_nat d)) /\
      count_event (is_set_timer ResumeTimer) t' = d /\ forallb is_retry_event t' = true.
Proof.
  induction d as [|d IH]; intros n t T Hinv HT.
  - exists []. cbn [app Nat.add]. replace (T - Z.of_nat 0) with T by lia.
    repeat split.
  - cbn [Nat.add resume_timer_run uart resume_timer set_resume_timer_field].
    unfold resume_timer_expiry, ns16550_delayed_resume.
    rewrite ioport_invalid_spec.
    cbn [uart upd_uart trace pci delayed_resume_tries].
    change (reads_invalid (t ++ h0) _) with (reads_invalid (t ++ h0) u).
    rewrite Hinv by lia.
    change (after_read (t ++ h0) _ UART_IER)
      with (after_read (t ++ h0) u UART_IER).
    replace (nonzero T) with true
      by (symmetry; apply nonzero_true; lia).
    cbn [bind]. rewrite to_int_small by lia.
    rewrite after_read_app.
    set (r := read_event (t ++ h0) u UART_IER).
    destruct (IH n (EvSetTimer ResumeTimer RESUME_DELAY :: r ++ t) (T - 1))
      as (t' & Ht' & Hc & Hall).
    { intros t'. rewrite count_event_cons, count_event_app. unfold r.
      rewrite count_read_event by reflexivity. cbn [is_set_timer].
      intros H. apply Hinv. lia. }
    { lia. }
    exists (t' ++ EvSetTimer ResumeTimer RESUME_DELAY :: r).
    split; [|split].
    + norm_list. norm_list_in Ht'.
      replace (T - Z.of_nat (S d)) with (T - 1 - Z.of_nat d) by lia.
      rewrite <- Ht'. reflexivity.
    + rewrite count_event_app, count_event_cons. unfold r.
      rewrite count_read_event by reflexivity. cbn [is_set_timer]. lia.
    + rewrite forallb_app, Hall. cbn [forallb is_retry_event andb].
      rewrite Z.eqb_refl. unfold r, read_event.
      now destruct (reg_access u UART_IER).
Qed.

Lemma resume_timer_roundtrip (u : ns16550) (v : option Z) :
  resume_timer u = None ->
  set_resume_timer_field None (set_resume_timer_field v u) = u.
Proof. destruct u. cbn. now intros ->. Qed.

(** The last expiry of a retry phase: the port is probed once more and the
    real resume runs, either because the probe passes or because no try is
    left. *)
Lemma last_expiry (u : ns16550) (tb : Z * Z * Z -> pci_fn) (h : history)
    (T : Z) (n : nat) :
  resume_timer u = None ->
  reads_invalid h u = false \/ T = 0 ->
  resume_timer_run (S n)
    (mk_machine (set_resume_timer_field (Some RESUME_DELAY) u) tb h T) =
  _ns16550_resume
    (mk_machine u tb (after_read h u UART_IER)
       (if reads_invalid h u then -1 else T)).
Proof.
  intros Hu Hc.
  cbn [resume_timer_run uart resume_timer set_resume_timer_field].
  unfold resume_timer_expiry, ns16550_delayed_resume.
  rewrite ioport_invalid_spec.
  cbn [uart upd_uart trace pci delayed_resume_tries].
  rewrite (resume_timer_roundtrip u _ Hu).
  destruct (reads_invalid h u).
  - destruct Hc as [Hc | ->]; [discriminate|].
    cbn [nonzero Z.eqb negb set_tries uart pci trace delayed_resume_tries].
    apply real_resume_then_idle. exact Hu.
  - apply real_resume_then_idle. exact Hu.
Qed.

Lemma resume_restore_pci_trace (m : machine) :
  nonzero (bar (uart m)) = true ->
  let '(sb, sd, sf) := ps_bdf (uart m) in
  trace (resume_restore_pci m) =
    EvPciWrite16 sb sd sf PCI_COMMAND (to_u16 (cr (uart m)))
    :: EvPciWrite32 sb sd sf (PCI_BASE_ADDRESS_0 + bar_idx (uart m) * 4)
         (to_u32 (bar (uart m)))
    :: trace m.
Proof.
  intros H. unfold resume_restore_pci.
  destruct (ps_bdf (uart m)) as [[sb sd] sf]. now rewrite H.
Qed.

(** C4: when the hardware-presence check of a resume fails [R] times,
    [R] below the retry bound, and then passes, exactly [R] retries are
    scheduled (each by setting the resume timer at [RESUME_DELAY] after a
    probe, with nothing else done in between) and are followed by exactly
    one real resume, which restores the BAR and the command register of a
    bus-attached port and re-runs the pre- and the post-interrupt setup;
    when the check never passes, the real resume is run all the same, once,
    after the [RESUME_RETRIES + 1] retries the counter allows.  In both
    cases no resume timer is pending afterwards. *)
Theorem resume_retries_bounded (m : machine) :
  let u := uart m in
  let h0 := trace m in
  resume_timer u = None ->
  (forall (R n : nat),
      Z.of_nat R < RESUME_RETRIES ->
      (forall t, (count_event (is_set_timer ResumeTimer) t < R)%nat ->
                 reads_invalid (t ++ h0) u = true) ->
      (forall t, count_event (is_set_timer ResumeTimer) t = R ->
                 reads_invalid (t ++ h0) u = false) ->
      (R <= n)%nat ->
      resumes_after R n m) /\
  (forall (n : nat),
      (forall t, reads_invalid (t ++ h0) u = true) ->
      (Z.to_nat RESUME_RETRIES + 1 <= n)%nat ->
      resumes_after (Z.to_nat RESUME_RETRIES + 1) n m) /\
  (forall mR,
      _ns16550_resume mR =
        (m1 <- ns16550_setup_preirq (resume_restore_pci mR) ;;
         Done (ns16550_setup_postirq m1))) /\
  (forall mR,
      nonzero (bar (uart mR)) = true ->
      let '(sb, sd, sf) := ps_bdf (uart mR) in
      trace (resume_restore_pci mR) =
        EvPciWrite16 sb sd sf PCI_COMMAND (to_u16 (cr (uart mR)))
        :: EvPciWrite32 sb sd sf (PCI_BASE_ADDRESS_0 + bar_idx (uart mR) * 4)
             (to_u32 (bar (uart mR)))
        :: trace mR).
Proof.
  destruct m as [u tb h0 T0]. cbn [uart trace]. intros Hu.
  assert (Hidle : forall mR, uart mR = u -> forall m',
             _ns16550_resume mR = Done m' -> resume_timer (uart m') = None).
  { intros mR HR m' E. rewrite (real_resume_resume_timer _ _ E), HR.
    exact Hu. }
  split; [|split; [|split]].
  - intros R n HR Hfail Hok Hn.
    unfold resumes_after, resume_sequence, ns16550_resume.
    rewrite ioport_invalid_spec.
    cbn [uart trace pci delayed_resume_tries].
    set (r0 := read_event h0 u UART_IER).
    destruct R as [|R].
    + (* the first probe passes *)
      pose proof (Hok [] eq_refl) as H0. cbn [app] in H0. rewrite H0.
      exists r0, (mk_machine u tb (after_read h0 u UART_IER) T0).
      rewrite real_resume_then_idle by exact Hu.
      rewrite after_read_app. fold r0.
      repeat split; auto; try (apply Hidle; reflexivity);
        try (cbn [trace]; now norm_list).
      * unfold r0. now rewrite count_read_event.
      * unfold r0, read_event. now destruct (reg_access u UART_IER).
    + assert (H0 : reads_invalid h0 u = true) by (apply (Hfail []); cbn; lia).
      rewrite H0.
      cbn [bind]. unfold set_timer, set_tries, log, upd_uart.
      cbn [uart pci trace delayed_resume_tries].
      rewrite after_read_app. fold r0.
      set (t1 := EvSetTimer ResumeTimer RESUME_DELAY :: r0).
      assert (Hc1 : count_event (is_set_timer ResumeTimer) t1 = 1%nat).
      { unfold t1. rewrite count_event_cons. unfold r0.
        rewrite count_read_event by reflexivity. reflexivity. }
      assert (Hs : exists k, n = (R + S k)%nat) by (exists (n - R - 1)%nat; lia).
      destruct Hs as [k ->].
      destruct (retries_scheduled u tb h0 R (S k) t1 RESUME_RETRIES)
        as (t' & Ht' & Hc & Hall).
      { intros t Ht. apply Hfail. lia. }
      { unfold RESUME_RETRIES in *. lia. }
      change (EvSetTimer ResumeTimer RESUME_DELAY :: r0 ++ h0)
        with (t1 ++ h0).
      rewrite Ht', (app_assoc t' t1 h0).
      rewrite last_expiry; [|exact Hu|left; apply Hok].
      2:{ rewrite !count_event_app, Hc, Hc1. lia. }
      rewrite Hok by (rewrite !count_event_app, Hc, Hc1; lia).
      rewrite after_read_app.
      set (r := read_event ((t' ++ t1) ++ h0) u UART_IER).
      exists (r ++ t' ++ t1), (mk_machine u tb (r ++ (t' ++ t1) ++ h0)
                                 (RESUME_RETRIES - Z.of_nat R)).
      repeat split; auto; try (apply Hidle; reflexivity);
        try (cbn [trace]; now norm_list).
      * rewrite !count_event_app, Hc, Hc1. unfold r.
        rewrite count_read_event by reflexivity. lia.
      * rewrite !forallb_app, Hall. unfold r, t1, r0, read_event.
        cbn [forallb is_retry_event]. rewrite Z.eqb_refl.
        destruct (reg_access u UART_IER); reflexivity.
  - intros n Hfail Hn.
    unfold resumes_after, resume_sequence, ns16550_resume.
    rewrite ioport_invalid_spec.
    cbn [uart trace pci delayed_resume_tries].
    set (r0 := read_event h0 u UART_IER).
    rewrite (Hfail [] : reads_invalid h0 u = true).
    cbn [bind]. unfold set_timer, set_tries, log, upd_uart.
    cbn [uart pci trace delayed_resume_tries].
    rewrite after_read_app. fold r0.
    set (t1 := EvSetTimer ResumeTimer RESUME_DELAY :: r0).
    assert (Hc1 : count_event (is_set_timer ResumeTimer) t1 = 1%nat).
    { unfold t1. rewrite count_event_cons. unfold r0.
      rewrite count_read_event by reflexivity. reflexivity. }
    set (D := Z.to_nat RESUME_RETRIES).
    assert (Hs : exists k, n = (D + S k)%nat)
      by (exists (n - D - 1)%nat; unfold D in *; lia).
    destruct Hs as [k ->].
    destruct (retries_scheduled u tb h0 D (S k) t1 RESUME_RETRIES)
      as (t' & Ht' & Hc & Hall).
    { intros t _. apply Hfail. }
    { unfold D, RESUME_RETRIES. lia. }
    change (EvSetTimer ResumeTimer RESUME_DELAY :: r0 ++ h0) with (t1 ++ h0).
    rewrite Ht', (app_assoc t' t1 h0).
    replace (RESUME_RETRIES - Z.of_nat D) with 0
      by (unfold D, RESUME_RETRIES; lia).
    rewrite last_expiry; [|exact Hu|now right].
    rewrite Hfail, after_read_app.
    set (r := read_event ((t' ++ t1) ++ h0) u UART_IER).
    exists (r ++ t' ++ t1), (mk_machine u tb (r ++ (t' ++ t1) ++ h0) (-1)).
    repeat split; auto; try (apply Hidle; reflexivity);
        try (cbn [trace]; now norm_list).
    + rewrite !count_event_app, Hc, Hc1. unfold r.
      rewrite count_read_event by reflexivity. unfold D. lia.
    + rewrite !forallb_app, Hall. unfold r, t1, r0, read_event.
      cbn [forallb is_retry_event]. rewrite Z.eqb_refl.
      destruct (reg_access u UART_IER); reflexivity.
  - reflexivity.
  - intros mR. apply resume_restore_pci_trace.
Qed.

(** ** Identification and registration *)

Lemma ns_write_reg_spec (m : machine) (reg c : Z) :
  ns_write_reg m reg c =
    mk_machine (uart m) (pci m) (write_event (uart m) reg c ++ trace m)
      (delayed_resume_tries m).
Proof.
  unfold ns_write_reg, write_event, outb, writeb, writel, log.
  destruct m as [u t h n]; cbn [uart pci trace delayed_resume_tries].
  destruct (remapped_io_base u =? 0); [reflexivity|].
  destruct (reg_width u =? 1); [reflexivity|].
  destruct (reg_width u =? 4); reflexivity.
Qed.

Lemma to_u8_land (v k : Z) : to_u8 (Z.land v k) = Z.land (to_u8 v) k.
Proof.
  unfold to_u8. rewrite <- !Z.land_ones by lia.
  rewrite <- !Z.land_assoc. f_equal. apply Z.land_comm.
Qed.

Lemma high_nibble_check (b : Z) :
  0 <= b < 2 ^ 8 -> (Z.land b 0xF0 =? 0x90) = (Z.shiftr b 4 =? 0x9).
Proof.
  intros Hb.
  assert (H : forallb (fun n => Bool.eqb (Z.land (Z.of_nat n) 0xF0 =? 0x90)
                                         (Z.shiftr (Z.of_nat n) 4 =? 0x9))
                      (seq 0 256) = true) by (vm_compute; reflexivity).
  rewrite forallb_forall in H.
  specialize (H (Z.to_nat b)). rewrite Z2Nat.id in H by lia.
  apply Bool.eqb_prop, H, in_seq. lia.
Qed.

(** The probe as the code runs it is the probe of the specification. *)
Lemma check_existence_spec (m : machine) :
  check_existence m =
    if 0x10000 <=? io_base (uart m) then (1, m)
    else
      let m0 := pci_serial_early_init m in
      let h := trace m0 in
      let u := uart m in
      if ier_roundtrip h u then
        (if loopback_signature h u then 1 else 0,
         mk_machine u (pci m0) (after_read (probe_h4 h u) u UART_MSR)
           (delayed_resume_tries m0))
      else (0, mk_machine u (pci m0) (probe_h3 h u) (delayed_resume_tries m0)).
Proof.
  unfold check_existence.
  destruct (0x10000 <=? io_base (uart m)); [reflexivity|].
  cbv zeta.
  pose proof (uart_pci_serial_early_init m) as Hu.
  destruct (pci_serial_early_init m) as [u tb h n].
  cbn [uart pci trace delayed_resume_tries] in *. subst u.
  set (u := uart m).
  unfold ier_roundtrip, loopback_signature, probe_h4, probe_h3, probe_h2,
    probe_h1.
  rewrite ns_read_reg_spec; cbn [uart pci trace delayed_resume_tries].
  set (h0 := after_read h u UART_IER).
  rewrite ns_write_reg_spec; cbn [uart pci trace delayed_resume_tries].
  set (h1 := write_event u UART_IER 0 ++ h0).
  rewrite ns_read_reg_spec; cbn [uart pci trace delayed_resume_tries].
  set (h1' := after_read h1 u UART_IER).
  rewrite ns_write_reg_spec; cbn [uart pci trace delayed_resume_tries].
  set (h2 := write_event u UART_IER 15 ++ h1').
  rewrite ns_read_reg_spec; cbn [uart pci trace delayed_resume_tries].
  set (h2' := after_read h2 u UART_IER).
  rewrite ns_write_reg_spec; cbn [uart pci trace delayed_resume_tries].
  set (h3 := write_event u UART_IER (to_u8 (reg_value h u UART_IER)) ++ h2').
  rewrite !to_u8_land.
  destruct (Z.land (to_u8 (reg_value h1 u UART_IER)) 15 =? 0);
    destruct (Z.land (to_u8 (reg_value h2 u UART_IER)) 15 =? 15);
    cbn [negb orb andb]; try reflexivity.
  rewrite ns_write_reg_spec; cbn [uart pci trace delayed_resume_tries].
  rewrite ns_read_reg_spec; cbn [uart pci trace delayed_resume_tries].
  rewrite to_u8_land, high_nibble_check by apply to_u8_range.
  reflexivity.
Qed.

(** C6: the transmit-readiness query returns [-EIO], a negative value and
    so distinct from zero, exactly when the interrupt-enable register now
    reads as all ones (the hardware-vanished check); otherwise it returns
    [fifo_size] when the line-status register, read next, has the
    transmit-holding-register-empty bit set, and zero when it has not.
    A port that has vanished in this sense - its interrupt-enable register
    still reading all ones after zero was written to it - fails the
    identification probe as well. *)
Theorem tx_ready_result (m : machine) :
  let h := trace m in
  let u := uart m in
  fst (ns16550_tx_ready m) =
    (if reads_invalid h u then - EIO
     else if nonzero (Z.land (reg_value (after_read h u UART_IER) u UART_LSR)
                             UART_LSR_THRE)
          then fifo_size u else 0)
  /\ - EIO < 0
  /\ (io_base u < 0x10000 ->
      reads_invalid (probe_h1 (trace (pci_serial_early_init m)) u) u = true ->
      fst (check_existence m) = 0).
Proof.
  cbv zeta. split; [|split; [reflexivity|]].
  - unfold ns16550_tx_ready. rewrite ioport_invalid_spec.
    destruct (reads_invalid (trace m) (uart m)); [reflexivity|].
    rewrite ns_read_reg_spec. reflexivity.
  - intros Hio Hinv. rewrite check_existence_spec.
    replace (0x10000 <=? io_base (uart m)) with false
      by (symmetry; apply Z.leb_gt; exact Hio).
    cbv zeta. unfold ier_roundtrip.
    unfold reads_invalid in Hinv. apply Z.eqb_eq in Hinv. rewrite Hinv.
    reflexivity.
Qed.

Lemma trace_pci_conf_write32 (m : machine) (b d f reg v : Z) :
  trace (pci_conf_write32 m b d f reg v) =
    EvPciWrite32 b d f reg (to_u32 v) :: trace m.
Proof. reflexivity. Qed.

Lemma trace_pci_conf_write16 (m : machine) (b d f reg v : Z) :
  trace (pci_conf_write16 m b d f reg v) =
    EvPciWrite16 b d f reg (to_u16 v) :: trace m.
Proof. reflexivity. Qed.

Lemma registrations_cons (e : event) (h : history) :
  is_register e = false -> registrations (e :: h) = registrations h.
Proof. intros H. unfold registrations. now rewrite count_event_cons, H. Qed.

Lemma registrations_after_read (h : history) (u : ns16550) (reg : Z) :
  registrations (after_read h u reg) = registrations h.
Proof.
  unfold registrations.
  now rewrite after_read_app, count_event_app, count_read_event.
Qed.

Lemma registrations_write (h : history) (u : ns16550) (reg c : Z) :
  registrations (write_event u reg c ++ h) = registrations h.
Proof.
  unfold write_event.
  destruct (remapped_io_base u =? 0); [now apply registrations_cons|].
  destruct (reg_width u =? 1); [now apply registrations_cons|].
  destruct (reg_width u =? 4); [now apply registrations_cons|reflexivity].
Qed.

Lemma registrations_early_init (m : machine) :
  registrations (trace (pci_serial_early_init m)) = registrations (trace m).
Proof.
  unfold pci_serial_early_init.
  destruct (negb _ || _); [reflexivity|].
  destruct (pb_bdf (uart m)) as [[pb pd] pf].
  destruct (ps_bdf (uart m)) as [[sb sd] sf].
  destruct (pb_bdf_enable (uart m));
    rewrite ?trace_pci_conf_write16, ?trace_pci_conf_write32,
      ?registrations_cons by reflexivity;
    reflexivity.
Qed.

Lemma registrations_check_existence (m : machine) :
  registrations (trace (snd (check_existence m))) = registrations (trace m).
Proof.
  rewrite check_existence_spec.
  destruct (0x10000 <=? io_base (uart m)); [reflexivity|].
  cbv zeta.
  destruct (ier_roundtrip _ _); cbn [snd trace];
    unfold probe_h4, probe_h3, probe_h2, probe_h1;
    repeat first [rewrite registrations_after_read
                 | rewrite registrations_write];
    apply registrations_early_init.
Qed.

Lemma registrations_scan_functions (fs : list Z) (bar_idx b d : Z) :
  forall m,
    registrations (trace (snd (scan_functions fs bar_idx b d m))) =
    registrations (trace m).
Proof.
  induction fs as [|f rest IH]; intros m; cbn [scan_functions]; [reflexivity|].
  repeat match goal with
  | |- context [if ?c then _ else _] => destruct c
  end;
  rewrite ?IH; cbn [snd trace upd_uart];
  rewrite ?trace_pci_conf_write32, ?registrations_cons by reflexivity;
  reflexivity.
Qed.

Lemma registrations_scan_devices (ds : list Z) (bar_idx b : Z) :
  forall m,
    registrations (trace (snd (scan_devices ds bar_idx b m))) =
    registrations (trace m).
Proof.
  induction ds as [|d rest IH]; intros m; cbn [scan_devices]; [reflexivity|].
  pose proof (registrations_scan_functions (range 0 8) bar_idx b d m) as H.
  destruct (scan_functions (range 0 8) bar_idx b d m) as [hit m1].
  cbn [snd] in H. destruct hit; [exact H|]. now rewrite IH.
Qed.

Lemma registrations_scan_buses (bs : list Z) (bar_idx : Z) :
  forall m,
    registrations (trace (snd (scan_buses bs bar_idx m))) =
    registrations (trace m).
Proof.
  induction bs as [|b rest IH]; intros m; cbn [scan_buses]; [reflexivity|].
  pose proof (registrations_scan_devices (range 0 0x20) bar_idx b m) as H.
  destruct (scan_devices (range 0 0x20) bar_idx b m) as [hit m1].
  cbn [snd] in H. destruct hit; [exact H|]. now rewrite IH.
Qed.

Lemma registrations_pci_uart_config (m : machine) (skip_amt bar_idx : Z) :
  registrations (trace (snd (pci_uart_config m skip_amt bar_idx))) =
  registrations (trace m).
Proof.
  unfold pci_uart_config.
  pose proof (registrations_scan_buses
                (range (if nonzero skip_amt then 1 else 0) 0x100) bar_idx m)
    as H.
  destruct (scan_buses _ bar_idx m) as [hit m1]. cbn [snd] in H.
  destruct hit; [exact H|]. destruct (negb _); exact H.
Qed.


Lemma registrations_and_then (s : step) (k : machine -> string -> step) :
  (forall m conf, registrations (trace (step_machine (k m conf))) =
                  registrations (trace m)) ->
  registrations (trace (step_machine (and_then s k))) =
  registrations (trace (step_machine s)).
Proof. intros Hk. destruct s as [m conf|m]; cbn [and_then]; auto. Qed.

Lemma registrations_parse_io_base (idx : Z) (m : machine) (conf : string) :
  registrations (trace (step_machine (parse_io_base idx m conf))) =
  registrations (trace m).
Proof.
  unfold parse_io_base.
  destruct (field_start conf) as [go conf1].
  destruct go; [|reflexivity].
  destruct (String.prefix "pci" conf1).
  { pose proof (registrations_pci_uart_config m 1 idx) as H.
    destruct (pci_uart_config m 1 idx) as [rc m1]. cbn [snd] in H.
    now destruct (nonzero rc). }
  destruct (String.prefix "amt" conf1).
  { pose proof (registrations_pci_uart_config m 0 idx) as H.
    destruct (pci_uart_config m 0 idx) as [rc m1]. cbn [snd] in H.
    now destruct (nonzero rc). }
  now destruct (simple_strtoul conf1 0).
Qed.

Lemma registrations_parse_baud (m : machine) (conf : string) :
  registrations (trace (step_machine (parse_baud m conf))) =
  registrations (trace m).
Proof.
  unfold parse_baud. destruct (String.prefix "auto" conf); [reflexivity|].
  destruct (simple_strtoul conf 10) as [v c].
  now destruct (nonzero (to_int (to_u64 v))).
Qed.

Lemma registrations_parse_clock (m : machine) (conf : string) :
  registrations (trace (step_machine (parse_clock m conf))) =
  registrations (trace m).
Proof.
  unfold parse_clock. destruct (peek conf =? chr "/"); [|reflexivity].
  now destruct (simple_strtoul (advance 1 conf) 0).
Qed.

Lemma registrations_parse_dps (m : machine) (conf : string) :
  registrations (trace (step_machine (parse_dps m conf))) =
  registrations (trace m).
Proof.
  unfold parse_dps. destruct (field_start conf) as [[] c]; [|reflexivity].
  destruct (simple_strtoul c 10) as [v c1].
  now destruct (simple_strtoul (advance 1 c1) 10).
Qed.

Lemma registrations_parse_irq (m : machine) (conf : string) :
  registrations (trace (step_machine (parse_irq m conf))) =
  registrations (trace m).
Proof.
  unfold parse_irq. destruct (field_start conf) as [[] c]; [|reflexivity].
  now destruct (simple_strtol c 10).
Qed.

Lemma registrations_parse_port_bdf (m : machine) (conf : string) :
  registrations (trace (step_machine (parse_port_bdf m conf))) =
  registrations (trace m).
Proof.
  unfold parse_port_bdf. destruct (field_start conf) as [[] c]; [|reflexivity].
  destruct (parse_pci c) as [[c1 [[b d] f]]|]; reflexivity.
Qed.

Lemma registrations_parse_bridge_bdf (m : machine) (conf : string) :
  registrations (trace (step_machine (parse_bridge_bdf m conf))) =
  registrations (trace m).
Proof.
  unfold parse_bridge_bdf.
  destruct (field_start conf) as [[] c]; [|reflexivity].
  destruct (parse_pci c) as [[c1 [[b d] f]]|]; reflexivity.
Qed.

Lemma registrations_parse_fields (idx : Z) (m : machine) (conf : string) :
  registrations (trace (step_machine (parse_fields idx m conf))) =
  registrations (trace m).
Proof.
  unfold parse_fields. destruct conf as [|a conf'].
  { now destruct (nonzero (baud (uart m))). }
  rewrite registrations_and_then; [apply registrations_parse_baud|intros ? ?].
  rewrite registrations_and_then; [apply registrations_parse_clock|intros ? ?].
  rewrite registrations_and_then; [apply registrations_parse_dps|intros ? ?].
  rewrite registrations_and_then;
    [apply registrations_parse_io_base|intros ? ?].
  rewrite registrations_and_then; [apply registrations_parse_irq|intros ? ?].
  rewrite registrations_and_then;
    [apply registrations_parse_port_bdf|intros ? ?].
  apply registrations_parse_bridge_bdf.
Qed.

Lemma identification_ok_iff (m : machine) :
  identification_ok m <-> nonzero (fst (check_existence m)) = true.
Proof.
  unfold identification_ok. rewrite check_existence_spec.
  destruct (Z.leb_spec 0x10000 (io_base (uart m))) as [H|H].
  - cbn. tauto.
  - cbv zeta. unfold probe_passes.
    destruct (ier_roundtrip _ _); cbn [fst andb];
      [destruct (loopback_signature _ _)|]; cbn; split;
      intros; try tauto; try lia; try discriminate;
      destruct H0; try lia; discriminate.
Qed.

Lemma config_parsed_registers (idx : Z) (m : machine) :
  (validations_pass (uart m) /\ identification_ok m /\
   registrations (trace (config_parsed idx m)) = S (registrations (trace m)))
  \/
  (~ (validations_pass (uart m) /\ identification_ok m) /\
   registrations (trace (config_parsed idx m)) = registrations (trace m)).
Proof.
  rewrite identification_ok_iff. unfold validations_pass, config_parsed.
  pose proof (registrations_check_existence m) as Hc.
  destruct (check_existence m) as [present m1]. cbn [fst snd] in *.
  destruct (Z.eqb_spec (baud (uart m)) BAUD_AUTO) as [Ha|Ha];
    destruct (Z.ltb_spec (baud (uart m)) 1200);
    destruct (Z.ltb_spec 115200 (baud (uart m)));
    cbn [negb andb orb];
    try (right; split;
         [intros [(? & _) _]; unfold BAUD_AUTO in *; lia|reflexivity]);
    (destruct (Z.ltb_spec (data_bits (uart m)) 5);
     destruct (Z.ltb_spec 8 (data_bits (uart m)));
     cbn [negb andb orb];
     try (right; split; [intros [(_ & ? & _) _]; lia|reflexivity]);
     destruct (Z.ltb_spec (stop_bits (uart m)) 1);
     destruct (Z.ltb_spec 2 (stop_bits (uart m)));
     cbn [negb andb orb];
     try (right; split; [intros [(_ & _ & ? & _) _]; lia|reflexivity]);
     destruct (Z.eqb_spec (io_base (uart m)) 0);
     try (right; split; [intros [(_ & _ & _ & ?) _]; lia|reflexivity]);
     destruct (nonzero present); cbn [negb];
     [left; repeat split; auto; try lia;
      unfold log, registrations in *; cbn [trace];
      rewrite count_event_cons; cbn [is_register]; lia
     |right; split; [intros [_ ?]; discriminate|];
      unfold log; cbn [trace];
      now rewrite registrations_cons by reflexivity]).
Qed.

(** C3, as the code has it: [ns16550_parse_port_config] registers the
    descriptor if and only if the parsing of the fields reaches the sanity
    checks - it returns before them on an empty configuration with no
    preset baud rate, on a PCI scan that finds no card, and on malformed PCI
    coordinates - and the descriptor then passes every validation: the baud
    rate is the auto sentinel or lies in [1200, 115200], there are 5 to 8
    data bits and 1 or 2 stop bits, the I/O base is not zero, and the
    identification succeeds.  It registers at most once.  The probe behind
    the identification is the one of the specification: skipped, with the
    port taken as present, at or above 0x10000; otherwise the low nibble of
    the interrupt-enable register must round-trip 0x0 and 0xF, the saved
    value being written back whatever the outcome, and the modem status
    must then show the high nibble 0x9 in loopback. *)
Theorem registration_iff_validated (idx : Z) (m : machine) (conf : string) :
  let r := ns16550_parse_port_config idx m conf in
  (registrations (trace r) = S (registrations (trace m)) <->
   exists m1 rest,
     parse_fields idx m conf = Continue m1 rest /\
     validations_pass (uart m1) /\ identification_ok m1) /\
  (registrations (trace r) = S (registrations (trace m)) \/
   registrations (trace r) = registrations (trace m)) /\
  (forall m1,
      check_existence m1 =
        if 0x10000 <=? io_base (uart m1) then (1, m1)
        else
          let m0 := pci_serial_early_init m1 in
          let h := trace m0 in
          let u := uart m1 in
          if ier_roundtrip h u then
            (if loopback_signature h u then 1 else 0,
             mk_machine u (pci m0) (after_read (probe_h4 h u) u UART_MSR)
               (delayed_resume_tries m0))
          else
            (0, mk_machine u (pci m0) (probe_h3 h u)
                  (delayed_resume_tries m0))).
Proof.
  cbv zeta. unfold ns16550_parse_port_config.
  pose proof (registrations_parse_fields idx m conf) as Hp.
  split; [|split; [|apply check_existence_spec]].
  - destruct (parse_fields idx m conf) as [m1 rest|m1];
      cbn [step_machine] in Hp.
    + rewrite <- Hp.
      destruct (config_parsed_registers idx m1)
        as [(Hv & Hi & Hr)|(Hn & Hr)]; rewrite Hr; split.
      * intros _. exists m1, rest. auto.
      * reflexivity.
      * intros H. lia.
      * intros (m2 & rest2 & [= <- <-] & Hv). tauto.
    + split.
      * intros H. lia.
      * intros (m2 & rest2 & H & _). discriminate.
  - destruct (parse_fields idx m conf) as [m1 rest|m1];
      cbn [step_machine] in Hp.
    + rewrite <- Hp.
      destruct (config_parsed_registers idx m1)
        as [(Hv & Hi & Hr)|(Hn & Hr)]; rewrite Hr; auto.
    + right. exact Hp.
Qed.

(** ** The bus locator *)

Lemma range_nil (lo hi : Z) : hi <= lo -> range lo hi = [].
Proof.
  intros H. unfold range. replace (Z.to_nat (hi - lo)) with 0%nat by lia.
  reflexivity.
Qed.

Lemma range_cons (lo hi : Z) : lo < hi -> range lo hi = lo :: range (lo + 1) hi.
Proof.
  intros H. unfold range.
  replace (Z.to_nat (hi - lo)) with (S (Z.to_nat (hi - (lo + 1)))) by lia.
  cbn [seq map]. f_equal; [lia|].
  rewrite <- seq_shift, map_map. apply map_ext. intros i. lia.
Qed.

Lemma in_range (lo hi x : Z) : In x (range lo hi) <-> lo <= x < hi.
Proof.
  unfold range. rewrite in_map_iff. split.
  - intros (i & <- & Hi). apply in_seq in Hi. lia.
  - intros H. exists (Z.to_nat (x - lo)). split; [lia|]. apply in_seq. lia.
Qed.

Lemma bdf_eqb_refl (k : Z * Z * Z) : bdf_eqb k k = true.
Proof. destruct k as [[b d] f]. unfold bdf_eqb. now rewrite !Z.eqb_refl. Qed.

Lemma bdf_eqb_neq (k k' : Z * Z * Z) : k <> k' -> bdf_eqb k k' = false.
Proof.
  destruct k as [[b d] f], k' as [[b' d'] f']. intros H. unfold bdf_eqb.
  destruct (Z.eqb_spec b b'), (Z.eqb_spec d d'), (Z.eqb_spec f f');
    try reflexivity.
  subst. now elim H.
Qed.

Lemma to_u32_idem v : to_u32 (to_u32 v) = to_u32 v.
Proof. unfold to_u32. apply Z.mod_mod. lia. Qed.

(** One turn of the innermost loop, in terms of the function's own
    configuration space. *)
Lemma scan_functions_cons (f : Z) (rest : list Z) (bar_idx b d : Z)
    (mc : machine) :
  let s := pci mc (b, d, f) in
  let cont :=
    ((negb (f =? 0) || fn_multi s) && negb ((fn_class s =? 0xffff) && (f =? 0)))
    && (f + 1 <? 8) in
  exists mc',
    uart mc' = uart mc /\
    (forall k, k <> (b, d, f) -> pci mc' k = pci mc k) /\
    pci mc' (b, d, f) =
      (if fn_probed bar_idx s then fn_restored bar_idx s else s) /\
    scan_functions (f :: rest) bar_idx b d mc =
      if fn_accepts bar_idx s then
        (true,
         upd_uart (fun u =>
           set_irq (fn_irq bar_idx s)
             (set_io_base
                (Z.land (fn_target_bar bar_idx s)
                        (to_u32 (Z.lnot PCI_BASE_ADDRESS_SPACE_IO)))
                (set_bar_idx (to_u8 bar_idx)
                   (set_bar (fn_target_bar bar_idx s)
                      (set_ps_bdf (b, d, f) u))))) mc')
      else if cont then scan_functions rest bar_idx b d mc'
      else (false, mc').
Proof.
  cbv zeta. cbn [scan_functions].
  unfold fn_accepts, fn_probed, fn_irq, fn_restored, fn_sizing_read,
    fn_sized, fn_multi, fn_class, fn_target_bar, serial_class.
  unfold pci_conf_read16, pci_conf_read32, pci_conf_read8.
  set (s := pci mc (b, d, f)).
  set (cls := to_u16 (conf_read16 s PCI_CLASS_DEVICE)).
  set (hdr := to_u16 (conf_read16 s PCI_HEADER_TYPE)).
  set (barv := to_u32 (conf_read32 s (PCI_BASE_ADDRESS_0 + bar_idx * 4))).
  destruct ((cls =? 1792) || (cls =? 1794) || (cls =? 1920)) eqn:Ecls.
  - assert (Hff : (cls =? 0xffff) = false).
    { apply Z.eqb_neq. intros E. rewrite E in Ecls. discriminate. }
    rewrite Hff. cbn [andb negb].
    destruct (nonzero (Z.land barv PCI_BASE_ADDRESS_SPACE_IO)) eqn:Eio;
      cbn [negb andb].
    + set (m1 := pci_conf_write32 mc b d f PCI_BASE_ADDRESS_0 (to_u32 (Z.lnot 0))).
      set (m2 := pci_conf_write32 m1 b d f (PCI_BASE_ADDRESS_0 + bar_idx * 4) barv).
      assert (H1 : pci m1 (b, d, f) = conf_write32 s PCI_BASE_ADDRESS_0 (to_u32 (Z.lnot 0))).
      { unfold m1, pci_conf_write32. cbn [pci log set_pci]. unfold tbl_update.
        rewrite bdf_eqb_refl, to_u32_idem. reflexivity. }
      assert (H2 : pci m2 (b, d, f) =
                   conf_write32 (conf_write32 s PCI_BASE_ADDRESS_0 (to_u32 (Z.lnot 0)))
                     (PCI_BASE_ADDRESS_0 + bar_idx * 4) barv).
      { unfold m2, pci_conf_write32 at 1. cbn [pci log set_pci]. unfold tbl_update.
        rewrite bdf_eqb_refl, H1. unfold barv. rewrite to_u32_idem. reflexivity. }
      exists m2. rewrite H1, H2.
      split; [reflexivity|]. split; [|split; [reflexivity|]].
      { intros k Hk. unfold m2, m1, pci_conf_write32. cbn [pci log set_pci].
        unfold tbl_update. rewrite !(bdf_eqb_neq (b, d, f) k) by congruence.
        reflexivity. }
      destruct (Z.land _ 65535 =? 65529); cbn [negb]; [reflexivity|].
      change (nonzero f) with (negb (f =? 0)).
      destruct (negb (f =? 0) || nonzero (Z.land hdr 128)); cbn [andb];
        reflexivity.
    + exists mc. split; [reflexivity|]. split; [reflexivity|]. split; [reflexivity|].
      change (nonzero f) with (negb (f =? 0)).
      destruct (negb (f =? 0) || nonzero (Z.land hdr 128)); cbn [andb];
        reflexivity.
  - cbn [andb]. exists mc.
    split; [reflexivity|]. split; [reflexivity|]. split; [reflexivity|].
    change (nonzero f) with (negb (f =? 0)).
    destruct (cls =? 65535), (f =? 0); cbn [andb negb orb];
      try reflexivity;
      destruct (nonzero (Z.land hdr 128)); cbn [andb]; reflexivity.
Qed.

Lemma find_none_all {A} (p : A -> bool) (l : list A) :
  (forall x, In x l -> p x = false) -> find p l = None.
Proof.
  induction l as [|x l IH]; intros H; cbn [find]; [reflexivity|].
  rewrite (H x) by now left. apply IH. intros y Hy. apply H. now right.
Qed.

Lemma find_ext_in {A} (p q : A -> bool) (l : list A) :
  (forall x, In x l -> p x = q x) -> find p l = find q l.
Proof.
  induction l as [|x l IH]; intros H; cbn [find]; [reflexivity|].
  rewrite (H x) by now left. destruct (q x); [reflexivity|].
  apply IH. intros y Hy. apply H. now right.
Qed.

Lemma find_app {A} (p : A -> bool) (l1 l2 : list A) :
  find p (l1 ++ l2) =
    match find p l1 with Some x => Some x | None => find p l2 end.
Proof.
  induction l1 as [|x l IH]; cbn [app find]; [reflexivity|].
  now destruct (p x).
Qed.

Lemma left_as_same (bar_idx : Z) (s : pci_fn) : left_as bar_idx s s.
Proof. now left. Qed.

(** How a turn of the innermost loop leaves the function it looked at. *)
Lemma left_as_turn (bar_idx : Z) (s s' : pci_fn) :
  s' = (if fn_probed bar_idx s then fn_restored bar_idx s else s) ->
  left_as bar_idx s s'.
Proof.
  intros ->. unfold left_as.
  destruct (fn_probed bar_idx s); [right|left]; auto.
Qed.

(** The functions after the first of a device, all of them visited. *)
Lemma scan_rest_post (t0 : Z * Z * Z -> pci_fn) (bar_idx b d : Z) :
  forall (n : nat) (f0 : Z) (mc : machine),
    1 <= f0 -> f0 + Z.of_nat n = 8 ->
    (forall f, f0 <= f < 8 -> pci mc (b, d, f) = t0 (b, d, f)) ->
    scan_post t0 bar_idx (fun k => fn_accepts bar_idx (t0 k))
      (map (fun f => (b, d, f)) (range f0 8)) mc
      (scan_functions (range f0 8) bar_idx b d mc).
Proof.
  induction n as [|n IH]; intros f0 mc Hf0 Hn Hagree.
  - rewrite range_nil by lia. unfold scan_post. cbn.
    repeat split; auto. intros k [].
  - rewrite range_cons by lia.
    destruct (scan_functions_cons f0 (range (f0 + 1) 8) bar_idx b d mc)
      as (mc' & Hu & Hframe & Hat & Hstep).
    rewrite Hstep. clear Hstep. rewrite (Hagree f0) in * by lia.
    apply left_as_turn in Hat.
    unfold scan_post. cbn [map find].
    destruct (fn_accepts bar_idx (t0 (b, d, f0))) eqn:Eacc.
    + cbn [fst snd uart upd_uart pci]. rewrite Hu.
      split; [|split; [|auto]].
      * intros k Hk. apply Hframe. intros ->. apply Hk. now left.
      * intros k [<-|Hk]; [exact Hat|].
        left. rewrite Hframe.
        -- apply in_map_iff in Hk. destruct Hk as (f & <- & Hf).
           apply in_range in Hf. apply Hagree. lia.
        -- intros ->. apply in_map_iff in Hk.
           destruct Hk as (f & [= ->] & Hf). apply in_range in Hf. lia.
    + replace (f0 =? 0) with false by (symmetry; apply Z.eqb_neq; lia).
      rewrite andb_false_r. cbn [negb orb andb].
      destruct (Z.ltb_spec (f0 + 1) 8) as [Hlt|Hge].
      * destruct (IH (f0 + 1) mc') as (Hfr & Hleft & Hfind); [lia|lia| |].
        { intros f Hf. rewrite Hframe by (intros [= ?]; lia).
          apply Hagree. lia. }
        split; [|split].
        { intros k Hk. rewrite Hfr by (intros Hin; apply Hk; now right).
          apply Hframe. intros ->. apply Hk. now left. }
        { intros k [<-|Hk]; [|now apply Hleft].
          rewrite Hfr; [exact Hat|].
          intros Hin. apply in_map_iff in Hin.
          destruct Hin as (f & [= ->] & Hf). apply in_range in Hf. lia. }
        rewrite Hu in Hfind. exact Hfind.
      * rewrite range_nil by lia. cbn [map find fst snd].
        split; [|split; [|auto]].
        -- intros k Hk. apply Hframe. intros ->. apply Hk. now left.
        -- intros k [<-|[]]. exact Hat.
Qed.

(** One device: function 0, and the others when it is multi-function. *)
Lemma scan_device_post (t0 : Z * Z * Z -> pci_fn) (bar_idx b d : Z)
    (mc : machine) :
  (forall k, In k (map (fun f => (b, d, f)) (range 0 8)) -> pci mc k = t0 k) ->
  scan_post t0 bar_idx (candidate t0 bar_idx)
    (map (fun f => (b, d, f)) (range 0 8)) mc
    (scan_functions (range 0 8) bar_idx b d mc).
Proof.
  intros Hagree.
  assert (Hag : forall f, 0 <= f < 8 -> pci mc (b, d, f) = t0 (b, d, f)).
  { intros f Hf. apply Hagree, in_map, in_range. exact Hf. }
  rewrite (range_cons 0 8) by lia.
  destruct (scan_functions_cons 0 (range (0 + 1) 8) bar_idx b d mc)
    as (mc' & Hu & Hframe & Hat & Hstep).
  rewrite Hstep. clear Hstep. rewrite (Hag 0) in * by lia.
  apply left_as_turn in Hat.
  assert (Hrest : forall k, In k (map (fun f => (b, d, f)) (range (0 + 1) 8)) ->
                            pci mc' k = t0 k).
  { intros k Hk. apply in_map_iff in Hk. destruct Hk as (f & <- & Hf).
    apply in_range in Hf. rewrite Hframe by (intros [= ?]; lia).
    apply Hag. lia. }
  assert (Hnot0 : ~ In (b, d, 0) (map (fun f => (b, d, f)) (range (0 + 1) 8))).
  { intros Hin. apply in_map_iff in Hin. destruct Hin as (f & [= ->] & Hf).
    apply in_range in Hf. lia. }
  unfold scan_post. cbn [map find].
  unfold candidate at 1. cbn [walked]. rewrite Z.eqb_refl. cbn [orb andb negb].
  set (w := fn_multi (t0 (b, d, 0)) && negb (fn_class (t0 (b, d, 0)) =? 65535)).
  assert (Hfind : find (candidate t0 bar_idx)
                    (map (fun f => (b, d, f)) (range (0 + 1) 8)) =
                  if w then find (fun k => fn_accepts bar_idx (t0 k))
                             (map (fun f => (b, d, f)) (range (0 + 1) 8))
                  else None).
  { destruct w eqn:Ew.
    - apply find_ext_in. intros k Hk. apply in_map_iff in Hk.
      destruct Hk as (f & <- & Hf). apply in_range in Hf.
      unfold candidate. cbn [walked]. fold w. rewrite Ew.
      now rewrite orb_true_r.
    - apply find_none_all. intros k Hk. apply in_map_iff in Hk.
      destruct Hk as (f & <- & Hf). apply in_range in Hf.
      unfold candidate. cbn [walked]. fold w. rewrite Ew.
      replace (f =? 0) with false by (symmetry; apply Z.eqb_neq; lia).
      reflexivity. }
  destruct (fn_accepts bar_idx (t0 (b, d, 0))) eqn:Eacc.
  - cbn [fst snd uart upd_uart pci]. rewrite Hu.
    split; [|split; [|auto]].
    + intros k Hk. apply Hframe. intros ->. apply Hk. now left.
    + intros k [<-|Hk]; [exact Hat|]. left. now apply Hrest.
  - rewrite Hfind. rewrite andb_true_r.
    replace (fn_multi (t0 (b, d, 0))
             && negb ((fn_class (t0 (b, d, 0)) =? 65535) && true))
      with w by (unfold w; now rewrite andb_true_r).
    destruct w.
    + destruct (scan_rest_post t0 bar_idx b d 7 (0 + 1) mc')
        as (Hfr & Hleft & Hf); [lia|lia| |].
      { intros f Hf. rewrite Hframe by (intros [= ?]; lia). apply Hag. lia. }
      split; [|split].
      { intros k Hk. rewrite Hfr by (intros Hin; apply Hk; now right).
        apply Hframe. intros ->. apply Hk. now left. }
      { intros k [<-|Hk]; [|now apply Hleft].
        rewrite Hfr by exact Hnot0. exact Hat. }
      rewrite Hu in Hf. exact Hf.
    + cbn [fst snd]. split; [|split; [|auto]].
      * intros k Hk. apply Hframe. intros ->. apply Hk. now left.
      * intros k [<-|Hk]; [exact Hat|]. left. now apply Hrest.
Qed.

(** Scanning blocks one after the other, stopping at the first hit. *)
Lemma scan_post_seq {A : Type} (t0 : Z * Z * Z -> pci_fn) (bar_idx : Z)
    (pred : Z * Z * Z -> bool)
    (body : A -> machine -> bool * machine) (keys : A -> list (Z * Z * Z))
    (tag : Z * Z * Z -> A)
    (run : list A -> machine -> bool * machine) :
  (forall m, run [] m = (false, m)) ->
  (forall a l m, run (a :: l) m =
                 let (hit, m1) := body a m in
                 if hit then (true, m1) else run l m1) ->
  (forall a k, In k (keys a) -> tag k = a) ->
  (forall a mc, (forall k, In k (keys a) -> pci mc k = t0 k) ->
                scan_post t0 bar_idx pred (keys a) mc (body a mc)) ->
  forall (l : list A) (mc : machine),
    NoDup l ->
    (forall a k, In a l -> In k (keys a) -> pci mc k = t0 k) ->
    scan_post t0 bar_idx pred (flat_map keys l) mc (run l mc).
Proof.
  intros Hnil Hcons Htag Hbody.
  induction l as [|a l IH]; intros mc Hnd Hagree.
  - rewrite Hnil. unfold scan_post. cbn. repeat split; auto. intros k [].
  - rewrite Hcons. cbn [flat_map].
    destruct (Hbody a mc) as (Hfr & Hleft & Hfind).
    { intros k Hk. apply (Hagree a); [now left|exact Hk]. }
    destruct (body a mc) as [hit m1]. cbn [fst snd] in *.
    inversion Hnd as [|? ? Hnotin Hnd']; subst.
    assert (Hlater : forall a' k, In a' l -> In k (keys a') -> pci m1 k = t0 k).
    { intros a' k Ha' Hk. rewrite Hfr.
      - apply (Hagree a'); [now right|exact Hk].
      - intros Hin. apply Htag in Hin, Hk. subst. contradiction. }
    unfold scan_post. rewrite find_app.
    destruct (find pred (keys a)) as [[[b d] f]|].
    + destruct Hfind as [-> Hu]. cbn [fst snd]. split; [|split; [|auto]].
      * intros k Hk. apply Hfr. intros Hin. apply Hk, in_or_app. now left.
      * intros k Hk. apply in_app_or in Hk. destruct Hk as [Hk|Hk];
          [now apply Hleft|].
        left. apply in_flat_map in Hk. destruct Hk as (a' & Ha' & Hk).
        now apply (Hlater a').
    + destruct Hfind as [-> Hu].
      destruct (IH m1 Hnd' Hlater) as (Hfr' & Hleft' & Hfind').
      split; [|split].
      * intros k Hk. rewrite Hfr'.
        -- apply Hfr. intros Hin. apply Hk, in_or_app. now left.
        -- intros Hin. apply Hk, in_or_app. now right.
      * intros k Hk. apply in_app_or in Hk. destruct Hk as [Hk|Hk];
          [|now apply Hleft'].
        rewrite Hfr'; [now apply Hleft|].
        intros Hin. apply in_flat_map in Hin. destruct Hin as (a' & Ha' & Hk').
        apply Htag in Hk, Hk'. subst. contradiction.
      * rewrite Hu in Hfind'. exact Hfind'.
Qed.

Lemma NoDup_range (lo hi : Z) : NoDup (range lo hi).
Proof.
  unfold range. apply Injective_map_NoDup; [|apply seq_NoDup].
  intros x y H. lia.
Qed.

Lemma scan_devices_post (t0 : Z * Z * Z -> pci_fn) (bar_idx b : Z)
    (mc : machine) :
  (forall k, In k (flat_map (fun d => map (fun f => (b, d, f)) (range 0 8))
                     (range 0 0x20)) -> pci mc k = t0 k) ->
  scan_post t0 bar_idx (candidate t0 bar_idx)
    (flat_map (fun d => map (fun f => (b, d, f)) (range 0 8)) (range 0 0x20))
    mc (scan_devices (range 0 0x20) bar_idx b mc).
Proof.
  intros Hagree.
  apply (scan_post_seq t0 bar_idx (candidate t0 bar_idx)
           (fun d m => scan_functions (range 0 8) bar_idx b d m)
           (fun d => map (fun f => (b, d, f)) (range 0 8))
           (fun k => snd (fst k))
           (fun l m => scan_devices l bar_idx b m)).
  - reflexivity.
  - reflexivity.
  - intros d k Hk. apply in_map_iff in Hk. now destruct Hk as (f & <- & _).
  - intros d m. apply scan_device_post.
  - apply NoDup_range.
  - intros d k Hd Hk. apply Hagree. apply in_flat_map. eauto.
Qed.

Lemma scan_buses_post (t0 : Z * Z * Z -> pci_fn) (bar_idx : Z)
    (bs : list Z) (mc : machine) :
  NoDup bs ->
  (forall k, pci mc k = t0 k) ->
  scan_post t0 bar_idx (candidate t0 bar_idx)
    (flat_map (fun b =>
       flat_map (fun d => map (fun f => (b, d, f)) (range 0 8)) (range 0 0x20))
       bs)
    mc (scan_buses bs bar_idx mc).
Proof.
  intros Hnd Hagree.
  apply (scan_post_seq t0 bar_idx (candidate t0 bar_idx)
           (fun b m => scan_devices (range 0 0x20) bar_idx b m)
           (fun b => flat_map (fun d => map (fun f => (b, d, f)) (range 0 8))
                       (range 0 0x20))
           (fun k => fst (fst k))
           (fun l m => scan_buses l bar_idx m)).
  - reflexivity.
  - reflexivity.
  - intros b k Hk. apply in_flat_map in Hk. destruct Hk as (d & _ & Hk).
    apply in_map_iff in Hk. now destruct Hk as (f & <- & _).
  - intros b m Hm. now apply scan_devices_post.
  - exact Hnd.
  - intros b k _ _. apply Hagree.
Qed.

Lemma bdf_eq_dec (x y : Z * Z * Z) : {x = y} + {x <> y}.
Proof. repeat decide equality. Qed.

(** Whatever the outcome of the scan, every function is left as it was or,
    if it was probed, as the sizing write to the primary BAR and the
    write-back to the target BAR left it. *)
Lemma scan_leaves_config_space (m : machine) (skip_amt idx : Z)
    (k : Z * Z * Z) :
  left_as idx (pci m k) (pci (snd (pci_uart_config m skip_amt idx)) k).
Proof.
  unfold pci_uart_config.
  destruct (scan_buses_post (pci m) idx
              (range (if nonzero skip_amt then 1 else 0) 0x100) m)
    as (Hfr & Hleft & _); [apply NoDup_range|reflexivity|].
  destruct (scan_buses _ idx m) as [hit m1]. cbn [fst snd] in *.
  assert (H : left_as idx (pci m k) (pci m1 k)).
  { match type of Hleft with
    | forall k, In k ?ks -> _ => destruct (in_dec bdf_eq_dec k ks) as [Hin|Hin]
    end.
    - now apply Hleft.
    - rewrite Hfr by exact Hin. apply left_as_same. }
  destruct hit; [exact H|]. destruct (negb _); exact H.
Qed.

Lemma ascending_scan_order (skip_amt : Z) :
  ascending (scan_order skip_amt) = true.
Proof.
  unfold scan_order. destruct (nonzero skip_amt); vm_compute; reflexivity.
Qed.

(** C7: for every bus table, skip-first-bus flag and target BAR index, the
    bus locator selects exactly the first function, in ascending (bus,
    device, function) order starting at bus 1 when the flag is set, that it
    visits (function 0 always, functions 1 to 7 only under a multi-function
    header) and accepts (serial class 0x0700, 0x0702 or 0x0780, target BAR
    in I/O space, sizing read - what the primary BAR reads back once all
    ones were written to it - encoding an 8-byte region); it then returns
    0 having recorded the location, the BAR value and index, the I/O base,
    and as irq the interrupt line of the function if it declares an
    interrupt pin, else 0.  Without such a function it returns 0 with the
    legacy defaults when the flag is set and -1 with the descriptor
    untouched when it is not. *)
Theorem bus_locator_first_match (m : machine) (skip_amt idx : Z) :
  0 <= idx < 6 ->
  let r := pci_uart_config m skip_amt idx in
  let u' := uart (snd r) in
  match first_match (pci m) skip_amt idx with
  | Some (b, d, f) =>
      let s := pci m (b, d, f) in
      fst r = 0 /\
      ps_bdf u' = (b, d, f) /\
      bar u' = fn_target_bar idx s /\
      bar_idx u' = idx /\
      io_base u' = Z.land (fn_target_bar idx s)
                          (to_u32 (Z.lnot PCI_BASE_ADDRESS_SPACE_IO)) /\
      irq u' = fn_irq idx s
  | None =>
      if nonzero skip_amt
      then fst r = 0 /\
           u' = set_clock_hz UART_CLOCK_HZ
                  (set_irq 0 (set_io_base 0x3f8 (uart m)))
      else fst r = -1 /\ u' = uart m
  end /\
  ascending (scan_order skip_amt) = true /\
  (forall b d f, walked (pci m) (b, d, f) = true -> f <> 0 ->
                 fn_multi (pci m (b, d, 0)) = true).
Proof.
  intros Hidx. cbv zeta. split; [|split].
  - unfold pci_uart_config, first_match, scan_order.
    destruct (scan_buses_post (pci m) idx
                (range (if nonzero skip_amt then 1 else 0) 0x100) m)
      as (_ & _ & Hfind); [apply NoDup_range|reflexivity|].
    destruct (scan_buses _ idx m) as [hit m1]. cbn [fst snd] in Hfind.
    destruct (find (candidate (pci m) idx) _) as [[[b d] f]|].
    + destruct Hfind as [-> Hu]. cbn [fst snd]. rewrite Hu. cbn.
      repeat split. unfold to_u8. apply Z.mod_small. lia.
    + destruct Hfind as [-> Hu].
      destruct (nonzero skip_amt); cbn [negb fst snd uart upd_uart];
        rewrite Hu; auto.
  - apply ascending_scan_order.
  - intros b d f Hw Hf. cbn [walked] in Hw.
    apply Z.eqb_neq in Hf. rewrite Hf in Hw. cbn [orb] in Hw.
    now apply andb_true_iff in Hw.
Qed.

End Facts.

(** * Runs on the simulated platform *)

Section Runs.

Import Sim.

(** ** What the simulated ports answer *)

Lemma low_nibble_not_all_ones (x : Z) :
  (to_u8 (to_char (to_u8 (Z.land x 0x0f))) =? 0xff) = false.
Proof.
  rewrite to_u8_to_char. apply Z.eqb_neq.
  change 0x0f with (Z.ones 4). rewrite Z.land_ones by lia.
  unfold to_u8. change (2 ^ 4) with 16. change (2 ^ 8) with 256.
  pose proof (Z.mod_pos_bound x 16 eq_refl) as H.
  rewrite !(Z.mod_small (x mod 16) 256) by lia. lia.
Qed.

Lemma uart16550_ier_valid (h : history) :
  @reads_invalid (platform (uart16550 0x3f8)) h com1_descriptor = false.
Proof.
  unfold reads_invalid, reg_value, reg_access, bus_value.
  cbn [remapped_io_base io_base com1_descriptor Z.eqb bus_read platform].
  unfold uart16550.
  change (0x3f8 + UART_IER - 0x3f8 =? UART_IER) with true. cbv iota.
  destruct (last_outb (0x3f8 + UART_IER) h);
    [apply low_nibble_not_all_ones|reflexivity].
Qed.

Lemma vanishing_lsr_ready (t : history) :
  nonzero (Z.land (@reg_value (platform (vanishing_uart 0x3f8 2)) t
                     com1_descriptor UART_LSR) UART_LSR_DR) = true.
Proof.
  unfold reg_value, reg_access, bus_value.
  cbn [remapped_io_base io_base com1_descriptor Z.eqb bus_read platform].
  unfold vanishing_uart.
  destruct (count_event is_rx t <? 2)%nat; reflexivity.
Qed.

Lemma vanishing_ier (t : history) :
  @reads_invalid (platform (vanishing_uart 0x3f8 2)) t com1_descriptor =
  negb (count_event is_rx t <? 2)%nat.
Proof.
  unfold reads_invalid, reg_value, reg_access, bus_value.
  cbn [remapped_io_base io_base com1_descriptor Z.eqb bus_read platform].
  unfold vanishing_uart.
  destruct (count_event is_rx t <? 2)%nat; [|reflexivity].
  change (0x3f8 + UART_IER - 0x3f8 =? UART_LSR) with false. cbv iota.
  apply (uart16550_ier_valid t).
Qed.

Lemma late_ier (t : history) :
  @reads_invalid (platform (late_uart 0x3f8 2)) t com1_descriptor =
  (count_event (is_set_timer ResumeTimer) t <? 2)%nat.
Proof.
  unfold reads_invalid, reg_value, reg_access, bus_value.
  cbn [remapped_io_base io_base com1_descriptor Z.eqb bus_read platform].
  unfold late_uart.
  destruct (count_event (is_set_timer ResumeTimer) t <? 2)%nat;
    [reflexivity|].
  apply (uart16550_ier_valid t).
Qed.

(** ** The theorems at concrete inputs *)

Lemma bad_width_never_reaches_bus_witness :
  remapped_io_base (uart odd_width) <> 0 /\
  reg_width (uart odd_width) <> 1 /\
  reg_width (uart odd_width) <> 4 /\
  ns16550_ioport_invalid odd_width = (true, odd_width) /\
  ns16550_tx_ready odd_width = (- EIO, odd_width) /\
  ns16550_getc odd_width = (0, None, odd_width).
Proof.
  assert (H0 : remapped_io_base (uart odd_width) <> 0) by discriminate.
  assert (H1 : reg_width (uart odd_width) <> 1) by discriminate.
  assert (H4 : reg_width (uart odd_width) <> 4) by discriminate.
  destruct (bad_width_never_reaches_bus odd_width H0 H1 H4)
    as (_ & _ & Hi & Ht & _ & Hg).
  exact (conj H0 (conj H1 (conj H4 (conj Hi (conj Ht Hg))))).
Defined.

Lemma tx_ready_result_witness :
  io_base (uart pc_gone) < 0x10000 /\
  @reads_invalid (platform floating_bus)
    (@probe_h1 (platform floating_bus)
       (trace (pci_serial_early_init pc_gone)) (uart pc_gone))
    (uart pc_gone) = true /\
  fst (ns16550_tx_ready pc_gone) = - EIO /\
  fst (check_existence pc_gone) = 0.
Proof.
  assert (Hio : io_base (uart pc_gone) < 0x10000) by reflexivity.
  assert (Hinv : @reads_invalid (platform floating_bus)
                   (@probe_h1 (platform floating_bus)
                      (trace (pci_serial_early_init pc_gone)) (uart pc_gone))
                   (uart pc_gone) = true) by reflexivity.
  destruct (tx_ready_result pc_gone) as (H1 & _ & H3).
  exact (conj Hio (conj Hinv (conj H1 (H3 Hio Hinv)))).
Defined.

Lemma init_postirq_timeout_witness :
  5 <= data_bits (uart pc) <= 8 /\
  1 <= stop_bits (uart pc) <= 2 /\
  (fifo_size (uart pc) = 1 \/ fifo_size (uart pc) = 16) /\
  0 < baud (uart pc) /\
  0 <= irq (uart pc) /\
  exists m', ns16550_init_postirq pc = Done m' /\ timeout_ms (uart m') = 1.
Proof.
  assert (Hd : 5 <= data_bits (uart pc) <= 8) by (cbn; lia).
  assert (Hs : 1 <= stop_bits (uart pc) <= 2) by (cbn; lia).
  assert (Hf : fifo_size (uart pc) = 1 \/ fifo_size (uart pc) = 16)
    by (right; reflexivity).
  assert (Hb : 0 < baud (uart pc)) by reflexivity.
  assert (Hi : 0 <= irq (uart pc)) by discriminate.
  destruct (init_postirq_timeout pc Hd Hs Hf Hb Hi) as (m' & E & T).
  refine (conj Hd (conj Hs (conj Hf (conj Hb (conj Hi _))))).
  exists m'. split; [exact E|exact T].
Defined.

Lemma parse_parity_char_unknown_witness :
  chr "x" <> chr "n" /\ chr "x" <> chr "o" /\ chr "x" <> chr "e" /\
  chr "x" <> chr "m" /\ chr "x" <> chr "s" /\
  parse_parity_char (chr "x") = parse_parity_char (chr "n") /\
  exists m' rest,
    parse_dps pc ",8x1" = Continue m' rest /\
    parity (uart m') = UART_PARITY_NONE.
Proof.
  assert (Hn : chr "x" <> chr "n") by discriminate.
  assert (Ho : chr "x" <> chr "o") by discriminate.
  assert (He : chr "x" <> chr "e") by discriminate.
  assert (Hm : chr "x" <> chr "m") by discriminate.
  assert (Hs : chr "x" <> chr "s") by discriminate.
  destruct (@parse_parity_char_unknown (platform (uart16550 0x3f8))
              (chr "x") Hn Ho He Hm Hs)
    as (H1 & _ & H3).
  refine (conj Hn (conj Ho (conj He (conj Hm (conj Hs (conj H1 _)))))).
  apply H3; reflexivity.
Defined.

Lemma intr_works_latch_witness :
  intr_works (uart pc_latched) = true /\
  (forall fuel, ns16550_poll fuel pc_latched = Done pc_latched).
Proof.
  split; [reflexivity|].
  exact (proj1 (intr_works_latch pc_latched eq_refl)).
Defined.

Lemma poll_delivers_and_rearms_witness :
  intr_works (uart pc_vanishing) = false /\
  exists t,
    __ns16550_poll 3 pc_vanishing =
      Done (mk_machine
              (set_timer_field (Some (timeout_ms (uart pc_vanishing)))
                 (uart pc_vanishing))
              (pci pc_vanishing)
              (EvSetTimer PollTimer (timeout_ms (uart pc_vanishing))
               :: t ++ trace pc_vanishing)
              (delayed_resume_tries pc_vanishing)) /\
    count_event is_rx t = 2%nat /\
    count_event is_tx t = 0%nat /\
    count_event is_rearm t = 0%nat.
Proof.
  split; [reflexivity|].
  destruct (proj1 (poll_delivers_and_rearms pc_vanishing eq_refl) 2%nat 3%nat)
    as (t & E & Hrx & Htx & Htm & _).
  - intros t _. cbn [trace pc_vanishing uart]. apply vanishing_lsr_ready.
  - intros t Ht. cbn [trace pc_vanishing uart].
    rewrite vanishing_ier, app_nil_r.
    apply Nat.ltb_lt in Ht. now rewrite Ht.
  - intros t Ht. cbn [trace pc_vanishing uart].
    rewrite vanishing_ier, app_nil_r, Ht. reflexivity.
  - lia.
  - exists t. repeat split; assumption.
Defined.

Lemma resume_retries_bounded_witness :
  resume_timer (uart pc_late) = None /\
  resumes_after 2 5 pc_late /\
  resumes_after (Z.to_nat RESUME_RETRIES + 1) 200 pc_gone.
Proof.
  split; [reflexivity|]. split.
  - apply (proj1 (resume_retries_bounded pc_late eq_refl)).
    + reflexivity.
    + intros t Ht. cbn [trace pc_late uart].
      rewrite late_ier, app_nil_r. now apply Nat.ltb_lt.
    + intros t Ht. cbn [trace pc_late uart].
      rewrite late_ier, app_nil_r, Ht. reflexivity.
    + lia.
  - apply (proj1 (proj2 (resume_retries_bounded pc_gone eq_refl))).
    + intros t. reflexivity.
    + cbn. lia.
Defined.

Lemma bus_locator_first_match_witness :
  0 <= 0 < 6 /\
  let r := pci_uart_config (pc_with (plug (1, 2, 0) serial_card empty_bus)) 1 0 in
  fst r = 0 /\
  ps_bdf (uart (snd r)) = (1, 2, 0) /\
  bar (uart (snd r)) = 0xe001 /\
  io_base (uart (snd r)) = 0xe000 /\
  irq (uart (snd r)) = 11.
Proof.
  assert (H : 0 <= 0 < 6) by lia.
  split; [exact H|].
  pose proof (bus_locator_first_match
                (pc_with (plug (1, 2, 0) serial_card empty_bus)) 1 0 H) as T.
  cbv zeta in T.
  assert (E : first_match (pci (pc_with (plug (1, 2, 0) serial_card empty_bus)))
                1 0 = Some (1, 2, 0)) by (vm_compute; reflexivity).
  rewrite E in T. destruct T as ((T0 & T1 & T2 & _ & T3 & T4) & _).
  cbv zeta.
  refine (conj T0 (conj T1 (conj (eq_trans T2 _)
            (conj (eq_trans T3 _) (eq_trans T4 _)))));
    vm_compute; reflexivity.
Defined.

(** ** Where the code departs from the specification *)

(** Against C1 as stated: on a PC whose port answers, a suspend and resume
    after [intr_works] was set leave it cleared, and the next poll reads
    registers again. *)
Lemma intr_works_cleared_by_resume :
  intr_works (uart pc_latched) = true /\
  match run_entries 1 [suspend; resume] pc_latched with
  | Done m' =>
      intr_works (uart m') = false /\
      match ns16550_poll 1 m' with
      | Done m'' =>
          (count_event is_read (trace m')
           < count_event is_read (trace m''))%nat
      | _ => False
      end
  | _ => False
  end.
Proof.
  split; [reflexivity|].
  vm_compute. split; [reflexivity|]. repeat constructor.
Qed.

(** Against C3 as stated: with "115200,8n1,amt" and no serial card on the
    buses, the descriptor passes every validation and the port identifies
    itself, yet nothing is registered: the failed scan returns first. *)
Lemma valid_descriptor_left_unregistered :
  let r := ns16550_init 0 com1_defaults false "115200,8n1,amt"
             (boot (uart16550 0x3f8) empty_bus) in
  registrations (trace r) = 0%nat /\
  validations_pass (uart r) /\
  identification_ok r.
Proof.
  cbv zeta.
  set (r := ns16550_init 0 com1_defaults false "115200,8n1,amt"
              (boot (uart16550 0x3f8) empty_bus)).
  assert (E : uart r = set_fifo_size 1 com1_descriptor)
    by (vm_compute; reflexivity).
  split; [vm_compute; reflexivity|]. split.
  - unfold validations_pass. rewrite E. cbn.
    repeat split; try lia; discriminate.
  - right. vm_compute. reflexivity.
Qed.

(** C2 fails on the code: asked for BAR 1, the scan probes a function
    whose primary BAR decodes 16 bytes, rejects it, and leaves the primary
    BAR holding the sizing pattern 0xfff1 instead of its value 0xd001; the
    write-back went to BAR 1.  Asked for BAR 0, it restores the register. *)
Lemma sizing_write_left_in_primary_bar :
  let m := pc_with (plug (0, 3, 0) two_bar_card empty_bus) in
  pci_conf_read32 m 0 3 0 PCI_BASE_ADDRESS_0 = 0xd001 /\
  fst (pci_uart_config m 0 1) = -1 /\
  pci_conf_read32 (snd (pci_uart_config m 0 1)) 0 3 0 PCI_BASE_ADDRESS_0
    = 0xfff1 /\
  fst (pci_uart_config m 0 0) = -1 /\
  pci_conf_read32 (snd (pci_uart_config m 0 0)) 0 3 0 PCI_BASE_ADDRESS_0
    = 0xd001.
Proof.
  cbv zeta.
  repeat match goal with |- _ /\ _ => split end; vm_compute; reflexivity.
Qed.

(** ** Further runs *)

(** "115200,8x1" is parsed as "115200,8n1": registered, no parity. *)
Example parse_8x1 :
  let r := ns16550_init 0 com1_defaults false "115200,8x1"
             (boot (uart16550 0x3f8) empty_bus) in
  registrations (trace r) = 1%nat /\
  parity (uart r) = UART_PARITY_NONE /\
  uart r = uart (ns16550_init 0 com1_defaults false "115200,8n1"
                   (boot (uart16550 0x3f8) empty_bus)).
Proof.
  cbv zeta.
  repeat match goal with |- _ /\ _ => split end; vm_compute; reflexivity.
Qed.

(** "auto,8n1,0x3f8,4": automatic baud rate, port 0x3f8, interrupt 4. *)
Example parse_auto :
  let r := ns16550_init 0 com1_defaults false "auto,8n1,0x3f8,4"
             (boot (uart16550 0x3f8) empty_bus) in
  baud (uart r) = BAUD_AUTO /\ io_base (uart r) = 0x3f8 /\ irq (uart r) = 4.
Proof.
  cbv zeta.
  repeat match goal with |- _ /\ _ => split end; vm_compute; reflexivity.
Qed.

End Runs.

(** * Further properties of the driver *)

Section DriverFacts.

Context {P : Platform}.

Lemma grows_refl (ok : event -> bool) (h : history) : grows ok h h.
Proof. exists []. split; reflexivity. Qed.

Lemma grows_trans (ok : event -> bool) (h1 h2 h3 : history) :
  grows ok h1 h2 -> grows ok h2 h3 -> grows ok h1 h3.
Proof.
  intros (t & -> & Ht) (t' & -> & Ht'). exists (t' ++ t).
  rewrite app_assoc, forallb_app, Ht, Ht'. auto.
Qed.

Lemma grows_cons (ok : event -> bool) (e : event) (h h' : history) :
  ok e = true -> grows ok h h' -> grows ok h (e :: h').
Proof.
  intros He (t & -> & Ht). exists (e :: t). cbn [forallb app].
  now rewrite He, Ht.
Qed.

Lemma grows_app (ok : event -> bool) (a h h' : history) :
  forallb ok a = true -> grows ok h h' -> grows ok h (a ++ h').
Proof.
  intros Ha (t & -> & Ht). exists (a ++ t).
  now rewrite app_assoc, forallb_app, Ha, Ht.
Qed.

Ltac norm_app :=
  repeat first [rewrite <- app_assoc | rewrite <- app_comm_cons].

Lemma read_split (m : machine) (reg : Z) :
  ns_read_reg m reg =
    (reg_value (trace m) (uart m) reg, snd (ns_read_reg m reg)).
Proof. now rewrite ns_read_reg_spec. Qed.



Lemma trace_read (m : machine) (reg : Z) :
  trace (snd (ns_read_reg m reg)) =
    read_event (trace m) (uart m) reg ++ trace m.
Proof. rewrite ns_read_reg_spec. cbn [snd trace]. apply after_read_app. Qed.

Lemma trace_write (m : machine) (reg c : Z) :
  trace (ns_write_reg m reg c) = write_event (uart m) reg c ++ trace m.
Proof. now rewrite ns_write_reg_spec. Qed.

(** ** Port accesses stay within the eight ports of the descriptor *)



































(** ** The interrupt handler *)

Lemma count_one_read (h : history) (u : ns16550) (reg : Z) (a : access) :
  reg_access u reg = Some a ->
  count_event is_read (read_event h u reg) = 1%nat /\
  count_event is_rx (read_event h u reg) = 0%nat /\
  count_event is_tx (read_event h u reg) = 0%nat.
Proof. intros H. unfold read_event. rewrite H. repeat split. Qed.

Lemma read_only_read_event (h : history) (u : ns16550) (reg : Z) :
  forallb is_read_or_upcall (read_event h u reg) = true.
Proof. unfold read_event. now destruct (reg_access u reg). Qed.

(** A register that reads with bit 0 clear is a register on the bus, and
    then so is every other register of the descriptor. *)
Lemma pending_on_bus (h : history) (u : ns16550) (reg reg' : Z)  :
  nonzero (Z.land (reg_value h u reg) UART_IIR_NOINT) = false ->
  exists a, reg_access u reg' = Some a.
Proof.
  unfold reg_value, reg_access.
  destruct (remapped_io_base u =? 0); [eauto|].
  destruct (reg_width u =? 1); [eauto|].
  destruct (reg_width u =? 4); [eauto|]. discriminate.
Qed.

Lemma interrupt_loop_trace (fuel : nat) :
  forall m m',
    interrupt_loop fuel m = Done m' ->
    pci m' = pci m /\
    delayed_resume_tries m' = delayed_resume_tries m /\
    exists t,
      trace m' = t ++ trace m /\
      forallb is_read_or_upcall t = true /\
      (count_event is_rx t + count_event is_tx t
       <= count_event is_read t)%nat.
Proof.
  induction fuel as [|k IH]; intros m m'; cbn [interrupt_loop];
    [discriminate|].
  rewrite ns_read_reg_spec.
  destruct (nonzero (Z.land _ UART_IIR_NOINT)) eqn:Hno.
  - intros [= <-]. cbn [pci delayed_resume_tries trace].
    rewrite after_read_app. repeat split.
    exists (read_event (trace m) (uart m) UART_IIR).
    repeat split; [apply read_only_read_event|].
    rewrite !count_read_event by reflexivity. lia.
  - rewrite ns_read_reg_spec. cbn [uart trace pci delayed_resume_tries].
    rewrite !after_read_app.
    set (r1 := read_event (trace m) (uart m) UART_IIR).
    set (r2 := read_event (r1 ++ trace m) (uart m) UART_LSR).
    destruct (pending_on_bus _ _ _ UART_IIR Hno) as [a1 Ha1].
    destruct (pending_on_bus _ _ _ UART_LSR Hno) as [a2 Ha2].
    destruct (count_one_read (trace m) _ _ _ Ha1) as (C1 & C1r & C1t).
    destruct (count_one_read (r1 ++ trace m) _ _ _ Ha2) as (C2 & C2r & C2t).
    fold r1 in C1, C1r, C1t. fold r2 in C2, C2r, C2t.
    pose proof (read_only_read_event (trace m) (uart m) UART_IIR) as F1.
    pose proof (read_only_read_event (r1 ++ trace m) (uart m) UART_LSR) as F2.
    fold r1 in F1. fold r2 in F2. clearbody r1 r2.
    intros E. apply IH in E. destruct E as (Hp & Hn & t & Ht & Hall & Hc).
    unfold serial_tx_interrupt, serial_rx_interrupt in *.
    destruct (nonzero (Z.land _ UART_LSR_THRE));
      destruct (nonzero (Z.land _ UART_LSR_DR));
      cbn [log pci trace delayed_resume_tries] in *;
      (split; [exact Hp|split; [exact Hn|]]).
    + exists (t ++ EvRxInterrupt :: EvTxInterrupt :: r2 ++ r1).
      rewrite Ht. split; [now norm_app|].
      rewrite forallb_app, Hall. cbn [forallb is_read_or_upcall is_read is_rx
        is_tx orb andb]. rewrite forallb_app, F1, F2.
      split; [reflexivity|].
      rewrite !count_event_app, !count_event_cons, !count_event_app.
      cbn [is_rx is_tx is_read]. lia.
    + exists (t ++ EvTxInterrupt :: r2 ++ r1).
      rewrite Ht. split; [now norm_app|].
      rewrite forallb_app, Hall. cbn [forallb is_read_or_upcall is_read is_rx
        is_tx orb andb]. rewrite forallb_app, F1, F2.
      split; [reflexivity|].
      rewrite !count_event_app, !count_event_cons, !count_event_app.
      cbn [is_rx is_tx is_read]. lia.
    + exists (t ++ EvRxInterrupt :: r2 ++ r1).
      rewrite Ht. split; [now norm_app|].
      rewrite forallb_app, Hall. cbn [forallb is_read_or_upcall is_read is_rx
        is_tx orb andb]. rewrite forallb_app, F1, F2.
      split; [reflexivity|].
      rewrite !count_event_app, !count_event_cons, !count_event_app.
      cbn [is_rx is_tx is_read]. lia.
    + exists (t ++ r2 ++ r1).
      rewrite Ht. split; [now norm_app|].
      rewrite forallb_app, Hall. rewrite forallb_app, F1, F2.
      split; [reflexivity|].
      rewrite !count_event_app. lia.
Qed.

(** X2: the interrupt handler only reads registers and makes upcalls: it
    writes nothing to the port, touches no timer and no PCI register, and
    changes nothing in the descriptor but [intr_works]; it makes at most as
    many upcalls as register reads.  Called while the port reports no
    interrupt pending, it returns after that one read, with [intr_works]
    set all the same. *)
Theorem interrupt_only_reads (m : machine) :
  (forall fuel m',
     ns16550_interrupt fuel m = Done m' ->
     uart m' = set_intr_works true (uart m) /\
     pci m' = pci m /\
     delayed_resume_tries m' = delayed_resume_tries m /\
     exists t,
       trace m' = t ++ trace m /\
       forallb is_read_or_upcall t = true /\
       (count_event is_rx t + count_event is_tx t
        <= count_event is_read t)%nat) /\
  (nonzero (Z.land (reg_value (trace m) (uart m) UART_IIR) UART_IIR_NOINT)
     = true ->
   forall fuel,
     ns16550_interrupt (S fuel) m =
       Done (mk_machine (set_intr_works true (uart m)) (pci m)
               (read_event (trace m) (uart m) UART_IIR ++ trace m)
               (delayed_resume_tries m))).
Proof.
  split.
  - intros fuel m' E. unfold ns16550_interrupt in E.
    pose proof (interrupt_loop_uart _ _ _ E) as Hu.
    apply interrupt_loop_trace in E. destruct E as (Hp & Hn & Ht).
    repeat split; assumption.
  - intros Hno fuel. unfold ns16550_interrupt. cbn [interrupt_loop].
    rewrite ns_read_reg_spec. cbn [uart upd_uart trace pci delayed_resume_tries].
    replace (reg_value (trace m) (set_intr_works true (uart m)) UART_IIR)
      with (reg_value (trace m) (uart m) UART_IIR) by reflexivity.
    rewrite Hno, after_read_app. reflexivity.
Qed.


(** ** Reading a character *)

(** X3: [getc] only reads registers, at most three of them, and changes
    nothing else.  It returns 1 with the character read from the receive
    buffer exactly when the interrupt-enable register does not read as all
    ones and the line status then reports data; otherwise it returns 0,
    stores no character and has not read the receive buffer: after one
    read on a vanished port, after two when no data is ready. *)
Theorem getc_only_reads (m : machine) :
  let h := trace m in
  let u := uart m in
  let r1 := read_event h u UART_IER in
  let r2 := read_event (r1 ++ h) u UART_LSR in
  let r3 := read_event (r2 ++ r1 ++ h) u UART_RBR in
  let ready := nonzero (Z.land (reg_value (r1 ++ h) u UART_LSR) UART_LSR_DR) in
  let '(rc, c, m') := ns16550_getc m in
  uart m' = u /\ pci m' = pci m /\
  delayed_resume_tries m' = delayed_resume_tries m /\
  (exists t, trace m' = t ++ h /\ forallb is_read t = true
             /\ (List.length t <= 3)%nat) /\
  (if reads_invalid h u then rc = 0 /\ c = None /\ trace m' = r1 ++ h
   else if ready
        then rc = 1 /\ c = Some (reg_value (r2 ++ r1 ++ h) u UART_RBR)
             /\ trace m' = r3 ++ r2 ++ r1 ++ h
        else rc = 0 /\ c = None /\ trace m' = r2 ++ r1 ++ h).
Proof.
  cbv zeta. unfold ns16550_getc. rewrite ioport_invalid_spec.
  assert (L : forall h u reg,
             forallb is_read (read_event h u reg) = true /\
             (List.length (read_event h u reg) <= 1)%nat).
  { intros h u reg. unfold read_event.
    destruct (reg_access u reg); cbn; split; auto; lia. }
  destruct (reads_invalid (trace m) (uart m)).
  - cbn [uart pci trace delayed_resume_tries]. rewrite after_read_app.
    repeat split.
    exists (read_event (trace m) (uart m) UART_IER).
    destruct (L (trace m) (uart m) UART_IER) as [F1 N1].
    repeat split; [exact F1|lia].
  - rewrite ns_read_reg_spec. cbn [uart pci trace delayed_resume_tries].
    rewrite !after_read_app.
    set (r1 := read_event (trace m) (uart m) UART_IER).
    set (r2 := read_event (r1 ++ trace m) (uart m) UART_LSR).
    destruct (L (trace m) (uart m) UART_IER) as [F1 N1].
    destruct (L (r1 ++ trace m) (uart m) UART_LSR) as [F2 N2].
    fold r1 in F1, N1. fold r2 in F2, N2.
    destruct (nonzero (Z.land _ UART_LSR_DR)); cbn [negb].
    + rewrite ns_read_reg_spec. cbn [uart pci trace delayed_resume_tries].
      rewrite !after_read_app.
      set (r3 := read_event (r2 ++ r1 ++ trace m) (uart m) UART_RBR).
      destruct (L (r2 ++ r1 ++ trace m) (uart m) UART_RBR) as [F3 N3].
      fold r3 in F3, N3.
      repeat split.
      exists (r3 ++ r2 ++ r1). rewrite !forallb_app, F1, F2, F3.
      rewrite !length_app. repeat split; [now norm_app|lia].
    + repeat split.
      exists (r2 ++ r1). rewrite !forallb_app, F1, F2.
      rewrite !length_app. repeat split; [now norm_app|lia].
Qed.

(** ** Programming the line *)

Lemma early_init_skipped (m : machine) :
  ps_bdf_enable (uart m) = false -> pci_serial_early_init m = m.
Proof. intros H. unfold pci_serial_early_init. now rewrite H. Qed.

Lemma to_u8_small (v : Z) : 0 <= v < 2 ^ 8 -> to_u8 v = v.
Proof. intros H. unfold to_u8. now rewrite Z.mod_small. Qed.

Lemma in_range_forallb (p : Z -> bool) (lo hi x : Z) :
  forallb p (range lo hi) = true -> lo <= x < hi -> p x = true.
Proof.
  intros H Hx. rewrite forallb_forall in H. apply H, in_range, Hx.
Qed.

(** The line-control byte: word length in bits 0 and 1, the stop bit in
    bit 2, the parity in bits 3 to 5. *)
Lemma lcr_encoding (db sb p : Z) :
  5 <= db <= 8 -> 1 <= sb <= 2 -> Z.land p 0x38 = p ->
  to_u8 (Z.lor (Z.lor (to_int (db - 5))
                      (to_int (Z.shiftl (to_int (sb - 1)) 2))) p)
  = db - 5 + 4 * (sb - 1) + p.
Proof.
  intros Hd Hs Hp.
  assert (Hr : 0 <= p < 64).
  { rewrite <- Hp.
    replace (Z.land p 56) with (Z.land (Z.land p 56) (Z.ones 6))
      by (rewrite <- Z.land_assoc; reflexivity).
    rewrite Z.land_ones by lia. apply Z.mod_pos_bound. lia. }
  pose proof (in_range_forallb
    (fun db => forallb (fun sb => forallb (fun p =>
       implb (Z.land p 0x38 =? p)
         (to_u8 (Z.lor (Z.lor (to_int (db - 5))
                   (to_int (Z.shiftl (to_int (sb - 1)) 2))) p)
          =? db - 5 + 4 * (sb - 1) + p))
       (range 0 64)) (range 1 3)) 5 9 db
    ltac:(vm_compute; reflexivity) ltac:(lia)) as H.
  cbv beta in H.
  apply (fun H => in_range_forallb _ 1 3 sb H ltac:(lia)) in H.
  apply (fun H => in_range_forallb _ 0 64 p H Hr) in H.
  cbv beta in H. rewrite Hp, Z.eqb_refl in H. cbn [implb] in H.
  now apply Z.eqb_eq in H.
Qed.


(** Rewrites the innermost register write of the goal into its events. *)
Ltac write_innermost :=
  match goal with
  | |- context [ns_write_reg (mk_machine ?a ?b ?c ?d) ?r ?v] =>
      rewrite (ns_write_reg_spec (mk_machine a b c d) r v);
      cbn [uart pci trace delayed_resume_tries]
  end.

Lemma write_event_port (u : ns16550) (reg c : Z) :
  remapped_io_base u = 0 ->
  write_event u reg c = [EvOutb (to_u8 c) (io_base u + reg)].
Proof.
  intros H. unfold write_event. rewrite H. cbn [Z.eqb].
  now rewrite to_u8_to_char.
Qed.

(** X4: on the port bus, with a baud rate given, the pre-interrupt setup
    returns after exactly seven port writes: interrupts off; the
    line-control byte with the divisor-latch access bit; the low, then the
    high byte of [clock_hz / (16 * baud)] into the divisor latch; the
    line-control byte again, without the latch bit; DTR and RTS; FIFOs
    enabled and cleared with trigger level 14.  It clears [intr_works] and
    changes nothing else. *)
Theorem setup_preirq_programs_divisor (m : machine) :
  let u := uart m in
  remapped_io_base u = 0 ->
  ps_bdf_enable u = false ->
  dw_usr_bsy u = false ->
  5 <= data_bits u <= 8 ->
  1 <= stop_bits u <= 2 ->
  Z.land (parity u) 0x38 = parity u ->
  0 < baud u < 2 ^ 27 ->
  0 <= clock_hz u < 2 ^ 31 ->
  let lcr := data_bits u - 5 + 4 * (stop_bits u - 1) + parity u in
  let divisor := clock_hz u / (16 * baud u) in
  ns16550_setup_preirq m =
    Done (mk_machine (set_intr_works false u) (pci m)
            ([EvOutb 0xc7 (io_base u + UART_FCR);
              EvOutb 0x03 (io_base u + UART_MCR);
              EvOutb lcr (io_base u + UART_LCR);
              EvOutb (divisor / 256 mod 256) (io_base u + UART_DLM);
              EvOutb (divisor mod 256) (io_base u + UART_DLL);
              EvOutb (lcr + 0x80) (io_base u + UART_LCR);
              EvOutb 0 (io_base u + UART_IER)] ++ trace m)
            (delayed_resume_tries m)).
Proof.
  intros u Hre Hps Hdw Hd Hs Hp Hb Hc lcr divisor.
  unfold ns16550_setup_preirq.
  rewrite early_init_skipped by exact Hps.
  cbn [uart upd_uart dw_usr_bsy set_intr_works baud clock_hz data_bits
       stop_bits parity].
  fold u. rewrite Hdw.
  rewrite lcr_encoding by assumption. fold lcr.
  assert (Hl : 0 <= lcr < 64).
  { assert (0 <= parity u < 64).
    { rewrite <- Hp.
      replace (Z.land (parity u) 56)
        with (Z.land (Z.land (parity u) 56) (Z.ones 6))
        by (rewrite <- Z.land_assoc; reflexivity).
      rewrite Z.land_ones by lia. apply Z.mod_pos_bound. lia. }
    assert (0 <= parity u <= 56).
    { assert (H8 : Z.land (parity u) 7 = 0).
      { rewrite <- Hp, <- Z.land_assoc. apply Z.land_0_r. }
      change 7 with (Z.ones 3) in H8. rewrite Z.land_ones in H8 by lia.
      change (2 ^ 3) with 8 in H8. Z.div_mod_to_equations. lia. }
    unfold lcr. lia. }
  assert (Hor : Z.lor lcr UART_LCR_DLAB = lcr + 0x80).
  { pose proof (in_range_forallb
      (fun l => Z.lor l UART_LCR_DLAB =? l + 0x80) 0 64 lcr
      ltac:(vm_compute; reflexivity) Hl) as H.
    now apply Z.eqb_eq in H. }
  rewrite Hor.
  replace (baud u =? BAUD_AUTO) with false
    by (symmetry; apply Z.eqb_neq; unfold BAUD_AUTO; lia).
  cbn [negb].
  rewrite Z.shiftl_mul_pow2 by lia. change (2 ^ 4) with 16.
  rewrite (to_int_small (baud u * 16)) by lia.
  unfold int_div.
  replace (baud u * 16 =? 0) with false by (symmetry; apply Z.eqb_neq; lia).
  rewrite Z.quot_div_nonneg by lia.
  replace (baud u * 16) with (16 * baud u) by lia. fold divisor.
  assert (Hq : 0 <= divisor < 2 ^ 31).
  { unfold divisor. split; [apply Z.div_pos; lia|].
    apply Z.div_lt_upper_bound; nia. }
  rewrite (to_int_small divisor) by lia.
  cbn [bind].
  rewrite (to_u32_small divisor) by lia.
  unfold upd_uart. repeat write_innermost.
  rewrite !write_event_port by exact Hre.
  cbn [io_base set_intr_works app].
  rewrite Z.shiftr_div_pow2 by lia. change (2 ^ 8) with 256.
  rewrite (to_u8_small lcr), (to_u8_small (lcr + 128)) by lia.
  unfold to_u8. change (2 ^ 8) with 256.
  reflexivity.
Qed.


(** ** Reading the baud rate back *)

Lemma early_init_intr_works (b : bool) (m : machine) :
  pci_serial_early_init (upd_uart (set_intr_works b) m) =
  upd_uart (set_intr_works b) (pci_serial_early_init m).
Proof.
  unfold pci_serial_early_init. cbn [uart upd_uart ps_bdf_enable io_base
    set_intr_works pb_bdf ps_bdf pb_bdf_enable].
  destruct (negb (ps_bdf_enable (uart m)) || (65536 <=? io_base (uart m)));
    [reflexivity|].
  destruct (pb_bdf (uart m)) as [[pb pd] pf].
  destruct (ps_bdf (uart m)) as [[sb sd] sf].
  destruct (pb_bdf_enable (uart m)); reflexivity.
Qed.

Lemma to_char_range (v : Z) : - 2 ^ 7 <= to_char v < 2 ^ 7.
Proof.
  unfold to_char. pose proof (Z.mod_pos_bound (v + 2 ^ 7) (2 ^ 8)). lia.
Qed.

Lemma reg_value_range (h : history) (u : ns16550) (reg : Z) :
  - 2 ^ 7 <= reg_value h u reg < 2 ^ 7.
Proof.
  unfold reg_value. destruct (reg_access u reg); apply to_char_range.
Qed.

(** The divisor as the code assembles it from the two latch bytes, which
    it holds as signed characters, and the divisor times 16. *)
Lemma latch_arith (c0 c1 : Z) :
  - 2 ^ 7 <= c0 < 2 ^ 7 -> - 2 ^ 7 <= c1 < 2 ^ 7 ->
  let D := to_u32 (Z.shiftl (Z.lor (to_u32 c0) (to_u32 (Z.shiftl c1 8))) 4) in
  (to_u8 c0 < 0x80 -> to_u8 c1 < 0x80 ->
   D = 16 * (to_u8 c0 + 256 * to_u8 c1)) /\
  (0x80 <= to_u8 c0 \/ 0x80 <= to_u8 c1 -> 2 ^ 31 <= D).
Proof.
  intros H0 H1.
  pose proof (in_range_forallb
    (fun c0 => forallb (fun c1 =>
       let D := to_u32 (Z.shiftl (Z.lor (to_u32 c0)
                                        (to_u32 (Z.shiftl c1 8))) 4) in
       if (to_u8 c0 <? 0x80) && (to_u8 c1 <? 0x80)
       then D =? 16 * (to_u8 c0 + 256 * to_u8 c1)
       else 2 ^ 31 <=? D) (range (-128) 128)) (-128) 128 c0
    ltac:(vm_compute; reflexivity) ltac:(lia)) as H.
  cbv beta in H.
  apply (fun H => in_range_forallb _ (-128) 128 c1 H ltac:(lia)) in H.
  cbv beta zeta in H. cbv zeta.
  destruct (Z.ltb_spec (to_u8 c0) 0x80); destruct (Z.ltb_spec (to_u8 c1) 0x80);
    cbn [andb] in H; split; intros; try lia;
    try (now apply Z.eqb_eq in H); now apply Z.leb_le in H.
Qed.

Lemma early_init_shape (m : machine) :
  exists t0 tb,
    pci_serial_early_init m =
      mk_machine (uart m) tb (t0 ++ trace m) (delayed_resume_tries m).
Proof.
  unfold pci_serial_early_init.
  destruct (negb _ || _); [exists [], (pci m); now destruct m|].
  destruct (pb_bdf (uart m)) as [[pb pd] pf].
  destruct (ps_bdf (uart m)) as [[sb sd] sf].
  destruct (pb_bdf_enable (uart m));
    unfold pci_conf_write16, pci_conf_write32, log, set_pci;
    cbn [uart pci trace delayed_resume_tries].
  - eexists [_; _; _], _. reflexivity.
  - eexists [_; _], _. reflexivity.
Qed.

(** The pre-interrupt setup of a descriptor whose baud rate is to be read
    back, up to the division. *)
Lemma setup_preirq_auto (m : machine) :
  let u := uart m in
  let h := trace (pci_serial_early_init m) in
  let c0 := reg_value (latch_open h u) u UART_DLL in
  let c1 := reg_value (after_read (latch_open h u) u UART_DLL) u UART_DLM in
  baud u = BAUD_AUTO -> dw_usr_bsy u = false ->
  exists h',
    ns16550_setup_preirq m =
      (q <- uint_div (to_u32 (clock_hz u))
              (to_u32 (Z.shiftl (Z.lor (to_u32 c0) (to_u32 (Z.shiftl c1 8)))
                                4)) ;;
       Done (mk_machine (set_baud (to_int q) (set_intr_works false u))
               (pci (pci_serial_early_init m)) h'
               (delayed_resume_tries m))).
Proof.
  cbv zeta. intros Hb Hdw.
  unfold ns16550_setup_preirq.
  rewrite early_init_intr_works.
  destruct (early_init_shape m) as (t0 & tb & E). rewrite E.
  unfold upd_uart.
  cbn [uart pci trace delayed_resume_tries dw_usr_bsy set_intr_works baud
       clock_hz data_bits stop_bits parity].
  rewrite Hdw, Hb, Z.eqb_refl. cbn [negb].
  repeat write_innermost.
  rewrite ns_read_reg_spec. cbn [uart pci trace delayed_resume_tries].
  rewrite ns_read_reg_spec. cbn [uart pci trace delayed_resume_tries].
  change (reg_value ?x (set_intr_works false (uart m)) ?r)
    with (reg_value x (uart m) r).
  change (after_read ?x (set_intr_works false (uart m)) ?r)
    with (after_read x (uart m) r).
  change (write_event (set_intr_works false (uart m)) ?r ?c)
    with (write_event (uart m) r c).
  fold (lcr_byte (uart m)). fold (latch_open (t0 ++ trace m) (uart m)).
  destruct (uint_div _ _) as [q| |]; cbn [bind];
    [|exists []; reflexivity|exists []; reflexivity].
  unfold upd_uart. cbn [uart pci trace delayed_resume_tries].
  repeat write_innermost.
  eexists. reflexivity.
Qed.


(** A latch byte with its top bit set: the baud rate read back is 0. *)
Lemma auto_baud_zero (m : machine) :
  let u := uart m in
  let h := trace (pci_serial_early_init m) in
  baud u = BAUD_AUTO -> dw_usr_bsy u = false -> 0 <= clock_hz u < 2 ^ 31 ->
  0x80 <= latch_low h u \/ 0x80 <= latch_high h u ->
  exists h',
    ns16550_setup_preirq m =
      Done (mk_machine (set_baud 0 (set_intr_works false u))
              (pci (pci_serial_early_init m)) h' (delayed_resume_tries m)).
Proof.
  cbv zeta. intros Hb Hdw Hc Htop.
  destruct (setup_preirq_auto m Hb Hdw) as (h' & E). cbv zeta in E.
  exists h'. rewrite E. clear E.
  match goal with
  | |- context [Z.lor (to_u32 ?a) (to_u32 (Z.shiftl ?b 8))] =>
      destruct (latch_arith a b (reg_value_range _ _ _) (reg_value_range _ _ _))
        as [_ HD]
  end.
  cbv zeta in HD. specialize (HD Htop).
  unfold uint_div.
  match goal with |- context [?x =? 0] =>
    replace (x =? 0) with false by (symmetry; apply Z.eqb_neq; lia) end.
  cbn [bind]. rewrite (to_u32_small (clock_hz (uart m))) by lia.
  rewrite Z.quot_small by lia. reflexivity.
Qed.

(** X5: with the baud rate to be read back, the pre-interrupt setup reads
    the two divisor-latch bytes through [ns_read_reg], that is as signed
    characters.  When both are below 0x80 it sets [baud] to
    [clock_hz / (16 * divisor)]; when both are zero the division traps;
    when either has its top bit set, the sign extension makes the divisor
    so large that [baud] becomes 0. *)
Theorem auto_baud_readback (m : machine) :
  let u := uart m in
  let h := trace (pci_serial_early_init m) in
  let d0 := latch_low h u in
  let d1 := latch_high h u in
  baud u = BAUD_AUTO ->
  dw_usr_bsy u = false ->
  0 <= clock_hz u < 2 ^ 31 ->
  (d0 = 0 -> d1 = 0 -> ns16550_setup_preirq m = Fault) /\
  (d0 < 0x80 -> d1 < 0x80 -> 0 < d0 + 256 * d1 ->
   exists m',
     ns16550_setup_preirq m = Done m' /\
     baud (uart m') = clock_hz u / (16 * (d0 + 256 * d1))) /\
  (0x80 <= d0 \/ 0x80 <= d1 ->
   exists m', ns16550_setup_preirq m = Done m' /\ baud (uart m') = 0).
Proof.
  intros u h d0 d1 Hb Hdw Hc.
  assert (Hz : 0x80 <= d0 \/ 0x80 <= d1 ->
               exists m', ns16550_setup_preirq m = Done m' /\
                          baud (uart m') = 0).
  { intros Htop.
    destruct (auto_baud_zero m Hb Hdw Hc Htop) as (h2 & E2).
    eexists. split; [exact E2|reflexivity]. }
  destruct (setup_preirq_auto m Hb Hdw) as (h' & E). cbv zeta in E.
  fold u h in E.
  set (c0 := reg_value (latch_open h u) u UART_DLL) in E.
  set (c1 := reg_value (after_read (latch_open h u) u UART_DLL) u UART_DLM)
    in E.
  destruct (latch_arith c0 c1 (reg_value_range _ _ _) (reg_value_range _ _ _))
    as [HD _].
  cbv zeta in HD.
  change (to_u8 c0) with d0 in HD. change (to_u8 c1) with d1 in HD.
  assert (R0 : 0 <= d0 < 2 ^ 8) by apply to_u8_range.
  assert (R1 : 0 <= d1 < 2 ^ 8) by apply to_u8_range.
  clearbody d0 d1.
  split; [|split].
  - intros H0 H1. rewrite E, HD by lia. rewrite H0, H1. reflexivity.
  - intros H0 H1 Hpos. rewrite E, HD by lia.
    unfold uint_div.
    replace (16 * (d0 + 256 * d1) =? 0) with false
      by (symmetry; apply Z.eqb_neq; lia).
    cbn [bind]. eexists. split; [reflexivity|].
    cbn [uart baud set_baud].
    rewrite (to_u32_small (clock_hz u)) by lia.
    rewrite Z.quot_div_nonneg by lia.
    apply to_int_small. split.
    + pose proof (Z.div_pos (clock_hz u) (16 * (d0 + 256 * d1))). lia.
    + apply Z.div_lt_upper_bound; nia.
  - exact Hz.
Qed.


(** ** What the parser cannot change *)

Lemma parity_in_lcr_bits (c : Z) :
  Z.land (parse_parity_char c) 0x38 = parse_parity_char c.
Proof.
  unfold parse_parity_char.
  repeat match goal with
  | |- context [if ?b then _ else _] => destruct b
  end; reflexivity.
Qed.

Lemma kept_scan_functions (u0 : ns16550) (fs : list Z) (bar_idx b d : Z) :
  forall m,
    as_initialised u0 (uart m) ->
    as_initialised u0 (uart (snd (scan_functions fs bar_idx b d m))).
Proof.
  induction fs as [|f rest IH]; intros m H; cbn [scan_functions snd];
    [exact H|].
  cbv zeta.
  repeat match goal with
  | |- context [if ?c then _ else _] => destruct c
  end; cbn [snd]; try exact H; try (apply IH; exact H).
Qed.

Lemma kept_scan_devices (u0 : ns16550) (ds : list Z) (bar_idx b : Z) :
  forall m,
    as_initialised u0 (uart m) ->
    as_initialised u0 (uart (snd (scan_devices ds bar_idx b m))).
Proof.
  induction ds as [|d rest IH]; intros m H; cbn [scan_devices snd];
    [exact H|].
  pose proof (kept_scan_functions u0 (range 0 8) bar_idx b d m H) as H1.
  destruct (scan_functions _ bar_idx b d m) as [hit m1]. cbn [snd] in H1.
  destruct hit; [exact H1|apply IH, H1].
Qed.

Lemma kept_scan_buses (u0 : ns16550) (bs : list Z) (bar_idx : Z) :
  forall m,
    as_initialised u0 (uart m) ->
    as_initialised u0 (uart (snd (scan_buses bs bar_idx m))).
Proof.
  induction bs as [|b rest IH]; intros m H; cbn [scan_buses snd];
    [exact H|].
  pose proof (kept_scan_devices u0 (range 0 0x20) bar_idx b m H) as H1.
  destruct (scan_devices _ bar_idx b m) as [hit m1]. cbn [snd] in H1.
  destruct hit; [exact H1|apply IH, H1].
Qed.

Lemma kept_pci_uart_config (u0 : ns16550) (m : machine) (skip_amt bar_idx : Z) :
  as_initialised u0 (uart m) ->
  as_initialised u0 (uart (snd (pci_uart_config m skip_amt bar_idx))).
Proof.
  intros H. unfold pci_uart_config.
  pose proof (kept_scan_buses u0
                (range (if nonzero skip_amt then 1 else 0) 0x100) bar_idx m H)
    as H1.
  destruct (scan_buses _ bar_idx m) as [hit m1]. cbn [snd] in H1.
  destruct hit; [exact H1|]. destruct (negb _); exact H1.
Qed.

Lemma kept_and_then (u0 : ns16550) (s : step)
    (k : machine -> string -> step) :
  as_initialised u0 (uart (step_machine s)) ->
  (forall m conf, as_initialised u0 (uart m) ->
                  as_initialised u0 (uart (step_machine (k m conf)))) ->
  as_initialised u0 (uart (step_machine (and_then s k))).
Proof. intros Hs Hk. destruct s; cbn in *; auto. Qed.

Ltac kept_field :=
  intros;
  repeat match goal with
  | |- context [let (_, _) := ?x in _] => destruct x
  | |- context [match ?x with Some _ => _ | None => _ end] => destruct x
  | |- context [let '(_, _) := ?x in _] => destruct x
  | |- context [if ?c then _ else _] => destruct c
  end; cbn [step_machine uart upd_uart log]; try assumption.

Lemma kept_parse_baud (u0 : ns16550) (m : machine) (conf : string) :
  as_initialised u0 (uart m) ->
  as_initialised u0 (uart (step_machine (parse_baud m conf))).
Proof. unfold parse_baud. kept_field. Qed.

Lemma kept_parse_clock (u0 : ns16550) (m : machine) (conf : string) :
  as_initialised u0 (uart m) ->
  as_initialised u0 (uart (step_machine (parse_clock m conf))).
Proof. unfold parse_clock. kept_field. Qed.

Lemma kept_parse_dps (u0 : ns16550) (m : machine) (conf : string) :
  as_initialised u0 (uart m) ->
  as_initialised u0 (uart (step_machine (parse_dps m conf))).
Proof.
  unfold parse_dps. intros H.
  destruct (field_start conf) as [go c1]. destruct go; [|exact H].
  destruct (simple_strtoul c1 10) as [v c2].
  destruct (simple_strtoul (advance 1 c2) 10) as [v' c3].
  cbn [step_machine uart upd_uart].
  destruct H as (H1 & H2 & H3 & H4 & H5 & H6).
  repeat split; try assumption; try apply H6.
  apply parity_in_lcr_bits.
Qed.

Lemma kept_parse_io_base (u0 : ns16550) (idx : Z) (m : machine)
    (conf : string) :
  as_initialised u0 (uart m) ->
  as_initialised u0 (uart (step_machine (parse_io_base idx m conf))).
Proof.
  unfold parse_io_base. intros H.
  destruct (field_start conf) as [go c1]. destruct go; [|exact H].
  destruct (String.prefix "pci" c1).
  - pose proof (kept_pci_uart_config u0 m 1 idx H) as H1.
    destruct (pci_uart_config m 1 idx) as [rc m1].
    destruct (nonzero rc); exact H1.
  - destruct (String.prefix "amt" c1).
    + pose proof (kept_pci_uart_config u0 m 0 idx H) as H1.
      destruct (pci_uart_config m 0 idx) as [rc m1].
      destruct (nonzero rc); exact H1.
    + destruct (simple_strtoul c1 0). exact H.
Qed.

Lemma kept_parse_irq (u0 : ns16550) (m : machine) (conf : string) :
  as_initialised u0 (uart m) ->
  as_initialised u0 (uart (step_machine (parse_irq m conf))).
Proof. unfold parse_irq. kept_field. Qed.

Lemma kept_parse_port_bdf (u0 : ns16550) (m : machine) (conf : string) :
  as_initialised u0 (uart m) ->
  as_initialised u0 (uart (step_machine (parse_port_bdf m conf))).
Proof.
  unfold parse_port_bdf. intros H.
  destruct (field_start conf) as [go c1]. destruct go; [|exact H].
  destruct (parse_pci c1) as [[c2 [[b d] f]]|]; exact H.
Qed.

Lemma kept_parse_bridge_bdf (u0 : ns16550) (m : machine) (conf : string) :
  as_initialised u0 (uart m) ->
  as_initialised u0 (uart (step_machine (parse_bridge_bdf m conf))).
Proof.
  unfold parse_bridge_bdf. intros H.
  destruct (field_start conf) as [go c1]. destruct go; [|exact H].
  destruct (parse_pci c1) as [[c2 [[b d] f]]|]; exact H.
Qed.

Lemma kept_parse_fields (u0 : ns16550) (idx : Z) (m : machine)
    (conf : string) :
  as_initialised u0 (uart m) ->
  as_initialised u0 (uart (step_machine (parse_fields idx m conf))).
Proof.
  intros H. unfold parse_fields. destruct conf as [|a conf].
  - destruct (nonzero _); exact H.
  - apply kept_and_then; [now apply kept_parse_baud|]. intros.
    apply kept_and_then; [now apply kept_parse_clock|]. intros.
    apply kept_and_then; [now apply kept_parse_dps|]. intros.
    apply kept_and_then; [now apply kept_parse_io_base|]. intros.
    apply kept_and_then; [now apply kept_parse_irq|]. intros.
    apply kept_and_then; [now apply kept_parse_port_bdf|]. intros.
    now apply kept_parse_bridge_bdf.
Qed.

Lemma uart_check_existence (m : machine) :
  uart (snd (check_existence m)) = uart m.
Proof.
  rewrite check_existence_spec.
  destruct (0x10000 <=? io_base (uart m)); [reflexivity|].
  cbv zeta. destruct (ier_roundtrip _ _); reflexivity.
Qed.

Lemma uart_config_parsed (idx : Z) (m : machine) :
  uart (config_parsed idx m) = uart m.
Proof.
  unfold config_parsed.
  pose proof (uart_check_existence m) as H.
  destruct (check_existence m) as [present m1]. cbn [snd] in H.
  repeat match goal with
  | |- context [if ?c then _ else _] => destruct c
  end; cbn [uart log]; auto.
Qed.

Lemma kept_parse_port_config (u0 : ns16550) (idx : Z) (m : machine)
    (conf : string) :
  as_initialised u0 (uart m) ->
  as_initialised u0 (uart (ns16550_parse_port_config idx m conf)).
Proof.
  intros H. unfold ns16550_parse_port_config.
  pose proof (kept_parse_fields u0 idx m conf H) as H1.
  destruct (parse_fields idx m conf) as [m1 rest|m1]; cbn in H1.
  - now rewrite uart_config_parsed.
  - exact H1.
Qed.

Lemma init_as_initialised (index : Z) (defaults : ns16550_defaults)
    (console_has : bool) (opt_com : string) (m : machine) :
  0 <= index <= 1 ->
  as_initialised (uart m)
    (uart (ns16550_init index defaults console_has opt_com m)).
Proof.
  intros Hi. unfold ns16550_init.
  replace ((index <? 0) || (1 <? index)) with false
    by (symmetry; apply orb_false_iff; split; apply Z.ltb_ge; lia).
  apply kept_parse_port_config. cbn [uart upd_uart].
  repeat split. apply parity_in_lcr_bits.
Qed.

(** X7: whatever the boot option says, [ns16550_init] leaves a slot with
    byte-wide registers at consecutive addresses ([reg_width = 1],
    [reg_shift = 0]), eight ports, a FIFO depth of 1 and a parity that
    fits bits 3 to 5 of the line-control register; it does not touch the
    remapped base, the timers or [intr_works].  For an index other than 0
    or 1 it does nothing at all. *)
Theorem init_fixes_geometry (index : Z) (defaults : ns16550_defaults)
    (console_has : bool) (opt_com : string) (m : machine) :
  (0 <= index <= 1 ->
   as_initialised (uart m)
     (uart (ns16550_init index defaults console_has opt_com m))) /\
  (index < 0 \/ 1 < index ->
   ns16550_init index defaults console_has opt_com m = m).
Proof.
  split.
  - apply init_as_initialised.
  - intros Hi. unfold ns16550_init.
    replace ((index <? 0) || (1 <? index)) with true; [reflexivity|].
    symmetry. apply orb_true_iff. destruct Hi; [left|right]; apply Z.ltb_lt; lia.
Qed.


(** ** The FIFO depth *)

Lemma setup_preirq_keeps_baud (m m' : machine) :
  baud (uart m) <> BAUD_AUTO ->
  ns16550_setup_preirq m = Done m' ->
  uart m' = set_intr_works false (uart m).
Proof.
  intros Hb. unfold ns16550_setup_preirq.
  rewrite early_init_intr_works.
  destruct (early_init_shape m) as (t0 & tb & E). rewrite E.
  unfold upd_uart. cbn [uart pci trace delayed_resume_tries baud
    set_intr_works clock_hz dw_usr_bsy].
  replace (baud (uart m) =? BAUD_AUTO) with false
    by (symmetry; now apply Z.eqb_neq).
  cbn [negb].
  destruct (int_div _ _) as [q| |]; cbn [bind]; try discriminate.
  intros [= <-]. rewrite !uart_ns_write_reg.
  destruct (dw_usr_bsy (uart m)); [|now rewrite uart_ns_write_reg].
  rewrite ns_read_reg_spec.
  match goal with |- context [if ?c then _ else _] => destruct c end;
    rewrite ?ns_read_reg_spec; cbn [snd uart]; now rewrite uart_ns_write_reg.
Qed.

Lemma setup_preirq_returns (m : machine) :
  0 < baud (uart m) < 2 ^ 27 ->
  exists m', ns16550_setup_preirq m = Done m'.
Proof.
  intros Hb. unfold ns16550_setup_preirq.
  rewrite early_init_intr_works.
  destruct (early_init_shape m) as (t0 & tb & E). rewrite E.
  unfold upd_uart. cbn [uart pci trace delayed_resume_tries baud
    set_intr_works clock_hz dw_usr_bsy].
  replace (baud (uart m) =? BAUD_AUTO) with false
    by (symmetry; apply Z.eqb_neq; unfold BAUD_AUTO; lia).
  cbn [negb]. unfold int_div.
  rewrite Z.shiftl_mul_pow2 by lia. change (2 ^ 4) with 16.
  rewrite (to_int_small (baud (uart m) * 16)) by lia.
  replace (baud (uart m) * 16 =? 0) with false
    by (symmetry; apply Z.eqb_neq; lia).
  cbn [bind]. eexists. reflexivity.
Qed.

Lemma init_preirq_fifo (idx : Z) (m m' : machine) :
  io_base (uart m) < 0x10000 ->
  baud (uart m) <> BAUD_AUTO ->
  ns16550_init_preirq idx m = Done m' ->
  uart m' = set_intr_works false (uart m) \/
  uart m' = set_fifo_size 16 (set_intr_works false (uart m)).
Proof.
  intros Hio Hb. unfold ns16550_init_preirq.
  replace (0x10000 <=? io_base (uart m)) with false
    by (symmetry; apply Z.leb_gt; exact Hio).
  destruct (ns16550_setup_preirq m) as [m1| |] eqn:E; cbn [bind];
    try discriminate.
  apply setup_preirq_keeps_baud in E; [|exact Hb].
  rewrite ns_read_reg_spec.
  destruct (Z.land _ 192 =? 192).
  - rewrite ns_read_reg_spec.
    destruct (Z.land _ UART_FCR_TRG14 =? UART_FCR_TRG14);
      intros [= <-]; cbn [uart upd_uart]; rewrite E; auto.
  - intros [= <-]. cbn [uart]. auto.
Qed.

(** X8: a port-I/O slot set up by [ns16550_init] with a baud rate given
    comes out of [init_preirq] with a FIFO depth of 1 or 16, [intr_works]
    cleared and nothing else changed: in particular with byte-wide
    registers and the framing, interrupt and port base of the boot
    option.  [init_preirq] does return on such a slot. *)
Theorem fifo_depth_after_boot (index : Z) (defaults : ns16550_defaults)
    (console_has : bool) (opt_com : string) (m : machine) :
  let m1 := ns16550_init index defaults console_has opt_com m in
  0 <= index <= 1 ->
  io_base (uart m1) < 0x10000 ->
  0 < baud (uart m1) < 2 ^ 27 ->
  exists m2,
    ns16550_init_preirq index m1 = Done m2 /\
    (uart m2 = set_intr_works false (uart m1) \/
     uart m2 = set_fifo_size 16 (set_intr_works false (uart m1))) /\
    (fifo_size (uart m2) = 1 \/ fifo_size (uart m2) = 16) /\
    reg_width (uart m2) = 1 /\ reg_shift (uart m2) = 0.
Proof.
  intros m1 Hi Hio Hb.
  destruct (init_as_initialised index defaults console_has opt_com m Hi)
    as (Hw & Hs & _ & Hf & _).
  fold m1 in Hw, Hs, Hf.
  assert (Hr : exists m2, ns16550_init_preirq index m1 = Done m2).
  { unfold ns16550_init_preirq.
    replace (0x10000 <=? io_base (uart m1)) with false
      by (symmetry; apply Z.leb_gt; exact Hio).
    destruct (setup_preirq_returns m1 Hb) as (m' & E). rewrite E.
    cbn [bind]. rewrite ns_read_reg_spec.
    destruct (Z.land _ 192 =? 192); [|eauto].
    rewrite ns_read_reg_spec.
    destruct (Z.land _ UART_FCR_TRG14 =? UART_FCR_TRG14); eauto. }
  destruct Hr as (m2 & E). exists m2. split; [exact E|].
  apply init_preirq_fifo in E;
    [|exact Hio|unfold BAUD_AUTO; lia].
  split; [exact E|].
  destruct E as [-> | ->]; cbn [fifo_size reg_width reg_shift set_fifo_size
    set_intr_works]; auto.
Qed.

(** ** The bus scan and the BARs *)

(** X9: asked for the primary BAR, the bus scan leaves the configuration
    space of every function as it found it, provided that writing back the
    value read from a BAR undoes the all-ones write on the functions it
    probes. *)
Theorem scan_restores_primary_bar (m : machine) (skip_amt : Z) :
  (forall k, fn_probed 0 (pci m k) = true ->
             fn_restored 0 (pci m k) = pci m k) ->
  forall k, pci (snd (pci_uart_config m skip_amt 0)) k = pci m k.
Proof.
  intros H k.
  destruct (scan_leaves_config_space m skip_amt 0 k) as [E|[Hp E]].
  - exact E.
  - rewrite E. now apply H.
Qed.

Lemma sizing_pairs_app (bar_idx : Z) (a b : history) :
  sizing_pairs bar_idx a = true -> sizing_pairs bar_idx b = true ->
  sizing_pairs bar_idx (a ++ b) = true.
Proof.
  intros Ha Hb.
  assert (H : forall n a, (List.length a <= n)%nat ->
                sizing_pairs bar_idx a = true ->
                sizing_pairs bar_idx (a ++ b) = true).
  { clear a Ha. induction n as [|n IH]; intros a Hn Ha.
    - destruct a; [exact Hb|cbn in Hn; lia].
    - destruct a as [|e1 [|e2 rest]]; [exact Hb| |].
      + destruct e1; discriminate.
      + destruct e1; try discriminate. destruct e2; try discriminate.
        cbn [sizing_pairs app] in *.
        apply andb_true_iff in Ha. destruct Ha as [Ha1 Ha2].
        rewrite Ha1. cbn [andb]. apply IH; [cbn in Hn; lia|exact Ha2]. }
  now apply (H (List.length a)).
Qed.

Lemma scan_functions_pairs (bar_idx b d : Z) (fs : list Z) :
  forall m,
    exists t,
      trace (snd (scan_functions fs bar_idx b d m)) = t ++ trace m /\
      sizing_pairs bar_idx t = true.
Proof.
  induction fs as [|f rest IH]; intros m; cbn [scan_functions];
    [exists []; split; reflexivity|].
  cbv zeta.
  assert (Hsame : exists t,
             trace (snd (scan_functions rest bar_idx b d m)) = t ++ trace m /\
             sizing_pairs bar_idx t = true) by apply IH.
  assert (Hnil : exists t, trace m = t ++ trace m /\
                           sizing_pairs bar_idx t = true)
    by (exists []; split; reflexivity).
  set (bar := pci_conf_read32 m b d f (PCI_BASE_ADDRESS_0 + bar_idx * 4)).
  set (m1 := pci_conf_write32 m b d f PCI_BASE_ADDRESS_0 (to_u32 (Z.lnot 0))).
  set (m2 := pci_conf_write32 m1 b d f (PCI_BASE_ADDRESS_0 + bar_idx * 4) bar).
  assert (Hp : sizing_pairs bar_idx
                 [EvPciWrite32 b d f (PCI_BASE_ADDRESS_0 + bar_idx * 4)
                    (to_u32 bar);
                  EvPciWrite32 b d f PCI_BASE_ADDRESS_0
                    (to_u32 (to_u32 (Z.lnot 0)))] = true).
  { cbn [sizing_pairs]. rewrite !Z.eqb_refl. reflexivity. }
  assert (H2 : trace m2 =
                 [EvPciWrite32 b d f (PCI_BASE_ADDRESS_0 + bar_idx * 4)
                    (to_u32 bar);
                  EvPciWrite32 b d f PCI_BASE_ADDRESS_0
                    (to_u32 (to_u32 (Z.lnot 0)))] ++ trace m) by reflexivity.
  assert (Hprobe : exists t, trace m2 = t ++ trace m /\
                             sizing_pairs bar_idx t = true) by eauto.
  assert (Hrest : exists t,
             trace (snd (scan_functions rest bar_idx b d m2)) = t ++ trace m /\
             sizing_pairs bar_idx t = true).
  { destruct (IH m2) as (t & Ht & Hs). rewrite Ht, H2.
    eexists. rewrite app_assoc. split; [reflexivity|].
    now apply sizing_pairs_app. }
  clearbody m2 bar.
  repeat match goal with
  | |- context [if ?c then _ else _] => destruct c
  end; cbn [snd uart upd_uart trace]; assumption.
Qed.

Lemma scan_devices_pairs (bar_idx b : Z) (ds : list Z) :
  forall m,
    exists t,
      trace (snd (scan_devices ds bar_idx b m)) = t ++ trace m /\
      sizing_pairs bar_idx t = true.
Proof.
  induction ds as [|d rest IH]; intros m; cbn [scan_devices];
    [exists []; split; reflexivity|].
  destruct (scan_functions_pairs bar_idx b d (range 0 8) m) as (t & Ht & Hs).
  destruct (scan_functions _ bar_idx b d m) as [hit m1]. cbn [snd] in Ht.
  destruct hit; [eauto|].
  destruct (IH m1) as (t' & Ht' & Hs'). rewrite Ht', Ht.
  eexists. rewrite app_assoc. split; [reflexivity|].
  now apply sizing_pairs_app.
Qed.

Lemma scan_buses_pairs (bar_idx : Z) (bs : list Z) :
  forall m,
    exists t,
      trace (snd (scan_buses bs bar_idx m)) = t ++ trace m /\
      sizing_pairs bar_idx t = true.
Proof.
  induction bs as [|b rest IH]; intros m; cbn [scan_buses];
    [exists []; split; reflexivity|].
  destruct (scan_devices_pairs bar_idx b (range 0 0x20) m) as (t & Ht & Hs).
  destruct (scan_devices _ bar_idx b m) as [hit m1]. cbn [snd] in Ht.
  destruct hit; [eauto|].
  destruct (IH m1) as (t' & Ht' & Hs'). rewrite Ht', Ht.
  eexists. rewrite app_assoc. split; [reflexivity|].
  now apply sizing_pairs_app.
Qed.

(** X10: all the bus scan does to the outside is sizing probes: an
    all-ones write to the primary BAR of a function, followed at once by a
    write to the target BAR of the same function.  It reads and writes no
    register of the port, writes no command register and sets no timer. *)
Theorem scan_only_sizes_bars (m : machine) (skip_amt bar_idx : Z) :
  exists t,
    trace (snd (pci_uart_config m skip_amt bar_idx)) = t ++ trace m /\
    sizing_pairs bar_idx t = true.
Proof.
  unfold pci_uart_config.
  destruct (scan_buses_pairs bar_idx
              (range (if nonzero skip_amt then 1 else 0) 0x100) m)
    as (t & Ht & Hs).
  destruct (scan_buses _ bar_idx m) as [hit m1]. cbn [snd] in Ht.
  destruct hit; [eauto|]. destruct (negb _); cbn [snd trace upd_uart]; eauto.
Qed.


(** ** Suspend and resume *)

Lemma continues_refl (h : history) : continues h h.
Proof. now exists []. Qed.

Lemma continues_trans (h1 h2 h3 : history) :
  continues h1 h2 -> continues h2 h3 -> continues h1 h3.
Proof. intros [t ->] [t' ->]. exists (t' ++ t). now rewrite app_assoc. Qed.

Lemma continues_app (a h h' : history) :
  continues h h' -> continues h (a ++ h').
Proof. intros [t ->]. exists (a ++ t). now rewrite app_assoc. Qed.

Lemma continues_cons (e : event) (h h' : history) :
  continues h h' -> continues h (e :: h').
Proof. intros [t ->]. now exists (e :: t). Qed.

Lemma continues_write (h : history) (m : machine) (reg c : Z) :
  continues h (trace m) -> continues h (trace (ns_write_reg m reg c)).
Proof. intros H. rewrite trace_write. now apply continues_app. Qed.

Lemma continues_read (h : history) (m : machine) (reg : Z) :
  continues h (trace m) -> continues h (trace (snd (ns_read_reg m reg))).
Proof. intros H. rewrite trace_read. now apply continues_app. Qed.

Lemma continues_early_init (h : history) (m : machine) :
  continues h (trace m) -> continues h (trace (pci_serial_early_init m)).
Proof.
  intros H. destruct (early_init_shape m) as (t0 & tb & E). rewrite E.
  now apply continues_app.
Qed.

Lemma continues_setup_preirq (h : history) (m m' : machine) :
  continues h (trace m) ->
  ns16550_setup_preirq m = Done m' -> continues h (trace m').
Proof.
  intros H. unfold ns16550_setup_preirq.
  set (m1 := pci_serial_early_init (upd_uart (set_intr_works false) m)).
  assert (H1 : continues h (trace m1))
    by (unfold m1; now apply continues_early_init).
  clearbody m1.
  match goal with
  | |- context [ns_write_reg ?x UART_LCR (Z.lor _ UART_LCR_DLAB)] =>
      set (m3 := x)
  end.
  assert (H3 : continues h (trace m3)).
  { unfold m3. destruct (dw_usr_bsy (uart m1));
      [|now apply continues_write].
    rewrite (read_split _ UART_IIR).
    match goal with |- context [if ?c then _ else _] => destruct c end;
      repeat first [apply continues_read | apply continues_write]; exact H1. }
  clearbody m3.
  destruct (negb (baud (uart m1) =? BAUD_AUTO)).
  - destruct (int_div _ _); cbn [bind]; try discriminate.
    intros [= <-]. repeat apply continues_write. exact H3.
  - rewrite (read_split _ UART_DLL), (read_split _ UART_DLM). cbn [bind].
    destruct (uint_div _ _); cbn [bind]; try discriminate.
    intros [= <-]. repeat apply continues_write. cbn [trace upd_uart].
    repeat first [apply continues_read | apply continues_write]. exact H3.
Qed.

Lemma continues_setup_postirq (h : history) (m : machine) :
  continues h (trace m) -> continues h (trace (ns16550_setup_postirq m)).
Proof.
  intros H. unfold ns16550_setup_postirq.
  destruct (0 <? irq (uart m)); destruct (0 <=? irq _);
    cbn [set_timer log trace upd_uart];
    repeat first [apply continues_cons | apply continues_write]; exact H.
Qed.

(** X11: suspend stops the poll timer and, for a port found on the PCI
    bus, saves the command register; it touches nothing else.  A resume
    on a port that answers then returns at once, having written the BAR
    and that command register back before it reprograms the line, and
    leaves the descriptor as it was before the suspend, with the poll
    timer armed again, except that [intr_works] is cleared and [cr] holds
    the saved command register. *)
Theorem suspend_resume_roundtrip (m : machine) :
  let u := uart m in
  let m1 := ns16550_suspend m in
  let saved :=
    let '(sb, sd, sf) := ps_bdf u in
    if nonzero (bar u) then pci_conf_read16 m sb sd sf PCI_COMMAND
    else cr u in
  (trace m1 = EvStopTimer PollTimer :: trace m /\
   pci m1 = pci m /\
   uart m1 = set_cr saved (set_timer_field None u)) /\
  (0 < baud u < 2 ^ 27 ->
   0 <= irq u ->
   reads_invalid (trace m1) u = false ->
   exists m2,
     ns16550_resume m1 = Done m2 /\
     uart m2 =
       set_intr_works false
         (set_cr saved (set_timer_field (Some (timeout_ms u)) u)) /\
     (nonzero (bar u) = true ->
      let '(sb, sd, sf) := ps_bdf u in
      continues
        (EvPciWrite16 sb sd sf PCI_COMMAND saved
         :: EvPciWrite32 sb sd sf (PCI_BASE_ADDRESS_0 + bar_idx u * 4)
              (to_u32 (bar u))
         :: read_event (trace m1) u UART_IER ++ trace m1)
        (trace m2))).
Proof.
  intros u m1 saved.
  assert (Hs : trace m1 = EvStopTimer PollTimer :: trace m /\
               pci m1 = pci m /\
               uart m1 = set_cr saved (set_timer_field None u)).
  { unfold m1, saved, ns16550_suspend.
    cbn [stop_timer log upd_uart uart ps_bdf set_timer_field bar].
    fold u. destruct (ps_bdf u) as [[sb sd] sf].
    destruct (nonzero (bar u)); cbn [trace pci uart upd_uart];
      repeat split. }
  split; [exact Hs|].
  destruct Hs as (Ht & Hp & Hu).
  intros Hb Hirq Hval.
  unfold ns16550_resume. rewrite ioport_invalid_spec.
  replace (reads_invalid (trace m1) (uart m1))
    with (reads_invalid (trace m1) u) by (rewrite Hu; reflexivity).
  rewrite Hval.
  set (mr := mk_machine (uart m1) (pci m1)
               (after_read (trace m1) (uart m1) UART_IER)
               (delayed_resume_tries m1)).
  assert (Hur : uart (resume_restore_pci mr) = uart m1)
    by exact (uart_resume_restore_pci mr).
  unfold _ns16550_resume.
  destruct (setup_preirq_returns (resume_restore_pci mr)) as (m' & E).
  { rewrite Hur, Hu. exact Hb. }
  rewrite E. cbn [bind]. eexists. split; [reflexivity|].
  pose proof (setup_preirq_keeps_baud _ _
                ltac:(rewrite Hur, Hu; cbn [baud set_cr set_timer_field];
                      unfold BAUD_AUTO; fold u; lia) E) as Hu'.
  split.
  - rewrite setup_postirq_frame, Hu', Hur, Hu.
    cbn [irq set_intr_works set_cr set_timer_field timeout_ms].
    replace (0 <=? irq u) with true by (symmetry; apply Z.leb_le; exact Hirq).
    unfold set_intr_works, set_cr, set_timer_field. cbn. reflexivity.
  - intros Hbar.
    pose proof (resume_restore_pci_trace mr) as Hrt.
    cbn [uart mr] in Hrt. rewrite Hu in Hrt.
    cbn [bar set_cr set_timer_field ps_bdf cr bar_idx] in Hrt.
    fold u in Hrt. specialize (Hrt Hbar).
    destruct (ps_bdf u) as [[sb sd] sf] eqn:Eps.
    apply continues_setup_postirq.
    eapply continues_setup_preirq; [|exact E].
    rewrite Hrt. cbn [trace mr]. rewrite after_read_app.
    replace (to_u16 saved) with saved.
    + replace (read_event (trace m1) (uart m1) UART_IER)
        with (read_event (trace m1) u UART_IER)
        by (rewrite Hu; reflexivity).
      apply continues_refl.
    + unfold saved. rewrite Hbar. unfold pci_conf_read16, to_u16.
      now rewrite Z.mod_mod by lia.
Qed.


(** ** Post-interrupt initialisation *)






(** ** A port that is not configured *)

(** X13: a slot with no boot option, no default baud rate and not named
    as console is left alone: [ns16550_init] fills in the defaults and
    returns without any access to the port or to the PCI bus and without
    registering anything. *)
Theorem unconfigured_port_untouched (index : Z) (defaults : ns16550_defaults)
    (m : machine) :
  d_baud defaults = 0 ->
  let m' := ns16550_init index defaults false "" m in
  trace m' = trace m /\ pci m' = pci m /\
  delayed_resume_tries m' = delayed_resume_tries m /\
  registrations (trace m') = registrations (trace m).
Proof.
  intros Hb. cbv zeta. unfold ns16550_init.
  destruct ((index <? 0) || (1 <? index)); [repeat split|].
  unfold ns16550_parse_port_config, parse_fields.
  cbn [uart upd_uart baud set_baud set_clock_hz set_data_bits set_parity
       set_stop_bits set_irq set_io_base set_io_size set_reg_width
       set_reg_shift set_fifo_size].
  rewrite Hb. cbn [nonzero Z.eqb negb]. repeat split.
Qed.

(** ** The entry points that only look at the port *)

Lemma look_read (h : history) (u : ns16550) (reg : Z) :
  forallb is_look (read_event h u reg) = true.
Proof. unfold read_event. now destruct (reg_access u reg). Qed.

Lemma grows_look_read (h : history) (m : machine) (reg : Z) :
  grows is_look h (trace m) ->
  grows is_look h (trace (snd (ns_read_reg m reg))).
Proof.
  intros H. rewrite trace_read. apply grows_app; [apply look_read|exact H].
Qed.

Lemma same_settings_refl (u : ns16550) : same_settings u u.
Proof. reflexivity. Qed.

(** What an entry point that only looks leaves behind. *)
Lemma looks_tx_ready (m : machine) :
  let m' := snd (ns16550_tx_ready m) in
  uart m' = uart m /\ pci m' = pci m /\
  delayed_resume_tries m' = delayed_resume_tries m /\
  grows is_look (trace m) (trace m').
Proof.
  cbv zeta. unfold ns16550_tx_ready. rewrite ioport_invalid_spec.
  destruct (reads_invalid _ _); cbn [snd uart pci delayed_resume_tries trace].
  - repeat split. rewrite after_read_app.
    apply grows_app; [apply look_read|apply grows_refl].
  - rewrite ns_read_reg_spec. cbn [snd uart pci delayed_resume_tries trace].
    repeat split. rewrite !after_read_app.
    repeat (apply grows_app; [apply look_read|]). apply grows_refl.
Qed.

Lemma looks_getc (m : machine) :
  let m' := snd (ns16550_getc m) in
  uart m' = uart m /\ pci m' = pci m /\
  delayed_resume_tries m' = delayed_resume_tries m /\
  grows is_look (trace m) (trace m').
Proof.
  cbv zeta. unfold ns16550_getc. rewrite ioport_invalid_spec.
  destruct (reads_invalid _ _); cbn [snd uart pci delayed_resume_tries trace].
  - repeat split. rewrite after_read_app.
    apply grows_app; [apply look_read|apply grows_refl].
  - rewrite ns_read_reg_spec. cbn [snd uart pci delayed_resume_tries trace].
    destruct (negb _); cbn [snd uart pci delayed_resume_tries trace].
    + repeat split. rewrite !after_read_app.
      repeat (apply grows_app; [apply look_read|]). apply grows_refl.
    + rewrite ns_read_reg_spec.
      cbn [snd uart pci delayed_resume_tries trace].
      repeat split. rewrite !after_read_app.
      repeat (apply grows_app; [apply look_read|]). apply grows_refl.
Qed.

Lemma looks_interrupt_loop (fuel : nat) :
  forall m m',
    interrupt_loop fuel m = Done m' ->
    uart m' = uart m /\ pci m' = pci m /\
    delayed_resume_tries m' = delayed_resume_tries m /\
    grows is_look (trace m) (trace m').
Proof.
  induction fuel as [|k IH]; intros m m'; cbn [interrupt_loop];
    [discriminate|].
  rewrite ns_read_reg_spec.
  destruct (nonzero (Z.land _ UART_IIR_NOINT)).
  - intros [= <-]. cbn [uart pci delayed_resume_tries trace].
    repeat split. rewrite after_read_app.
    apply grows_app; [apply look_read|apply grows_refl].
  - rewrite ns_read_reg_spec. cbn [uart pci delayed_resume_tries trace].
    intros E. apply IH in E. destruct E as (Hu & Hp & Hn & Hg).
    unfold serial_tx_interrupt, serial_rx_interrupt in *.
    assert (G : grows is_look (trace m)
                  (after_read (after_read (trace m) (uart m) UART_IIR)
                     (uart m) UART_LSR)).
    { rewrite !after_read_app.
      repeat (apply grows_app; [apply look_read|]). apply grows_refl. }
    destruct (nonzero (Z.land _ UART_LSR_THRE));
      destruct (nonzero (Z.land _ UART_LSR_DR));
      cbn [log uart pci delayed_resume_tries trace] in *;
      (repeat split; try assumption);
      (eapply grows_trans; [|exact Hg]);
      repeat (apply grows_cons; [reflexivity|]); exact G.
Qed.

Lemma looks_poll_rx_loop (fuel : nat) :
  forall m out m',
    poll_rx_loop fuel m = Done (out, m') ->
    uart m' = uart m /\ pci m' = pci m /\
    delayed_resume_tries m' = delayed_resume_tries m /\
    grows is_look (trace m) (trace m').
Proof.
  induction fuel as [|k IH]; intros m out m'; [discriminate|].
  rewrite poll_rx_loop_step. cbv zeta.
  destruct (nonzero (Z.land _ UART_LSR_DR)).
  - destruct (reads_invalid _ _).
    + intros [= <- <-]. cbn [uart pci delayed_resume_tries trace].
      repeat split. rewrite !after_read_app.
      repeat (apply grows_app; [apply look_read|]). apply grows_refl.
    + intros E. apply IH in E. destruct E as (Hu & Hp & Hn & Hg).
      cbn [uart pci delayed_resume_tries trace] in *.
      repeat split; try assumption.
      eapply grows_trans; [|exact Hg].
      apply grows_cons; [reflexivity|]. rewrite !after_read_app.
      repeat (apply grows_app; [apply look_read|]). apply grows_refl.
  - intros [= <- <-]. cbn [uart pci delayed_resume_tries trace].
    repeat split. rewrite !after_read_app.
    repeat (apply grows_app; [apply look_read|]). apply grows_refl.
Qed.

Lemma looks_poll (fuel : nat) (m m' : machine) :
  ns16550_poll fuel m = Done m' ->
  same_settings (uart m) (uart m') /\ pci m' = pci m /\
  delayed_resume_tries m' = delayed_resume_tries m /\
  grows is_look (trace m) (trace m').
Proof.
  unfold ns16550_poll, __ns16550_poll.
  destruct (intr_works (uart m)).
  - intros [= <-]. repeat split. apply grows_refl.
  - destruct (poll_rx_loop fuel m) as [[out m1]| |] eqn:E; cbn [bind];
      try discriminate.
    apply looks_poll_rx_loop in E. destruct E as (Hu & Hp & Hn & Hg).
    intros [= <-]. unfold set_timer, log, upd_uart.
    destruct out; cbn [uart pci delayed_resume_tries trace].
    + unfold same_settings. rewrite Hu. repeat split; try assumption.
      apply grows_cons; [reflexivity|exact Hg].
    + rewrite ns_read_reg_spec. unfold serial_tx_interrupt, log.
      destruct (nonzero _); cbn [uart pci delayed_resume_tries trace];
        unfold same_settings; rewrite Hu; (repeat split; try assumption);
        repeat (apply grows_cons; [reflexivity|]);
        rewrite after_read_app;
        (apply grows_app; [apply look_read|exact Hg]).
Qed.

Lemma looks_entry (fuel : nat) (e : entry) (m m' : machine) :
  looks_only e = true ->
  run_entry fuel e m = Done m' ->
  same_settings (uart m) (uart m') /\ pci m' = pci m /\
  delayed_resume_tries m' = delayed_resume_tries m /\
  grows is_look (trace m) (trace m').
Proof.
  intros He. destruct e; try discriminate He; cbn [run_entry]; intros E.
  - injection E as <-. destruct (looks_tx_ready m) as (Hu & H).
    split; [unfold same_settings; now rewrite Hu|exact H].
  - injection E as <-. destruct (looks_getc m) as (Hu & H).
    split; [unfold same_settings; now rewrite Hu|exact H].
  - injection E as <-. repeat split. apply grows_refl.
  - unfold ns16550_interrupt in E. apply looks_interrupt_loop in E.
    destruct E as (Hu & H). split; [|exact H].
    unfold same_settings. rewrite Hu. reflexivity.
  - eapply looks_poll; exact E.
Qed.

(** X14: transmit-ready, get-char, irq-number, the interrupt handler and
    the poll timer only look at the port: whatever the descriptor, a run
    of them writes no register, no PCI configuration register and leaves
    the retry counter alone; all it adds to the trace is register reads,
    upcalls and settings of the poll timer, and all it changes in the
    descriptor is [intr_works] and the poll timer. *)
Theorem looking_never_writes (fuel : nat) (es : list entry) (m m' : machine) :
  forallb looks_only es = true ->
  run_entries fuel es m = Done m' ->
  same_settings (uart m) (uart m') /\
  pci m' = pci m /\
  delayed_resume_tries m' = delayed_resume_tries m /\
  exists t, trace m' = t ++ trace m /\ forallb is_look t = true.
Proof.
  revert m. induction es as [|e es IH]; intros m Hes; cbn [run_entries].
  - intros [= <-]. repeat split. apply grows_refl.
  - cbn [forallb] in Hes. apply andb_true_iff in Hes. destruct Hes as [He Hes].
    destruct (run_entry fuel e m) as [m1| |] eqn:E1; cbn [bind];
      try discriminate.
    intros E. apply looks_entry in E1; [|exact He].
    destruct E1 as (Hu1 & Hp1 & Hn1 & Hg1).
    destruct (IH m1 Hes E) as (Hu & Hp & Hn & Hg).
    split; [|split; [|split]].
    + unfold same_settings in *. now rewrite Hu.
    + now rewrite Hp.
    + now rewrite Hn.
    + eapply grows_trans; eassumption.
Qed.

(** ** Loops without a bound *)

Lemma interrupt_loop_stuck (u : ns16550) (tb : Z * Z * Z -> pci_fn)
    (n : Z) (h0 : history) :
  (forall t, nonzero (Z.land (reg_value (t ++ h0) u UART_IIR) UART_IIR_NOINT)
             = false) ->
  forall fuel t, interrupt_loop fuel (mk_machine u tb (t ++ h0) n) = Diverge.
Proof.
  intros H. induction fuel as [|k IH]; intros t; cbn [interrupt_loop];
    [reflexivity|].
  rewrite ns_read_reg_spec. cbn [uart pci trace delayed_resume_tries].
  rewrite H. rewrite ns_read_reg_spec.
  cbn [uart pci trace delayed_resume_tries].
  rewrite !after_read_app. unfold serial_tx_interrupt, serial_rx_interrupt, log.
  set (r1 := read_event (t ++ h0) u UART_IIR).
  set (r2 := read_event (r1 ++ t ++ h0) u UART_LSR).
  destruct (nonzero (Z.land _ UART_LSR_THRE));
    destruct (nonzero (Z.land _ UART_LSR_DR));
    cbn [uart pci trace delayed_resume_tries].
  - replace (EvRxInterrupt :: EvTxInterrupt :: r2 ++ r1 ++ t ++ h0)
      with ((EvRxInterrupt :: EvTxInterrupt :: r2 ++ r1 ++ t) ++ h0)
      by (cbn [app]; now rewrite <- !app_assoc).
    apply IH.
  - replace (EvTxInterrupt :: r2 ++ r1 ++ t ++ h0)
      with ((EvTxInterrupt :: r2 ++ r1 ++ t) ++ h0)
      by (cbn [app]; now rewrite <- !app_assoc).
    apply IH.
  - replace (EvRxInterrupt :: r2 ++ r1 ++ t ++ h0)
      with ((EvRxInterrupt :: r2 ++ r1 ++ t) ++ h0)
      by (cbn [app]; now rewrite <- !app_assoc).
    apply IH.
  - replace (r2 ++ r1 ++ t ++ h0) with ((r2 ++ r1 ++ t) ++ h0)
      by (now rewrite <- !app_assoc).
    apply IH.
Qed.

Lemma poll_rx_loop_stuck (u : ns16550) (tb : Z * Z * Z -> pci_fn)
    (n : Z) (h0 : history) :
  (forall t, nonzero (Z.land (reg_value (t ++ h0) u UART_LSR) UART_LSR_DR)
             = true) ->
  (forall t, reads_invalid (t ++ h0) u = false) ->
  forall fuel t, poll_rx_loop fuel (mk_machine u tb (t ++ h0) n) = Diverge.
Proof.
  intros Hd Hv. induction fuel as [|k IH]; intros t; [reflexivity|].
  rewrite poll_rx_loop_step. cbv zeta.
  cbn [uart pci trace delayed_resume_tries].
  rewrite Hd. rewrite !after_read_app.
  set (r1 := read_event (t ++ h0) u UART_LSR).
  replace (r1 ++ t ++ h0) with ((r1 ++ t) ++ h0) by (now rewrite <- app_assoc).
  rewrite Hv.
  set (r2 := read_event ((r1 ++ t) ++ h0) u UART_IER).
  replace (EvRxInterrupt :: r2 ++ (r1 ++ t) ++ h0)
    with ((EvRxInterrupt :: r2 ++ r1 ++ t) ++ h0)
    by (cbn [app]; now rewrite <- !app_assoc).
  apply IH.
Qed.

(** X15: neither the interrupt handler nor the poll timer bounds its loop.
    Against a port whose interrupt-identification register never reports
    "no interrupt pending", the handler does not return, whatever budget it
    is given; against a port that answers and whose line status keeps
    reporting data, neither does the poll. *)
Theorem loops_without_bound (m : machine) :
  let u := uart m in
  let h := trace m in
  ((forall t, nonzero (Z.land (reg_value (t ++ h) u UART_IIR) UART_IIR_NOINT)
              = false) ->
   forall fuel, ns16550_interrupt fuel m = Diverge) /\
  (intr_works u = false ->
   (forall t, nonzero (Z.land (reg_value (t ++ h) u UART_LSR) UART_LSR_DR)
              = true) ->
   (forall t, reads_invalid (t ++ h) u = false) ->
   forall fuel, ns16550_poll fuel m = Diverge).
Proof.
  destruct m as [u tb h n]. cbn [uart trace]. split.
  - intros H fuel. unfold ns16550_interrupt, upd_uart.
    cbn [uart pci trace delayed_resume_tries].
    apply (interrupt_loop_stuck (set_intr_works true u) tb n h H fuel []).
  - intros Hi Hd Hv fuel. unfold ns16550_poll, __ns16550_poll.
    cbn [uart]. rewrite Hi.
    pose proof (poll_rx_loop_stuck u tb n h Hd Hv fuel []) as E.
    cbn [app] in E. rewrite E. reflexivity.
Qed.

(** ** Fields left out of the boot option *)

Lemma field_start_skips (conf : string) :
  peek conf <> chr "," -> field_start conf = (false, conf).
Proof.
  intros H. unfold field_start.
  now replace (peek conf =? chr ",") with false
    by (symmetry; now apply Z.eqb_neq).
Qed.

Lemma field_start_empty (rest : string) :
  field_start (String "," (String "," rest)) = (false, String "," rest).
Proof. reflexivity. Qed.

(** X16: a field that is left out keeps the value the descriptor has: each
    of the five fields introduced by a comma is skipped when the string
    does not go on with a comma, and when it goes on with two commas, the
    second of which then introduces the next field.  What follows the baud
    rate and starts with neither '/' nor ',' is not looked at: "auto" with
    any such text behind it sets the baud rate to the auto sentinel,
    changes nothing else and goes on to the sanity checks. *)
Theorem omitted_fields_keep_defaults (idx : Z) (m : machine) :
  (forall conf,
     peek conf <> chr "," ->
     parse_dps m conf = Continue m conf /\
     parse_io_base idx m conf = Continue m conf /\
     parse_irq m conf = Continue m conf /\
     parse_port_bdf m conf = Continue m conf /\
     parse_bridge_bdf m conf = Continue m conf) /\
  (forall rest,
     let conf := String "," (String "," rest) in
     parse_dps m conf = Continue m (String "," rest) /\
     parse_io_base idx m conf = Continue m (String "," rest) /\
     parse_irq m conf = Continue m (String "," rest) /\
     parse_port_bdf m conf = Continue m (String "," rest) /\
     parse_bridge_bdf m conf = Continue m (String "," rest)) /\
  (forall text,
     peek text <> chr "/" -> peek text <> chr "," ->
     parse_fields idx m (String.append "auto" text) =
       Continue (upd_uart (set_baud BAUD_AUTO) m) text /\
     ns16550_parse_port_config idx m (String.append "auto" text) =
       config_parsed idx (upd_uart (set_baud BAUD_AUTO) m)).
Proof.
  assert (A : forall x conf,
             peek conf <> chr "," ->
             parse_dps x conf = Continue x conf /\
             parse_io_base idx x conf = Continue x conf /\
             parse_irq x conf = Continue x conf /\
             parse_port_bdf x conf = Continue x conf /\
             parse_bridge_bdf x conf = Continue x conf).
  { intros x conf H.
    unfold parse_dps, parse_io_base, parse_irq, parse_port_bdf,
      parse_bridge_bdf.
    rewrite field_start_skips by exact H. repeat split. }
  split; [apply A|split].
  - intros rest. cbv zeta.
    unfold parse_dps, parse_io_base, parse_irq, parse_port_bdf,
      parse_bridge_bdf.
    rewrite field_start_empty. repeat split.
  - intros text Hs Hc.
    assert (E : parse_fields idx m (String.append "auto" text) =
                Continue (upd_uart (set_baud BAUD_AUTO) m) text).
    { assert (Hp : String.prefix "auto" (String.append "auto" text) = true)
        by (destruct text; reflexivity).
      cbn [String.append parse_fields] in *. unfold parse_baud.
      rewrite Hp. cbn [advance and_then].
      unfold parse_clock.
      replace (peek text =? chr "/") with false
        by (symmetry; now apply Z.eqb_neq).
      cbn [and_then].
      destruct (A (upd_uart (set_baud BAUD_AUTO) m) text Hc)
        as (E1 & E2 & E3 & E4 & E5).
      rewrite E1. cbn [and_then]. rewrite E2. cbn [and_then].
      rewrite E3. cbn [and_then]. rewrite E4. cbn [and_then]. exact E5. }
    split; [exact E|].
    unfold ns16550_parse_port_config. now rewrite E.
Qed.

End DriverFacts.

(** * Further runs on the simulated platform *)

Section DriverRuns.

Import Sim.
Import Bench.


Lemma interrupt_only_reads_witness :
  nonzero (Z.land (@reg_value (platform (uart16550 0x3f8)) (trace pc)
                     (uart pc) UART_IIR) UART_IIR_NOINT)
    = true /\
  ns16550_interrupt 1 pc =
    Done (mk_machine (set_intr_works true (uart pc)) (pci pc)
            (@read_event (platform (uart16550 0x3f8)) (trace pc) (uart pc)
               UART_IIR ++ trace pc)
            (delayed_resume_tries pc)) /\
  forall m', ns16550_interrupt 1 pc = Done m' ->
             uart m' = set_intr_works true (uart pc) /\ pci m' = pci pc.
Proof.
  assert (H : nonzero (Z.land (@reg_value (platform (uart16550 0x3f8))
                                 (trace pc) (uart pc) UART_IIR)
                              UART_IIR_NOINT) = true) by reflexivity.
  destruct (interrupt_only_reads pc) as [T1 T2].
  refine (conj H (conj (T2 H 0%nat) _)).
  intros m' E. destruct (T1 1%nat m' E) as (Hu & Hp & _).
  exact (conj Hu Hp).
Defined.

Lemma setup_preirq_programs_divisor_witness :
  ns16550_setup_preirq pc =
    Done (mk_machine (set_intr_works false (uart pc)) (pci pc)
            [EvOutb 0xc7 0x3fa; EvOutb 0x03 0x3fc; EvOutb 0x03 0x3fb;
             EvOutb 0 0x3f9; EvOutb 1 0x3f8; EvOutb 0x83 0x3fb;
             EvOutb 0 0x3f9] 0).
Proof.
  assert (Hd : 5 <= data_bits (uart pc) <= 8) by (cbn; lia).
  assert (Hs : 1 <= stop_bits (uart pc) <= 2) by (cbn; lia).
  assert (Hb : 0 < baud (uart pc) < 2 ^ 27) by (cbn; lia).
  assert (Hc : 0 <= clock_hz (uart pc) < 2 ^ 31)
    by (cbn; unfold UART_CLOCK_HZ; lia).
  exact (setup_preirq_programs_divisor pc eq_refl eq_refl eq_refl
           Hd Hs eq_refl Hb Hc).
Defined.

(** A latch holding 1 gives 115200 baud; 0x180, the divisor of 300 baud,
    gives 0; an empty latch traps. *)
Lemma auto_baud_readback_witness :
  (exists m', ns16550_setup_preirq (pc_auto 1 0) = Done m' /\
              baud (uart m') = 115200) /\
  (exists m', ns16550_setup_preirq (pc_auto 0x80 1) = Done m' /\
              baud (uart m') = 0) /\
  ns16550_setup_preirq (pc_auto 0 0) = Fault.
Proof.
  split; [|split].
  - assert (Hc : 0 <= clock_hz (uart (pc_auto 1 0)) < 2 ^ 31)
      by (cbn; unfold UART_CLOCK_HZ; lia).
    destruct (auto_baud_readback (pc_auto 1 0) eq_refl eq_refl Hc)
      as (_ & T & _).
    destruct (T eq_refl eq_refl eq_refl) as (m' & E & Hb).
    exists m'. split; [exact E|]. rewrite Hb. reflexivity.
  - assert (Hc : 0 <= clock_hz (uart (pc_auto 0x80 1)) < 2 ^ 31)
      by (cbn; unfold UART_CLOCK_HZ; lia).
    destruct (auto_baud_readback (pc_auto 0x80 1) eq_refl eq_refl Hc)
      as (_ & _ & T).
    apply T. left. vm_compute. discriminate.
  - assert (Hc : 0 <= clock_hz (uart (pc_auto 0 0)) < 2 ^ 31)
      by (cbn; unfold UART_CLOCK_HZ; lia).
    destruct (auto_baud_readback (pc_auto 0 0) eq_refl eq_refl Hc)
      as (T & _ & _).
    apply T; reflexivity.
Defined.


Lemma init_fixes_geometry_witness :
  as_initialised ns16550_zero
    (uart (ns16550_init 0 com1_defaults false "115200,8n1"
             (boot (uart16550 0x3f8) empty_bus))) /\
  ns16550_init 2 com1_defaults false "115200,8n1"
    (boot (uart16550 0x3f8) empty_bus) = boot (uart16550 0x3f8) empty_bus.
Proof.
  destruct (init_fixes_geometry 0 com1_defaults false "115200,8n1"
              (boot (uart16550 0x3f8) empty_bus)) as [T1 _].
  destruct (init_fixes_geometry 2 com1_defaults false "115200,8n1"
              (boot (uart16550 0x3f8) empty_bus)) as [_ T2].
  split; [apply T1; lia|apply T2; right; lia].
Defined.

Lemma fifo_depth_after_boot_witness :
  exists m2,
    ns16550_init_preirq 0
      (ns16550_init 0 com1_defaults false "115200,8n1"
         (boot (uart16550 0x3f8) empty_bus)) = Done m2 /\
    (fifo_size (uart m2) = 1 \/ fifo_size (uart m2) = 16) /\
    reg_width (uart m2) = 1.
Proof.
  destruct (fifo_depth_after_boot 0 com1_defaults false "115200,8n1"
              (boot (uart16550 0x3f8) empty_bus))
    as (m2 & E & _ & Hf & Hw & _).
  - lia.
  - vm_compute. reflexivity.
  - vm_compute. split; reflexivity.
  - exists m2. exact (conj E (conj Hf Hw)).
Defined.

Lemma scan_restores_primary_bar_witness :
  let m := pc_with (plug (1, 2, 0) serial_card
                      (plug (0, 3, 0) two_bar_card empty_bus)) in
  fst (pci_uart_config m 0 0) = 0 /\
  ps_bdf (uart (snd (pci_uart_config m 0 0))) = (1, 2, 0) /\
  pci (snd (pci_uart_config m 0 0)) (0, 3, 0) = two_bar_card /\
  pci (snd (pci_uart_config m 0 0)) (1, 2, 0) = serial_card.
Proof.
  cbv zeta.
  set (m := pc_with (plug (1, 2, 0) serial_card
                       (plug (0, 3, 0) two_bar_card empty_bus))).
  assert (H : forall k, fn_probed 0 (pci m k) = true ->
                        fn_restored 0 (pci m k) = pci m k).
  { intros [[b d] f]. unfold m. cbn [pci pc_with plug].
    destruct ((1 =? b) && (2 =? d) && (0 =? f)).
    - intros _. reflexivity.
    - destruct ((0 =? b) && (3 =? d) && (0 =? f)).
      + intros _. reflexivity.
      + intros Hp. vm_compute in Hp. discriminate. }
  pose proof (scan_restores_primary_bar m 0 H) as T.
  split; [vm_compute; reflexivity|].
  split; [vm_compute; reflexivity|].
  split; [exact (T (0, 3, 0))|exact (T (1, 2, 0))].
Defined.

Lemma suspend_resume_roundtrip_witness :
  exists m2,
    ns16550_resume (ns16550_suspend pc_card) = Done m2 /\
    uart m2 = set_intr_works false (set_cr 1 (uart pc_card)) /\
    continues
      (EvPciWrite16 1 2 0 PCI_COMMAND 1
       :: EvPciWrite32 1 2 0 PCI_BASE_ADDRESS_0 0xe001
       :: @read_event (platform (uart16550 0xe000))
            (trace (ns16550_suspend pc_card)) (uart pc_card) UART_IER
       ++ trace (ns16550_suspend pc_card))
      (trace m2).
Proof.
  destruct (suspend_resume_roundtrip pc_card) as [_ T].
  destruct T as (m2 & E & Hu & Ht).
  - cbn. lia.
  - cbn. lia.
  - reflexivity.
  - exists m2. split; [exact E|]. split; [exact Hu|].
    exact (Ht eq_refl).
Defined.



Lemma unconfigured_port_untouched_witness :
  trace (ns16550_init 0 com1_defaults false ""
           (boot (uart16550 0x3f8) empty_bus)) = [] /\
  registrations
    (trace (ns16550_init 0 com1_defaults false ""
              (boot (uart16550 0x3f8) empty_bus))) = 0%nat.
Proof.
  destruct (unconfigured_port_untouched 0 com1_defaults
              (boot (uart16550 0x3f8) empty_bus) eq_refl)
    as (H1 & _ & _ & H2).
  exact (conj H1 H2).
Defined.

Lemma looking_never_writes_witness :
  exists m',
    run_entries 2 [tx_ready; getc; interrupt; poll; irq_number] pc = Done m' /\
    same_settings (uart pc) (uart m') /\
    pci m' = pci pc /\
    exists t, trace m' = t ++ trace pc /\ forallb is_look t = true.
Proof.
  assert (E : exists m',
             run_entries 2 [tx_ready; getc; interrupt; poll; irq_number] pc
             = Done m').
  { let v := eval vm_compute in
        (run_entries 2 [tx_ready; getc; interrupt; poll; irq_number] pc) in
    match v with Done ?m' => exists m'; reflexivity end. }
  destruct E as [m' E]. exists m'. split; [exact E|].
  destruct (looking_never_writes 2
              [tx_ready; getc; interrupt; poll; irq_number] pc m' eq_refl E)
    as (H1 & H2 & _ & H3).
  exact (conj H1 (conj H2 H3)).
Defined.

Lemma loops_without_bound_witness :
  ns16550_interrupt 1000 pc_busy = Diverge /\
  ns16550_poll 1000 pc_busy = Diverge.
Proof.
  destruct (loops_without_bound pc_busy) as [T1 T2].
  split.
  - apply T1. intros t. reflexivity.
  - apply T2; [reflexivity| |]; intros t; reflexivity.
Defined.

Lemma omitted_fields_keep_defaults_witness :
  parse_fields 0 pc "auto" = Continue (upd_uart (set_baud BAUD_AUTO) pc) "" /\
  parse_fields 0 pc "auto 8n1" =
    Continue (upd_uart (set_baud BAUD_AUTO) pc) " 8n1" /\
  parse_irq pc ",,1:2.0" = Continue pc ",1:2.0".
Proof.
  destruct (omitted_fields_keep_defaults 0 pc) as (_ & T2 & T3).
  split; [|split].
  - apply (T3 ""%string); discriminate.
  - apply (T3 " 8n1"%string); discriminate.
  - apply (T2 "1:2.0"%string).
Defined.

End DriverRuns.
